(** * Sandboxed action execution: a shallow embedding

    The development follows three modules of the backend:

    - [backend/runtime/config.py]: [ResourceLimits] and its validators,
      [DockerConfig], [SandboxConfig], [SandboxRuntimeOptions];
    - [backend/runtime/docker_runtime.py]: [DockerRuntime], which drives the
      container engine through [docker ...] command lines;
    - [backend/runtime/action_executor.py]: [ActionExecutor] and
      [ActionServer].

    Conventions of the embedding.

    - Python [str] is a Rocq [string]; a non-ASCII literal stands for its
      UTF-8 bytes, and [len] counts characters, not bytes.  [str.isdigit] is
      decided on ASCII text; for other text the verdict of the Unicode
      database is a parameter of the validators.  The white space removed
      by [str.strip] is the ASCII one, which is exact for ASCII text.
    - The free-form dictionaries [parameters] and [metadata] are finite maps
      keyed by strings.  Parameter values are strings, which is how every
      built-in handler uses them; an absent key and the empty string are the
      two falsy cases of [not value].
    - Time is counted in milliseconds on an integer clock: a timeout of [t]
      seconds is [1000 * t] ticks, [execution_time] is the tick difference.
    - Coroutines are functions in a state-and-exception monad.  A raised
      exception keeps the mutations made before it, as in Python.
    - The container engine is an oracle: the [n]-th subprocess spawned, given
      its command line, ends with an exit code, two byte streams and a
      duration.  [asyncio.wait_for] compares that duration with its deadline.
    - Cancellation of a task is delivered at one of its suspension points: a
      subprocess await, or the very first step of a task that was not
      scheduled yet. *)

From stdpp Require Import gmap strings list fin_maps.
From Stdlib Require Import ZArith String Ascii List Lia Bool.
Import ListNotations.

Open Scope string_scope.
Open Scope list_scope.
Open Scope Z_scope.

#[local] Arguments String.append !s1 s2 : simpl nomatch.
#[local] Arguments Ascii.eqb : simpl never.

(** ** Text *)

Module Text.

Definition dquote : ascii := "034"%char.
Definition backslash : ascii := "092"%char.

Definition str1 (c : ascii) : string := String c EmptyString.

(** [sep.join(parts)] *)
Fixpoint join (sep : string) (parts : list string) : string :=
  match parts with
  | [] => EmptyString
  | [p] => p
  | p :: rest => p +:+ sep +:+ join sep rest
  end.

Definition is_digit_char (c : ascii) : bool :=
  let n := N_of_ascii c in ((48 <=? n) && (n <=? 57))%N.

Fixpoint all_chars (p : ascii -> bool) (s : string) : bool :=
  match s with
  | EmptyString => true
  | String c r => p c && all_chars p r
  end.

Definition byte_in (lo hi : N) (c : ascii) : bool :=
  let n := N_of_ascii c in ((lo <=? n) && (n <=? hi))%N.

(** The bytes 10xxxxxx, which continue a character in UTF-8. *)
Definition continuation : ascii -> bool := byte_in 128 191.

(** A text all of whose characters are ASCII: every byte is below 128. *)
Definition is_ascii (s : string) : bool :=
  all_chars (fun c => (N_of_ascii c <? 128)%N) s.

(** [len(s)], the number of characters: in UTF-8, the number of bytes that
    do not continue a character. *)
Fixpoint len (s : string) : nat :=
  match s with
  | EmptyString => O
  | String c r => if continuation c then len r else S (len r)
  end.

(** [s.isdigit()] for a text in ASCII: every character is one of 0 to 9 and
    there is at least one. *)
Definition ascii_isdigit (s : string) : bool :=
  match s with
  | EmptyString => false
  | _ => all_chars is_digit_char s
  end.

(** [s.isdigit()]: every character is a digit and there is at least one.
    For a text with characters outside ASCII, Python decides with the
    Unicode character database, which knows many more digits than 0 to 9
    (superscripts, Arabic-Indic digits, ...); the database is not part of
    the program, and [unicode_isdigit] stands for its verdict on such a
    text. *)
Definition isdigit (unicode_isdigit : string -> bool) (s : string) : bool :=
  if is_ascii s then ascii_isdigit s else unicode_isdigit s.

(** [s.count(c)] for a one-character pattern. *)
Fixpoint count (c : ascii) (s : string) : nat :=
  match s with
  | EmptyString => O
  | String d r => if Ascii.eqb c d then S (count c r) else count c r
  end.

(** [s.replace(c, "", 1)]: the first occurrence of [c] is dropped. *)
Fixpoint remove_first (c : ascii) (s : string) : string :=
  match s with
  | EmptyString => EmptyString
  | String d r => if Ascii.eqb c d then r else String d (remove_first c r)
  end.

(** [s.replace(c, by)]: every occurrence of the character is replaced. *)
Fixpoint replace_char (c : ascii) (by_ : string) (s : string) : string :=
  match s with
  | EmptyString => EmptyString
  | String d r =>
      if Ascii.eqb c d then by_ +:+ replace_char c by_ r
      else String d (replace_char c by_ r)
  end.

(** [s[-1]], defined when [s] is not empty. *)
Fixpoint last_char (s : string) : option ascii :=
  match s with
  | EmptyString => None
  | String c EmptyString => Some c
  | String _ r => last_char r
  end.

(** [s[:n]] *)
Definition prefix (n : nat) (s : string) : string := String.substring 0 n s.

(** White space of [str.strip] within ASCII: TAB..CR, FS..US and SPACE. *)
Definition is_space_char (c : ascii) : bool :=
  let n := N_of_ascii c in
  (((9 <=? n) && (n <=? 13)) || ((28 <=? n) && (n <=? 32)))%N.

Fixpoint lstrip (s : string) : string :=
  match s with
  | EmptyString => EmptyString
  | String c r => if is_space_char c then lstrip r else s
  end.

Fixpoint rev_onto (s acc : string) : string :=
  match s with
  | EmptyString => acc
  | String c r => rev_onto r (String c acc)
  end.

Definition rev (s : string) : string := rev_onto s EmptyString.

Definition strip (s : string) : string := rev (lstrip (rev (lstrip s))).


(** Well-formed UTF-8, as the strict decoder of [bytes.decode()] accepts
    it: shortest forms only, no surrogates, nothing above U+10FFFF. *)
Fixpoint utf8_valid (s : string) : bool :=
  match s with
  | EmptyString => true
  | String b0 r0 =>
      if byte_in 0 127 b0 then utf8_valid r0
      else
        match r0 with
        | EmptyString => false
        | String b1 r1 =>
            if byte_in 194 223 b0 then continuation b1 && utf8_valid r1
            else
              match r1 with
              | EmptyString => false
              | String b2 r2 =>
                  if byte_in 224 239 b0 then
                    (if byte_in 224 224 b0 then byte_in 160 191 b1
                     else if byte_in 237 237 b0 then byte_in 128 159 b1
                     else continuation b1)
                    && continuation b2 && utf8_valid r2
                  else
                    match r2 with
                    | EmptyString => false
                    | String b3 r3 =>
                        if byte_in 240 244 b0 then
                          (if byte_in 240 240 b0 then byte_in 144 191 b1
                           else if byte_in 244 244 b0 then byte_in 128 143 b1
                           else continuation b1)
                          && continuation b2 && continuation b3
                          && utf8_valid r3
                        else false
                    end
              end
        end
  end.

(** [raw.decode().strip() if raw else ""]; [None] stands for the
    [UnicodeDecodeError] of a byte stream that is not UTF-8. *)
Definition decode_strip (raw : string) : option string :=
  match raw with
  | EmptyString => Some EmptyString
  | _ => if utf8_valid raw then Some (strip raw) else None
  end.

End Text.

(** ** Exceptions and the coroutine monad *)

(** The exception classes that the modelled code raises or discriminates,
    and the ones a registered handler may raise besides.  [CancelledError]
    derives from [BaseException] only, so an [except Exception] clause lets
    it through, and so does every other class outside [Exception]:
    [SystemExit], [KeyboardInterrupt], [GeneratorExit], or a class of the
    caller's own that derives from [BaseException]; [OutsideException]
    stands for an instance of one of those, with the name of its class and
    its text.  The remaining classes below are subclasses of [Exception]. *)
Inductive exn : Type :=
| CancelledError
| TimeoutError
| Exception (msg : string)
| AttributeError (msg : string)
| UnicodeDecodeError
| ValueError (msg : string)
| ValidationError (errors : list string)
| OutsideException (class_name : string) (msg : string).

(** [isinstance(e, Exception)] *)
Definition is_Exception (e : exn) : bool :=
  match e with
  | CancelledError => false
  | OutsideException _ _ => false
  | _ => true
  end.

(** [str(e)].  For [UnicodeDecodeError] the text stops after the part that
    all such errors share (Python goes on with the byte, its position and
    the reason); for [ValidationError] the messages of the validators are
    joined (pydantic adds the names of the fields). *)
Definition str_exn (e : exn) : string :=
  match e with
  | CancelledError => EmptyString
  | TimeoutError => EmptyString
  | Exception msg => msg
  | AttributeError msg => msg
  | UnicodeDecodeError => "'utf-8' codec can't decode bytes"
  | ValueError msg => msg
  | ValidationError errors => Text.join "; " errors
  | OutsideException _ msg => msg
  end.

Inductive Res (A : Type) : Type :=
| Ok (a : A)
| Raise (e : exn).
Arguments Ok {A} a.
Arguments Raise {A} e.

Definition M (S A : Type) : Type := S -> Res A * S.

Definition ret {S A} (a : A) : M S A := fun s => (Ok a, s).

Definition bind {S A B} (m : M S A) (k : A -> M S B) : M S B :=
  fun s =>
    match m s with
    | (Ok a, s') => k a s'
    | (Raise e, s') => (Raise e, s')
    end.

Definition raise {S A} (e : exn) : M S A := fun s => (Raise e, s).

Definition get {S} : M S S := fun s => (Ok s, s).

Definition modify {S} (f : S -> S) : M S unit := fun s => (Ok tt, f s).

(** [try: body / except ...]: [clauses e] is the suite of the first clause
    that matches [e], or [None] when no clause matches and [e] propagates. *)
Definition try_except {S A} (body : M S A) (clauses : exn -> option (M S A))
  : M S A :=
  fun s =>
    match body s with
    | (Ok a, s') => (Ok a, s')
    | (Raise e, s') =>
        match clauses e with
        | Some suite => suite s'
        | None => (Raise e, s')
        end
    end.

(** Runs a computation on a component of the state. *)
Definition zoom {S T A} (proj : S -> T) (inj : T -> S -> S) (m : M T A)
  : M S A :=
  fun s => let '(r, t') := m (proj s) in (r, inj t' s).

Declare Scope coro_scope.
Delimit Scope coro_scope with coro.
Notation "x <- c ;; k" := (bind c (fun x => k))
  (at level 100, c at next level, right associativity) : coro_scope.
Notation "c ;;; k" := (bind c (fun _ => k))
  (at level 100, right associativity) : coro_scope.
Open Scope coro_scope.

(** ** Python values for result payloads *)

#[local] Set Warnings "-register-all".

Inductive pyval : Type :=
| VNone
| VBool (b : bool)
| VInt (z : Z)
| VStr (s : string)
| VDict (d : list (string * pyval)).

Definition pydict : Type := list (string * pyval).

(** [d.get(key, default)] on a dictionary literal. *)
Fixpoint dict_get (d : pydict) (key : string) (default : pyval) : pyval :=
  match d with
  | [] => default
  | (k, v) :: rest => if String.eqb k key then v else dict_get rest key default
  end.

(** [not value] for an optional string: absent ([None]) or empty. *)
Definition falsy (v : option string) : bool :=
  match v with
  | None => true
  | Some s => match s with EmptyString => true | _ => false end
  end.

(** ** config.py *)

Inductive SandboxType : Type := DOCKER | LOCAL | KUBERNETES | REMOTE.

Module ResourceLimits.

Record t : Type := mk {
  cpu : string;
  memory : string;
  disk : string;
  timeout : Z;
  max_processes : Z
}.

Definition valid_suffixes : list ascii := ["K"; "M"; "G"; "T"]%char.

Definition in_suffixes (c : ascii) : bool :=
  existsb (Ascii.eqb c) valid_suffixes.

(** The three validators.  [unicode_isdigit] is what [str.isdigit] answers
    for a text with characters outside ASCII. *)

(** [@validator("cpu")] *)
Definition validate_cpu (unicode_isdigit : string -> bool) (v : string)
  : Res string :=
  if negb (Text.isdigit unicode_isdigit v
           || (Text.isdigit unicode_isdigit (Text.remove_first "." v)
               && (Text.count "." v <? 2)%nat))
  then Raise (ValueError "CPU 限制必须是数字格式（例如 '1' 或 '0.5'）")
  else Ok v.

(** [v[-1] not in valid_suffixes]; the caller has checked [len(v) >= 2].
    The suffixes are ASCII letters, so the last character is one of them
    exactly when the last byte is. *)
Definition last_not_suffix (v : string) : bool :=
  match Text.last_char v with
  | Some c => negb (in_suffixes c)
  | None => true
  end.

(** [@validator("memory")] *)
Definition validate_memory (unicode_isdigit : string -> bool) (v : string)
  : Res string :=
  if (Text.len v <? 2)%nat
  then Raise (ValueError "内存限制格式无效（需要包含单位，如 '1G'）")
  else if last_not_suffix v && negb (Text.isdigit unicode_isdigit v)
  then Raise (ValueError "内存限制必须以 K, M, G, T 结尾或纯数字（字节）")
  else Ok v.

(** [@validator("disk")] *)
Definition validate_disk (unicode_isdigit : string -> bool) (v : string)
  : Res string :=
  if (Text.len v <? 2)%nat
  then Raise (ValueError "磁盘限制格式无效（需要包含单位，如 '10G'）")
  else if last_not_suffix v && negb (Text.isdigit unicode_isdigit v)
  then Raise (ValueError "磁盘限制必须以 K, M, G, T 结尾或纯数字（字节）")
  else Ok v.

Definition errors_of {A} (r : Res A) : list string :=
  match r with
  | Ok _ => []
  | Raise e => [str_exn e]
  end.

(** [ResourceLimits(cpu=.., memory=.., disk=.., timeout=.., max_processes=..)]:
    the three validators run, their errors are collected, and one
    [ValidationError] is raised when there is any.  [timeout] and
    [max_processes] are plain [int] fields without a validator. *)
Definition new (unicode_isdigit : string -> bool) (cpu memory disk : string)
  (timeout max_processes : Z) : Res t :=
  match errors_of (validate_cpu unicode_isdigit cpu)
        ++ errors_of (validate_memory unicode_isdigit memory)
        ++ errors_of (validate_disk unicode_isdigit disk) with
  | [] => Ok (mk cpu memory disk timeout max_processes)
  | errors => Raise (ValidationError errors)
  end.

(** The field defaults: [ResourceLimits()]. *)
Definition default : t := mk "1" "1G" "10G" 300 10.

(** [self.dict()] of the pydantic model. *)
Definition dict (r : t) : pydict :=
  [("cpu", VStr (cpu r)); ("memory", VStr (memory r));
   ("disk", VStr (disk r)); ("timeout", VInt (timeout r));
   ("max_processes", VInt (max_processes r))].

End ResourceLimits.

Module DockerConfig.

Record t : Type := mk {
  image : string;
  network_mode : string;
  privileged : bool;
  volumes : list (string * string);
  environment : list (string * string);
  entrypoint : option string;
  command : option string
}.

Definition default : t :=
  mk "python:3.12-slim" "bridge" false [] [] None None.

Definition opt_str (o : option string) : pyval :=
  match o with
  | Some s => VStr s
  | None => VNone
  end.

Definition str_dict (d : list (string * string)) : pyval :=
  VDict (map (fun kv => (fst kv, VStr (snd kv))) d).

Definition dict (c : t) : pydict :=
  [("image", VStr (image c)); ("network_mode", VStr (network_mode c));
   ("privileged", VBool (privileged c)); ("volumes", str_dict (volumes c));
   ("environment", str_dict (environment c));
   ("entrypoint", opt_str (entrypoint c)); ("command", opt_str (command c))].

End DockerConfig.

Module SandboxConfig.

(** The Kubernetes sub-configuration and the free-form metadata are not
    read by the runtime and are left out. *)
Record t : Type := mk {
  sandbox_type : SandboxType;
  resource_limits : ResourceLimits.t;
  docker_config : DockerConfig.t;
  working_dir : string;
  cleanup : bool;
  enable_monitoring : bool
}.

Definition default : t :=
  mk DOCKER ResourceLimits.default DockerConfig.default "/workspace"
     true true.

End SandboxConfig.

(** [DEFAULT_CONFIG = SandboxConfigManager.get_default_config()] *)
Definition DEFAULT_CONFIG : SandboxConfig.t := SandboxConfig.default.

Module SandboxRuntimeOptions.

Record t : Type := mk {
  sandbox_type : SandboxType;
  resource_limits : ResourceLimits.t;
  docker_config : DockerConfig.t;
  working_dir : string;
  cleanup : bool;
  enable_monitoring : bool
}.

(** [SandboxRuntimeOptions()] *)
Definition default : t :=
  mk DOCKER ResourceLimits.default DockerConfig.default "/workspace"
     true true.

Definition sandbox_type_value (s : SandboxType) : string :=
  match s with
  | DOCKER => "docker"
  | LOCAL => "local"
  | KUBERNETES => "kubernetes"
  | REMOTE => "remote"
  end.

Definition to_dict (o : t) : pydict :=
  [("sandbox_type", VStr (sandbox_type_value (sandbox_type o)));
   ("resource_limits", VDict (ResourceLimits.dict (resource_limits o)));
   ("docker_config", VDict (DockerConfig.dict (docker_config o)));
   ("working_dir", VStr (working_dir o));
   ("cleanup", VBool (cleanup o));
   ("enable_monitoring", VBool (enable_monitoring o))].

(** The names an instance answers to: the dataclass fields and the two
    methods the class body defines. *)
Definition attributes : list string :=
  ["sandbox_type"; "resource_limits"; "docker_config"; "kubernetes_config";
   "working_dir"; "cleanup"; "enable_monitoring"; "metadata";
   "to_dict"; "from_dict"].

Definition has_attribute (name : string) : bool :=
  existsb (String.eqb name) attributes.

(** [options.dict()], as [create_container] writes it.  The class is a
    plain [@dataclass], not a pydantic model: the attribute lookup decides
    whether the call can be made at all. *)
Definition dict (o : t) : Res pydict :=
  if has_attribute "dict" then Ok (to_dict o)
  else Raise (AttributeError
                "'SandboxRuntimeOptions' object has no attribute 'dict'").

End SandboxRuntimeOptions.

(** ** The world outside the process *)

(** How one subprocess ends: [proc.returncode], the two pipes as
    [communicate()] drains them, and how long that took. *)
Record ProcResult : Type := mkProc {
  returncode : Z;
  stdout : string;
  stderr : string;
  elapsed : Z
}.

(** The operations of a runtime, as a call-recording double would log them. *)
Inductive RuntimeOp : Type :=
| OpCreate
| OpExec (container_id command : string)
| OpCopyTo (container_id host_path container_path : string)
| OpCopyFrom (container_id container_path host_path : string)
| OpInspect (container_id : string)
| OpStop (container_id : string)
| OpRemove (container_id : string).

Record Env : Type := mkEnv {
  (** the engine: outcome of the [n]-th subprocess, given its command line *)
  engine : nat -> string -> ProcResult;
  (** [json.loads(text)[0]] read as [docker inspect] output: the values of
      [State.Status], the CPU usage and the memory usage ([0] for both when
      there is no [Stats] key); [None] when parsing or a key lookup raises *)
  json_inspect : string -> option (pyval * pyval * pyval);
  (** the 32 hexadecimal digits of the [n]-th [uuid.uuid4()] *)
  uuid_src : nat -> string;
  (** command lines handed to the shell so far, oldest first *)
  spawned : list string;
  uuid_drawn : nat;
  (** the clock, in milliseconds *)
  now : Z;
  (** the subprocess await, counted from the start of the log, at which a
      pending cancellation request is delivered *)
  cancel_at : option nat;
  (** runtime operations entered so far, oldest first *)
  ops : list RuntimeOp
}.

Definition set_spawned (l : list string) (w : Env) : Env :=
  mkEnv (engine w) (json_inspect w) (uuid_src w) l (uuid_drawn w) (now w)
        (cancel_at w) (ops w).

Definition set_uuid_drawn (n : nat) (w : Env) : Env :=
  mkEnv (engine w) (json_inspect w) (uuid_src w) (spawned w) n (now w)
        (cancel_at w) (ops w).

Definition set_now (t : Z) (w : Env) : Env :=
  mkEnv (engine w) (json_inspect w) (uuid_src w) (spawned w) (uuid_drawn w) t
        (cancel_at w) (ops w).

Definition set_cancel_at (c : option nat) (w : Env) : Env :=
  mkEnv (engine w) (json_inspect w) (uuid_src w) (spawned w) (uuid_drawn w)
        (now w) c (ops w).

Definition set_ops (l : list RuntimeOp) (w : Env) : Env :=
  mkEnv (engine w) (json_inspect w) (uuid_src w) (spawned w) (uuid_drawn w)
        (now w) (cancel_at w) l.

(** [uuid.uuid4().hex] *)
Definition uuid4_hex : M Env string :=
  fun w => (Ok (uuid_src w (uuid_drawn w)), set_uuid_drawn (S (uuid_drawn w)) w).

(** The digits of a UUID in groups of 8-4-4-4-12. *)
Definition dashed (h : string) : string :=
  String.substring 0 8 h +:+ "-" +:+ String.substring 8 4 h +:+ "-"
  +:+ String.substring 12 4 h +:+ "-" +:+ String.substring 16 4 h
  +:+ "-" +:+ String.substring 20 12 h.

(** [str(uuid.uuid4())] *)
Definition uuid4_str : M Env string :=
  h <- uuid4_hex ;;
  ret (dashed h).

(** [create_subprocess_shell(cmdline)] followed by [proc.communicate()]: one
    suspension of the coroutine.  A cancellation delivered there raises
    [CancelledError] in the coroutine; the process it was waiting for is left
    to itself. *)
Definition communicate (cmdline : string) : M Env ProcResult :=
  fun w =>
    let n := length (spawned w) in
    let w1 := set_spawned (spawned w ++ [cmdline]) w in
    if bool_decide (cancel_at w = Some n) then (Raise CancelledError, w1)
    else
      let p := engine w n cmdline in
      (Ok p, set_now (now w + elapsed p) w1).

(** [asyncio.wait_for(fut, timeout)] with [timeout] in seconds.  A deadline
    that is not positive cancels [fut] before its first step; otherwise the
    deadline fires when [fut] has not finished [timeout] seconds later, and
    the caller resumes at the deadline. *)
Definition wait_for {A} (fut : M Env A) (timeout : Z) : M Env A :=
  fun w =>
    if timeout <=? 0 then (Raise TimeoutError, w)
    else
      match fut w with
      | (Raise CancelledError, w') => (Raise CancelledError, w')
      | (r, w') =>
          if now w + 1000 * timeout <=? now w'
          then (Raise TimeoutError, set_now (now w + 1000 * timeout) w')
          else (r, w')
      end.

(** ** docker_runtime.py *)

Module DockerRuntime.

(** One entry of [self._containers]. *)
Record ContainerInfo : Type := mkInfo {
  container_id : string;
  name : string;
  options : pydict;
  status : string;
  created_at : Z
}.

Record t : Type := mk {
  config : SandboxConfig.t;
  _containers : gmap string ContainerInfo;
  _initialized : bool
}.

(** [DockerRuntime(config)] *)
Definition new (config : option SandboxConfig.t) : t :=
  mk (match config with Some c => c | None => DEFAULT_CONFIG end) ∅ false.

(** The state a method of the runtime runs in: the world and [self]. *)
Record St : Type := mkSt {
  env : Env;
  self : t
}.

Definition on_env {A} (m : M Env A) : M St A :=
  zoom env (fun w s => mkSt w (self s)) m.

Definition set_containers (c : gmap string ContainerInfo) : M St unit :=
  modify (fun s => mkSt (env s) (mk (config (self s)) c (_initialized (self s)))).

Definition set_initialized (b : bool) : M St unit :=
  modify (fun s => mkSt (env s) (mk (config (self s)) (_containers (self s)) b)).

Definition record_op (op : RuntimeOp) : M St unit :=
  on_env (modify (fun w => set_ops (ops w ++ [op]) w)).

Definition decode (raw : string) : M Env string :=
  match Text.decode_strip raw with
  | Some s => ret s
  | None => raise UnicodeDecodeError
  end.

(** [_run_docker_command(args, check)]; no caller passes [cwd]. *)
Definition _run_docker_command (args : list string) (check : bool)
  : M Env string :=
  let command := "docker" :: args in
  proc <- communicate (Text.join " " command) ;;
  stdout_str <- decode (stdout proc) ;;
  stderr_str <- decode (stderr proc) ;;
  if check && negb (returncode proc =? 0)
  then raise (Exception ("Docker 命令执行失败: " +:+ stderr_str))
  else ret stdout_str.

(** [initialize()]: its [except] clause logs and re-raises. *)
Definition initialize : M St unit :=
  s <- get ;;
  if _initialized (self s) then ret tt
  else
    (_ <- on_env (_run_docker_command ["version"] true) ;;
     set_initialized true).

Record ContainerConfig : Type := mkContainerConfig {
  cc_name : string;
  cc_workdir : string;
  cc_image : string;
  cc_network : string
}.

Definition _build_container_config (options : SandboxRuntimeOptions.t)
  : M St ContainerConfig :=
  h <- on_env uuid4_hex ;;
  let container_name := "openhands-" +:+ Text.prefix 12 h in
  ret (mkContainerConfig container_name
         (SandboxRuntimeOptions.working_dir options)
         (DockerConfig.image (SandboxRuntimeOptions.docker_config options))
         (DockerConfig.network_mode
            (SandboxRuntimeOptions.docker_config options))).

(** The argument list of [docker create] as [create_container] builds it. *)
Definition create_args (container_name : string)
  (options : SandboxRuntimeOptions.t) : list string :=
  let dc := SandboxRuntimeOptions.docker_config options in
  let rl := SandboxRuntimeOptions.resource_limits options in
  ["create"; "--name"; container_name;
   "--workdir"; SandboxRuntimeOptions.working_dir options;
   "--network"; DockerConfig.network_mode dc]
  ++ ["--cpus"; ResourceLimits.cpu rl]
  ++ ["--memory"; ResourceLimits.memory rl]
  ++ concat (map (fun kv => ["-v"; fst kv +:+ ":" +:+ snd kv])
               (DockerConfig.volumes dc))
  ++ concat (map (fun kv => ["-e"; fst kv +:+ "=" +:+ snd kv])
               (DockerConfig.environment dc))
  ++ (if DockerConfig.privileged dc then ["--privileged"] else [])
  ++ [DockerConfig.image dc]
  ++ (if falsy (DockerConfig.entrypoint dc) then []
      else ["--entrypoint"; default EmptyString (DockerConfig.entrypoint dc)])
  ++ (if falsy (DockerConfig.command dc) then []
      else [default EmptyString (DockerConfig.command dc)]).

Definition lift_res {S A} (r : Res A) : M S A := fun s => (r, s).

(** [create_container(options)].  The lock of [async with self._lock] is
    free whenever a single coroutine runs, and is not modelled. *)
Definition create_container (options : option SandboxRuntimeOptions.t)
  : M St string :=
  record_op OpCreate ;;;
  s <- get ;;
  (if _initialized (self s) then ret tt else initialize) ;;;
  let options :=
    match options with
    | Some o => o
    | None => SandboxRuntimeOptions.default
    end in
  container_config <- _build_container_config options ;;
  let cmd := create_args (cc_name container_config) options in
  container_id <- on_env (_run_docker_command cmd true) ;;
  _ <- on_env (_run_docker_command ["start"; container_id] true) ;;
  snapshot <- lift_res (SandboxRuntimeOptions.dict options) ;;
  s <- get ;;
  set_containers
    (<[container_id :=
         mkInfo container_id (cc_name container_config) snapshot "running"
                (now (env s))]> (_containers (self s))) ;;;
  ret container_id.

(** The three dictionaries [execute_command] can return. *)
Definition exec_success (output : string) : pydict :=
  [("success", VBool true); ("output", VStr output); ("return_code", VInt 0)].

Definition exec_timeout : pydict :=
  [("success", VBool false); ("output", VStr "命令执行超时");
   ("return_code", VInt (-1)); ("error", VStr "Timeout")].

Definition exec_failure (e : exn) : pydict :=
  [("success", VBool false); ("output", VStr (str_exn e));
   ("return_code", VInt (-1)); ("error", VStr (str_exn e))].

Definition not_found {A} (container_id : string) : M St A :=
  raise (Exception ("容器未找到: " +:+ container_id)).

(** [timeout or self.config.resource_limits.timeout] *)
Definition effective_timeout (timeout : option Z) (rt : t) : Z :=
  match timeout with
  | Some 0 | None => ResourceLimits.timeout (SandboxConfig.resource_limits (config rt))
  | Some n => n
  end.

(** [execute_command(container_id, command, timeout)] *)
Definition execute_command (container_id command : string)
  (timeout : option Z) : M St pydict :=
  record_op (OpExec container_id command) ;;;
  s <- get ;;
  match _containers (self s) !! container_id with
  | None => not_found container_id
  | Some _ =>
      let timeout := effective_timeout timeout (self s) in
      try_except
        (let cmd := ["exec"; container_id] ++ ["sh"; "-c"; command] in
         result <- on_env (wait_for (_run_docker_command cmd true) timeout) ;;
         ret (exec_success result))
        (fun e =>
           match e with
           | TimeoutError => Some (ret exec_timeout)
           | _ => if is_Exception e then Some (ret (exec_failure e)) else None
           end)
  end.

(** [copy_to_container(container_id, host_path, container_path)] *)
Definition copy_to_container (container_id host_path container_path : string)
  : M St bool :=
  record_op (OpCopyTo container_id host_path container_path) ;;;
  s <- get ;;
  match _containers (self s) !! container_id with
  | None => not_found container_id
  | Some _ =>
      try_except
        (_ <- on_env (_run_docker_command
                        ["cp"; host_path; container_id +:+ ":" +:+ container_path]
                        true) ;;
         ret true)
        (fun e => if is_Exception e then Some (ret false) else None)
  end.

(** [copy_from_container(container_id, container_path, host_path)] *)
Definition copy_from_container (container_id container_path host_path : string)
  : M St bool :=
  record_op (OpCopyFrom container_id container_path host_path) ;;;
  s <- get ;;
  match _containers (self s) !! container_id with
  | None => not_found container_id
  | Some _ =>
      try_except
        (_ <- on_env (_run_docker_command
                        ["cp"; container_id +:+ ":" +:+ container_path; host_path]
                        true) ;;
         ret true)
        (fun e => if is_Exception e then Some (ret false) else None)
  end.

Definition status_dict (info : ContainerInfo) (status cpu_usage memory_usage : pyval)
  : pydict :=
  [("container_id", VStr (container_id info)); ("name", VStr (name info));
   ("status", status); ("cpu_usage", cpu_usage);
   ("memory_usage", memory_usage); ("created_at", VInt (created_at info))].

(** [get_container_status(container_id)].  When the inspect output cannot
    be read the parser's own exception is raised inside the [try]; one fixed
    message stands for its text. *)
Definition get_container_status (container_id : string) : M St pydict :=
  record_op (OpInspect container_id) ;;;
  s <- get ;;
  match _containers (self s) !! container_id with
  | None => not_found container_id
  | Some info =>
      try_except
        (inspect_info <- on_env (_run_docker_command ["inspect"; container_id] true) ;;
         s <- get ;;
         match json_inspect (env s) inspect_info with
         | Some (status, cpu_usage, memory_usage) =>
             ret (status_dict info status cpu_usage memory_usage)
         | None => raise (Exception "docker inspect: unreadable output")
         end)
        (fun e =>
           if is_Exception e
           then Some (ret (status_dict info (VStr "unknown") (VInt 0) (VInt 0)
                           ++ [("error", VStr (str_exn e))]))
           else None)
  end.

Definition set_status (new_status : string) (info : ContainerInfo) : ContainerInfo :=
  mkInfo (container_id info) (name info) (options info) new_status
         (created_at info).

(** [stop_container(container_id)] *)
Definition stop_container (container_id : string) : M St bool :=
  record_op (OpStop container_id) ;;;
  s <- get ;;
  match _containers (self s) !! container_id with
  | None => not_found container_id
  | Some _ =>
      try_except
        (_ <- on_env (_run_docker_command ["stop"; container_id] true) ;;
         s <- get ;;
         set_containers (alter (set_status "stopped") container_id
                           (_containers (self s))) ;;;
         ret true)
        (fun e => if is_Exception e then Some (ret false) else None)
  end.

Definition is_running (status : pydict) : bool :=
  match dict_get status "status" VNone with
  | VStr s => String.eqb s "running"
  | _ => false
  end.

(** [remove_container(container_id, force)] *)
Definition remove_container (container_id : string) (force : bool)
  : M St bool :=
  record_op (OpRemove container_id) ;;;
  s <- get ;;
  match _containers (self s) !! container_id with
  | None => not_found container_id
  | Some _ =>
      try_except
        (status <- get_container_status container_id ;;
         (if is_running status
          then (_ <- stop_container container_id ;; ret tt)
          else ret tt) ;;;
         let cmd := ["rm"] ++ (if force then ["-f"] else []) ++ [container_id] in
         _ <- on_env (_run_docker_command cmd true) ;;
         s <- get ;;
         set_containers (delete container_id (_containers (self s))) ;;;
         ret true)
        (fun e => if is_Exception e then Some (ret false) else None)
  end.

(** [cleanup_container(container_id)] *)
Definition cleanup_container (container_id : string) : M St unit :=
  s <- get ;;
  match _containers (self s) !! container_id with
  | None => ret tt
  | Some _ =>
      try_except
        (_ <- remove_container container_id true ;; ret tt)
        (fun e => if is_Exception e then Some (ret tt) else None)
  end.

(** [get_all_containers()].  The loop runs over [self._containers.items()];
    the finite map does not keep the insertion order of the dictionary, so
    the order of the keys is given: [keys] stands for the keys of the table
    in the order the dictionary yields them. *)
Fixpoint get_all_containers (keys : list string) : M St (list pydict) :=
  match keys with
  | [] => ret []
  | container_id :: rest =>
      found <- try_except
                 (status <- get_container_status container_id ;;
                  ret [status])
                 (fun e => if is_Exception e then Some (ret []) else None) ;;
      more <- get_all_containers rest ;;
      ret (found ++ more)
  end.

(** [cleanup_all()], over [list(self._containers.keys())] in the order the
    dictionary yields them. *)
Fixpoint cleanup_all (keys : list string) : M St unit :=
  match keys with
  | [] => ret tt
  | container_id :: rest =>
      cleanup_container container_id ;;;
      cleanup_all rest
  end.

(** [DockerRuntimeFactory.create_new_instance(config)] *)
Definition create_new_instance (config : option SandboxConfig.t) : M Env t :=
  fun w =>
    let '(r, s) := initialize (mkSt w (new config)) in
    match r with
    | Ok _ => (Ok (self s), env s)
    | Raise e => (Raise e, env s)
    end.

End DockerRuntime.

(** ** action_executor.py: the action model *)

Inductive ActionType : Type :=
| EXECUTE_COMMAND
| RUN_CODE
| TRANSFER_FILE
| GET_FILE
| PUT_FILE
| DELETE_FILE
| LIST_DIRECTORY
| CHECK_STATUS
| CUSTOM.

(** [str(action_type)], as an f-string renders a member of the enumeration. *)
Definition ActionType_str (a : ActionType) : string :=
  match a with
  | EXECUTE_COMMAND => "ActionType.EXECUTE_COMMAND"
  | RUN_CODE => "ActionType.RUN_CODE"
  | TRANSFER_FILE => "ActionType.TRANSFER_FILE"
  | GET_FILE => "ActionType.GET_FILE"
  | PUT_FILE => "ActionType.PUT_FILE"
  | DELETE_FILE => "ActionType.DELETE_FILE"
  | LIST_DIRECTORY => "ActionType.LIST_DIRECTORY"
  | CHECK_STATUS => "ActionType.CHECK_STATUS"
  | CUSTOM => "ActionType.CUSTOM"
  end.

Inductive ActionStatus : Type :=
| PENDING
| RUNNING
| COMPLETED
| FAILED
| TIMED_OUT
| CANCELLED.

Module ActionRequest.

Record t : Type := mk {
  action_type : ActionType;
  parameters : gmap string string;
  sandbox_options : option SandboxRuntimeOptions.t;
  timeout : Z;
  metadata : gmap string pyval
}.

(** [request.parameters.get(key)] *)
Definition param (r : t) (key : string) : option string := parameters r !! key.

End ActionRequest.

Module ActionResponse.

Record t : Type := mk {
  action_id : string;
  status : ActionStatus;
  result : option pydict;
  error : option string;
  execution_time : Z;
  metadata : gmap string pyval
}.

Definition set_metadata (m : gmap string pyval) (r : t) : t :=
  mk (action_id r) (status r) (result r) (error r) (execution_time r) m.

(** The three assignments that end a successful [try] suite. *)
Definition complete (res : pydict) (time : Z) (r : t) : t :=
  mk (action_id r) COMPLETED (Some res) (error r) time (metadata r).

(** The two assignments of an [except] suite. *)
Definition fail_with (st : ActionStatus) (msg : string) (r : t) : t :=
  mk (action_id r) st (result r) (Some msg) (execution_time r) (metadata r).

End ActionResponse.

(** ** action_executor.py: the handlers *)

Module Handlers.

(** What a handler runs against: the world, the executor's runtime and the
    response object it was handed. *)
Record St : Type := mkSt {
  env : Env;
  runtime : DockerRuntime.t;
  response : ActionResponse.t
}.

(** A call [await self._runtime.method(...)]. *)
Definition call_runtime {A} (m : M DockerRuntime.St A) : M St A :=
  zoom (fun s => DockerRuntime.mkSt (env s) (runtime s))
       (fun r s => mkSt (DockerRuntime.env r) (DockerRuntime.self r) (response s))
       m.

(** [response.metadata[key] = value] *)
Definition set_response_metadata (key : string) (value : pyval) : M St unit :=
  modify (fun s =>
            mkSt (env s) (runtime s)
                 (ActionResponse.set_metadata
                    (<[key := value]> (ActionResponse.metadata (response s)))
                    (response s))).

Definition update_response (f : ActionResponse.t -> ActionResponse.t)
  : M St unit :=
  modify (fun s => mkSt (env s) (runtime s) (f (response s))).

Definition clock : M St Z := fun s => (Ok (now (env s)), s).

(** The value of a parameter known to be truthy. *)
Definition text (v : option string) : string := default EmptyString v.

(** The container to run in: the one the request names, or a temporary one
    whose id is written into the response metadata. *)
Definition container_for (request : ActionRequest.t) : M St string :=
  let container_id := ActionRequest.param request "container_id" in
  if falsy container_id then
    (container_id <- call_runtime
                       (DockerRuntime.create_container
                          (ActionRequest.sandbox_options request)) ;;
     set_response_metadata "temp_container" (VStr container_id) ;;;
     ret container_id)
  else ret (text container_id).

Definition _handle_execute_command (request : ActionRequest.t) : M St pydict :=
  let command := ActionRequest.param request "command" in
  if falsy command then raise (Exception "命令参数缺失")
  else
    (container_id <- container_for request ;;
     result <- call_runtime
                 (DockerRuntime.execute_command container_id (text command)
                    (Some (ActionRequest.timeout request))) ;;
     ret [("output", dict_get result "output" (VStr EmptyString));
          ("return_code", dict_get result "return_code" (VInt (-1)));
          ("success", dict_get result "success" (VBool false))]).

(** [code.replace(DQ, BS BS DQ)]: the replacement is two backslashes and a
    double quote. *)
Definition escape_quotes (code : string) : string :=
  Text.replace_char Text.dquote
    (String Text.backslash (String Text.backslash (Text.str1 Text.dquote)))
    code.

(** The command line for a supported language, [None] for any other. *)
Definition code_command (language code : string) : option string :=
  if String.eqb language "python"
  then Some ("python -c " +:+ Text.str1 Text.dquote +:+ escape_quotes code
             +:+ Text.str1 Text.dquote)
  else if String.eqb language "javascript"
  then Some ("node -e " +:+ Text.str1 Text.dquote +:+ escape_quotes code
             +:+ Text.str1 Text.dquote)
  else if String.eqb language "bash" then Some code
  else None.

Definition _handle_run_code (request : ActionRequest.t) : M St pydict :=
  let code := ActionRequest.param request "code" in
  let language := default "python" (ActionRequest.param request "language") in
  if falsy code then raise (Exception "代码参数缺失")
  else
    match code_command language (text code) with
    | None => raise (Exception ("不支持的语言: " +:+ language))
    | Some command =>
        container_id <- container_for request ;;
        result <- call_runtime
                    (DockerRuntime.execute_command container_id command
                       (Some (ActionRequest.timeout request))) ;;
        ret [("output", dict_get result "output" (VStr EmptyString));
             ("return_code", dict_get result "return_code" (VInt (-1)));
             ("success", dict_get result "success" (VBool false));
             ("language", VStr language)]
    end.

Definition _handle_transfer_file (request : ActionRequest.t) : M St pydict :=
  let source_path := ActionRequest.param request "source_path" in
  let destination_path := ActionRequest.param request "destination_path" in
  let container_id := ActionRequest.param request "container_id" in
  if falsy source_path || falsy destination_path
  then raise (Exception "源路径和目标路径参数缺失")
  else if falsy container_id then raise (Exception "容器 ID 参数缺失")
  else
    (_ <- call_runtime
            (DockerRuntime.copy_to_container (text container_id)
               (text source_path) (text destination_path)) ;;
     ret [("success", VBool true); ("source", VStr (text source_path));
          ("destination", VStr (text destination_path))]).

Definition _handle_get_file (request : ActionRequest.t) : M St pydict :=
  let container_path := ActionRequest.param request "container_path" in
  let host_path := ActionRequest.param request "host_path" in
  let container_id := ActionRequest.param request "container_id" in
  if falsy container_path || falsy host_path
  then raise (Exception "容器路径和主机路径参数缺失")
  else if falsy container_id then raise (Exception "容器 ID 参数缺失")
  else
    (_ <- call_runtime
            (DockerRuntime.copy_from_container (text container_id)
               (text container_path) (text host_path)) ;;
     ret [("success", VBool true);
          ("container_path", VStr (text container_path));
          ("host_path", VStr (text host_path))]).

Definition _handle_put_file (request : ActionRequest.t) : M St pydict :=
  _handle_transfer_file request.

Definition _handle_delete_file (request : ActionRequest.t) : M St pydict :=
  let file_path := ActionRequest.param request "file_path" in
  let container_id := ActionRequest.param request "container_id" in
  if falsy file_path then raise (Exception "文件路径参数缺失")
  else if falsy container_id then raise (Exception "容器 ID 参数缺失")
  else
    (let command := "rm -f " +:+ text file_path in
     result <- call_runtime
                 (DockerRuntime.execute_command (text container_id) command
                    (Some (ActionRequest.timeout request))) ;;
     ret [("success", dict_get result "success" (VBool false));
          ("file_path", VStr (text file_path))]).

Definition _handle_list_directory (request : ActionRequest.t) : M St pydict :=
  let directory_path := ActionRequest.param request "directory_path" in
  let container_id := ActionRequest.param request "container_id" in
  if falsy directory_path then raise (Exception "目录路径参数缺失")
  else if falsy container_id then raise (Exception "容器 ID 参数缺失")
  else
    (let command := "ls -la " +:+ text directory_path in
     result <- call_runtime
                 (DockerRuntime.execute_command (text container_id) command
                    (Some (ActionRequest.timeout request))) ;;
     ret [("success", dict_get result "success" (VBool false));
          ("directory", VStr (text directory_path));
          ("content", dict_get result "output" (VStr EmptyString))]).

Definition _handle_check_status (request : ActionRequest.t) : M St pydict :=
  let container_id := ActionRequest.param request "container_id" in
  if falsy container_id then raise (Exception "容器 ID 参数缺失")
  else
    (status <- call_runtime
                 (DockerRuntime.get_container_status (text container_id)) ;;
     ret [("success", VBool true); ("container_status", VDict status)]).

End Handlers.

(** An entry of [self._action_handlers]: one of the eight bound methods, or
    a callable registered through [register_action_handler]. *)
Inductive Handler : Type :=
| HExecuteCommand
| HRunCode
| HTransferFile
| HGetFile
| HPutFile
| HDeleteFile
| HListDirectory
| HCheckStatus
| HCustom (f : ActionRequest.t -> M Handlers.St pydict).

(** [await handler(action_request, action_response)] *)
Definition call_handler (h : Handler) (request : ActionRequest.t)
  : M Handlers.St pydict :=
  match h with
  | HExecuteCommand => Handlers._handle_execute_command request
  | HRunCode => Handlers._handle_run_code request
  | HTransferFile => Handlers._handle_transfer_file request
  | HGetFile => Handlers._handle_get_file request
  | HPutFile => Handlers._handle_put_file request
  | HDeleteFile => Handlers._handle_delete_file request
  | HListDirectory => Handlers._handle_list_directory request
  | HCheckStatus => Handlers._handle_check_status request
  | HCustom f => f request
  end.

Definition is_builtin (h : Handler) : bool :=
  match h with
  | HCustom _ => false
  | _ => true
  end.

(** ** action_executor.py: ActionExecutor *)

Module ActionExecutor.

Record t : Type := mk {
  _runtime : option DockerRuntime.t;
  _action_handlers : ActionType -> option Handler
}.

(** [_register_default_handlers_sync()]: every type but [CUSTOM]. *)
Definition default_handlers (a : ActionType) : option Handler :=
  match a with
  | EXECUTE_COMMAND => Some HExecuteCommand
  | RUN_CODE => Some HRunCode
  | TRANSFER_FILE => Some HTransferFile
  | GET_FILE => Some HGetFile
  | PUT_FILE => Some HPutFile
  | DELETE_FILE => Some HDeleteFile
  | LIST_DIRECTORY => Some HListDirectory
  | CHECK_STATUS => Some HCheckStatus
  | CUSTOM => None
  end.

(** [ActionExecutor(runtime)] *)
Definition new (runtime : option DockerRuntime.t) : t :=
  mk runtime default_handlers.

Definition ActionType_eqb (a b : ActionType) : bool :=
  match a, b with
  | EXECUTE_COMMAND, EXECUTE_COMMAND | RUN_CODE, RUN_CODE
  | TRANSFER_FILE, TRANSFER_FILE | GET_FILE, GET_FILE | PUT_FILE, PUT_FILE
  | DELETE_FILE, DELETE_FILE | LIST_DIRECTORY, LIST_DIRECTORY
  | CHECK_STATUS, CHECK_STATUS | CUSTOM, CUSTOM => true
  | _, _ => false
  end.

(** [register_action_handler(action_type, handler)] *)
Definition register_action_handler (action_type : ActionType)
  (handler : Handler) (ex : t) : t :=
  mk (_runtime ex)
     (fun a => if ActionType_eqb a action_type then Some handler
               else _action_handlers ex a).

(** The state [execute_action] runs in: the world, the process-wide
    [DockerRuntimeFactory._instance], and the executor itself. *)
Record St : Type := mkSt {
  env : Env;
  factory_instance : option DockerRuntime.t;
  self : t
}.

Definition on_env {A} (m : M Env A) : M St A :=
  zoom env (fun w s => mkSt w (factory_instance s) (self s)) m.

(** [DockerRuntimeFactory.get_instance()]: the instance is stored before it
    is initialised, so a failed [initialize] leaves it behind. *)
Definition get_instance : M St DockerRuntime.t :=
  s <- get ;;
  match factory_instance s with
  | Some inst => ret inst
  | None =>
      let fresh := DockerRuntime.new None in
      modify (fun s => mkSt (env s) (Some fresh) (self s)) ;;;
      zoom (fun s => DockerRuntime.mkSt (env s) fresh)
           (fun r s => mkSt (DockerRuntime.env r) (Some (DockerRuntime.self r))
                            (self s))
           DockerRuntime.initialize ;;;
      s <- get ;;
      ret (default fresh (factory_instance s))
  end.

(** [if self._runtime is None: self._runtime = await ...get_instance()];
    the value is the runtime the rest of the call uses.  The executor and
    the factory then hold the same object; the model keeps the executor's
    view of it. *)
Definition acquire_runtime : M St DockerRuntime.t :=
  s <- get ;;
  match _runtime (self s) with
  | Some rt => ret rt
  | None =>
      rt <- get_instance ;;
      modify (fun s => mkSt (env s) (factory_instance s)
                         (mk (Some rt) (_action_handlers (self s)))) ;;;
      ret rt
  end.

(** The [try] statement of [execute_action], run against the response. *)
Definition guarded_call (handlers : ActionType -> option Handler)
  (action_request : ActionRequest.t) : M Handlers.St unit :=
  try_except
    (match handlers (ActionRequest.action_type action_request) with
     | None =>
         raise (Exception
                  ("不支持的动作类型: "
                   +:+ ActionType_str (ActionRequest.action_type action_request)))
     | Some handler =>
         start_time <- Handlers.clock ;;
         result <- call_handler handler action_request ;;
         end_time <- Handlers.clock ;;
         Handlers.update_response
           (ActionResponse.complete result (end_time - start_time))
     end)
    (fun e =>
       match e with
       | TimeoutError =>
           Some (Handlers.update_response
                   (ActionResponse.fail_with TIMED_OUT "动作执行超时"))
       | _ =>
           if is_Exception e
           then Some (Handlers.update_response
                        (ActionResponse.fail_with FAILED (str_exn e)))
           else None
       end).

(** [execute_action(action_request, action_id)] *)
Definition execute_action (action_request : ActionRequest.t)
  (action_id : option string) : M St ActionResponse.t :=
  action_id <- match action_id with
               | Some a => ret a
               | None => on_env uuid4_str
               end ;;
  rt <- acquire_runtime ;;
  let action_response :=
    ActionResponse.mk action_id RUNNING None None 0
      (ActionRequest.metadata action_request) in
  fun s =>
    let '(r, h) :=
      guarded_call (_action_handlers (self s)) action_request
        (Handlers.mkSt (env s) rt action_response) in
    let s' := mkSt (Handlers.env h) (factory_instance s)
                (mk (Some (Handlers.runtime h)) (_action_handlers (self s))) in
    match r with
    | Ok _ => (Ok (Handlers.response h), s')
    | Raise e => (Raise e, s')
    end.

(** [ActionExecutorFactory.create_executor(runtime)] *)
Definition create_executor (runtime : option DockerRuntime.t) : M St t :=
  match runtime with
  | Some rt => ret (new (Some rt))
  | None =>
      rt <- get_instance ;;
      ret (new (Some rt))
  end.

End ActionExecutor.

(** ** action_executor.py: ActionServer *)

Module ActionServer.

(** Where a task that is not done stands: created and not yet scheduled, or
    suspended at its [k]-th subprocess await. *)
Inductive Suspension : Type :=
| NotStarted
| AtAwait (k : nat).

(** How a task ended: with the value of its coroutine, or with the exception
    that left it ([CancelledError] for a cancelled task). *)
Inductive Outcome : Type :=
| Returned (r : ActionResponse.t)
| Raised (e : exn).

(** The [asyncio.Task] wrapping [execute_action(request, action_id)]. *)
Inductive Task : Type :=
| Pending (request : ActionRequest.t) (action_id : string) (at_ : Suspension)
| Done (o : Outcome).

(** [task.done()] *)
Definition done (task : Task) : bool :=
  match task with
  | Done _ => true
  | Pending _ _ _ => false
  end.

Record St : Type := mkSt {
  ex : ActionExecutor.St;
  _running_actions : gmap string Task
}.

Definition on_executor {A} (m : M ActionExecutor.St A) : M St A :=
  zoom ex (fun e s => mkSt e (_running_actions s)) m.

Definition set_running (m : gmap string Task) : M St unit :=
  modify (fun s => mkSt (ex s) m).

Definition outcome_of {A} (r : Res ActionResponse.t * A) : Outcome :=
  match fst r with
  | Ok resp => Returned resp
  | Raise e => Raised e
  end.

Definition with_cancel (c : option nat) (s : ActionExecutor.St)
  : ActionExecutor.St :=
  ActionExecutor.mkSt (set_cancel_at c (ActionExecutor.env s))
    (ActionExecutor.factory_instance s) (ActionExecutor.self s).

(** The coroutine of a task run to its end.  With [cancelled] a
    [CancelledError] is thrown into it where it is suspended: before its
    first statement, or at the subprocess await it has reached. *)
Definition run_task (request : ActionRequest.t) (action_id : string)
  (cancelled : option Suspension) (s : ActionExecutor.St)
  : Outcome * ActionExecutor.St :=
  match cancelled with
  | Some NotStarted => (Raised CancelledError, s)
  | Some (AtAwait k) =>
      let n := length (spawned (ActionExecutor.env s)) in
      let r := ActionExecutor.execute_action request (Some action_id)
                 (with_cancel (Some (n + k)%nat) s) in
      (outcome_of r, with_cancel None (snd r))
  | None =>
      let r := ActionExecutor.execute_action request (Some action_id)
                 (with_cancel None s) in
      (outcome_of r, snd r)
  end.

(** [submit_action(request)] *)
Definition submit_action (request : ActionRequest.t) : M St string :=
  action_id <- on_executor (ActionExecutor.on_env uuid4_str) ;;
  let task := Pending request action_id NotStarted in
  s <- get ;;
  set_running (<[action_id := task]> (_running_actions s)) ;;;
  ret action_id.

(** The event loop runs the task of [action_id] to completion. *)
Definition run_to_completion (action_id : string) (s : St) : St :=
  match _running_actions s !! action_id with
  | Some (Pending request aid _) =>
      let '(o, e) := run_task request aid None (ex s) in
      mkSt e (<[action_id := Done o]> (_running_actions s))
  | _ => s
  end.

(** [task.result()] of a task that is done. *)
Definition task_result {S} (o : Outcome) : M S ActionResponse.t :=
  match o with
  | Returned r => ret r
  | Raised e => raise e
  end.

(** [get_action_result(action_id)] *)
Definition get_action_result (action_id : string)
  : M St (option ActionResponse.t) :=
  s <- get ;;
  match _running_actions s !! action_id with
  | None => ret None
  | Some (Done o) =>
      set_running (delete action_id (_running_actions s)) ;;;
      r <- task_result o ;;
      ret (Some r)
  | Some (Pending _ _ _) => ret None
  end.

(** [task.cancel()] followed by [await task]: the coroutine runs on with the
    [CancelledError] thrown in, the task is done with what comes of it, and
    the awaiting caller gets the same value or exception. *)
Definition cancel_and_await (action_id : string) (request : ActionRequest.t)
  (aid : string) (at_ : Suspension) : M St ActionResponse.t :=
  fun s =>
    let '(o, e) := run_task request aid (Some at_) (ex s) in
    task_result o (mkSt e (<[action_id := Done o]> (_running_actions s))).

(** [cancel_action(action_id)] *)
Definition cancel_action (action_id : string) : M St bool :=
  s <- get ;;
  match _running_actions s !! action_id with
  | None => ret false
  | Some (Done _) => ret false
  | Some (Pending request aid at_) =>
      try_except
        (_ <- cancel_and_await action_id request aid at_ ;;
         s <- get ;;
         set_running (delete action_id (_running_actions s)) ;;;
         ret true)
        (fun e =>
           match e with
           | CancelledError => Some (ret true)
           | _ => if is_Exception e then Some (ret false) else None
           end)
  end.

(** [get_running_actions()] *)
Definition get_running_actions : M St (list string) :=
  s <- get ;;
  ret (map fst (map_to_list (_running_actions s))).

(** [ActionServer(executor)]: [executor or ActionExecutor()], an empty
    table.  The executor made by default has no runtime yet. *)
Definition new (executor : option ActionExecutor.t) (w : Env)
  (factory : option DockerRuntime.t) : St :=
  mkSt (ActionExecutor.mkSt w factory
          (match executor with
           | Some e => e
           | None => ActionExecutor.new None
           end))
       ∅.

End ActionServer.

(** ** Formats of the resource limits, stated on the text itself *)

Module Formats.

Definition all_digits (s : string) : Prop :=
  Text.all_chars Text.is_digit_char s = true.

(** Digits with at most one point among them, and at least one digit. *)
Definition cpu_format (v : string) : Prop :=
  exists a b : string,
    (v = a +:+ b \/ v = a +:+ "." +:+ b)
    /\ all_digits a /\ all_digits b /\ a +:+ b <> EmptyString.

Definition ends_with_unit (v : string) : Prop :=
  exists (p : string) (c : ascii),
    v = p +:+ Text.str1 c /\ In c ResourceLimits.valid_suffixes.

(** At least two characters, and either a unit letter at the end or digits
    only. *)
Definition size_format (v : string) : Prop :=
  (2 <= String.length v)%nat
  /\ (ends_with_unit v \/ (all_digits v /\ v <> EmptyString)).

End Formats.

(** ** Derived descriptions used in the statements *)

(** What [_run_docker_command] makes of a finished subprocess. *)
Definition docker_result (p : ProcResult) (check : bool) : Res string :=
  match Text.decode_strip (stdout p), Text.decode_strip (stderr p) with
  | Some out, Some err =>
      if check && negb (returncode p =? 0)
      then Raise (Exception ("Docker 命令执行失败: " +:+ err))
      else Ok out
  | _, _ => Raise UnicodeDecodeError
  end.

(** The world after the subprocess [cmdline] has been awaited to its end. *)
Definition after_subprocess (cmdline : string) (w : Env) : Env :=
  set_now (now w + elapsed (engine w (length (spawned w)) cmdline))
    (set_spawned (spawned w ++ [cmdline]) w).

(** The command line of [docker exec] for one command. *)
Definition exec_cmdline (container_id command : string) : string :=
  Text.join " " ("docker" :: ["exec"; container_id] ++ ["sh"; "-c"; command]).

(** The subprocess that the next [docker exec] of the runtime will get. *)
Definition next_exec (container_id command : string) (w : Env) : ProcResult :=
  engine w (length (spawned w)) (exec_cmdline container_id command).

(** Both pipes of a finished subprocess hold UTF-8. *)
Definition decodable (p : ProcResult) : bool :=
  match Text.decode_strip (stdout p), Text.decode_strip (stderr p) with
  | Some _, Some _ => true
  | _, _ => false
  end.

(** The subprocess ends before a deadline of [t] seconds. *)
Definition in_time (p : ProcResult) (t : Z) : bool :=
  (0 <? t) && (elapsed p <? 1000 * t).

Definition with_op (op : RuntimeOp) (w : Env) : Env :=
  set_ops (ops w ++ [op]) w.

(** ** Required parameters, as the handlers test them *)

Definition missing (request : ActionRequest.t) (key : string) : bool :=
  falsy (ActionRequest.param request key).

(** A parameter whose absence (or emptiness) makes the handler of the
    request's type raise before it calls the runtime. *)
Definition missing_required (request : ActionRequest.t) : bool :=
  match ActionRequest.action_type request with
  | EXECUTE_COMMAND => missing request "command"
  | RUN_CODE => missing request "code"
  | TRANSFER_FILE | PUT_FILE =>
      missing request "source_path" || missing request "destination_path"
      || missing request "container_id"
  | GET_FILE =>
      missing request "container_path" || missing request "host_path"
      || missing request "container_id"
  | DELETE_FILE => missing request "file_path" || missing request "container_id"
  | LIST_DIRECTORY =>
      missing request "directory_path" || missing request "container_id"
  | CHECK_STATUS => missing request "container_id"
  | CUSTOM => false
  end.

(** The action types whose handler copies a file. *)
Definition is_copy (a : ActionType) : bool :=
  match a with
  | TRANSFER_FILE | PUT_FILE | GET_FILE => true
  | _ => false
  end.

(** ** Concrete worlds for the examples *)

Module Scenario.

Definition hex : string := "0123456789abcdef0123456789abcdef".

(** An engine whose every subprocess ends alike. *)
Definition always (p : ProcResult) : nat -> string -> ProcResult :=
  fun _ _ => p.

(** Exit 0, a short id on the output, 20 ms. *)
Definition fine : ProcResult := mkProc 0 "4f2a9c" EmptyString 20.

(** Exit 1 with a message on the error stream, 20 ms. *)
Definition broken : ProcResult := mkProc 1 EmptyString "no such file" 20.

(** Exit 0 after five seconds. *)
Definition sleepy : ProcResult := mkProc 0 EmptyString EmptyString 5000.

(** Exit 0 with the single byte 0xFF on the output, 20 ms. *)
Definition binary : ProcResult :=
  mkProc 0 (Text.str1 "255"%char) EmptyString 20.

Definition world (engine : nat -> string -> ProcResult) : Env :=
  mkEnv engine (fun _ => Some (VStr "running", VInt 0, VInt 0)) (fun _ => hex)
        [] 0 0 None [].

Definition box : DockerRuntime.ContainerInfo :=
  DockerRuntime.mkInfo "c1" "openhands-0123456789ab" [] "running" 0.

(** A runtime with no container, and one that knows the container [c1]. *)
Definition runtime0 : DockerRuntime.t := DockerRuntime.mk DEFAULT_CONFIG ∅ true.

Definition runtime1 : DockerRuntime.t :=
  DockerRuntime.mk DEFAULT_CONFIG (<["c1" := box]> ∅) true.

Definition rt_state (p : ProcResult) (rt : DockerRuntime.t) : DockerRuntime.St :=
  DockerRuntime.mkSt (world (always p)) rt.

(** An executor that was handed the runtime [rt], in a world whose engine
    ends every subprocess with [p]. *)
Definition executor (p : ProcResult) (rt : DockerRuntime.t) : ActionExecutor.St :=
  ActionExecutor.mkSt (world (always p)) None (ActionExecutor.new (Some rt)).

Definition request (action_type : ActionType)
  (parameters : list (string * string)) (timeout : Z) : ActionRequest.t :=
  ActionRequest.mk action_type (list_to_map parameters) None timeout ∅.

(** The response of a run, when there is one. *)
Definition response_of {S} (r : Res ActionResponse.t * S)
  : option ActionResponse.t :=
  match fst r with
  | Ok response => Some response
  | Raise _ => None
  end.

Definition status_of {S} (r : Res ActionResponse.t * S) : option ActionStatus :=
  ActionResponse.status <$> response_of r.

End Scenario.

(** ** The steps of [execute_action], named *)

(** The action id and the world after the id has been settled. *)
Definition assign_id (action_id : option string) (w : Env) : string * Env :=
  match action_id with
  | Some a => (a, w)
  | None => (dashed (uuid_src w (uuid_drawn w)),
             set_uuid_drawn (S (uuid_drawn w)) w)
  end.

(** The response object as it is created. *)
Definition initial_response (action_id : string) (request : ActionRequest.t)
  : ActionResponse.t :=
  ActionResponse.mk action_id RUNNING None None 0
    (ActionRequest.metadata request).

Definition put_response (r : ActionResponse.t) (h : Handlers.St) : Handlers.St :=
  Handlers.mkSt (Handlers.env h) (Handlers.runtime h) r.

(** What the [try] statement makes of the handler's outcome. *)
Definition conclude (start_time : Z) (r : Res pydict) (h : Handlers.St)
  : Res unit * Handlers.St :=
  match r with
  | Ok result =>
      (Ok tt,
       put_response
         (ActionResponse.complete result (now (Handlers.env h) - start_time)
            (Handlers.response h)) h)
  | Raise TimeoutError =>
      (Ok tt,
       put_response
         (ActionResponse.fail_with TIMED_OUT "动作执行超时" (Handlers.response h)) h)
  | Raise e =>
      if is_Exception e
      then (Ok tt,
            put_response
              (ActionResponse.fail_with FAILED (str_exn e) (Handlers.response h)) h)
      else (Raise e, h)
  end.

(** The executor after a call: the world and the runtime as the handler
    left them. *)
Definition executor_after (s : ActionExecutor.St) (h : Handlers.St)
  : ActionExecutor.St :=
  ActionExecutor.mkSt (Handlers.env h) (ActionExecutor.factory_instance s)
    (ActionExecutor.mk (Some (Handlers.runtime h))
       (ActionExecutor._action_handlers (ActionExecutor.self s))).

(** The state a handler starts in. *)
Definition handler_start (request : ActionRequest.t) (action_id : option string)
  (rt : DockerRuntime.t) (s : ActionExecutor.St) : Handlers.St :=
  Handlers.mkSt (snd (assign_id action_id (ActionExecutor.env s))) rt
    (initial_response (fst (assign_id action_id (ActionExecutor.env s))) request).

(** The command lines of the two copies. *)
Definition cp_to_cmdline (container_id host_path container_path : string)
  : string :=
  Text.join " " ["docker"; "cp"; host_path;
                 container_id +:+ ":" +:+ container_path].

Definition cp_from_cmdline (container_id container_path host_path : string)
  : string :=
  Text.join " " ["docker"; "cp"; container_id +:+ ":" +:+ container_path;
                 host_path].

(** Whether a finished engine command counts as a success. *)
Definition succeeded (p : ProcResult) : bool :=
  match docker_result p true with
  | Ok _ => true
  | Raise _ => false
  end.

(** The action types whose handler may create a temporary container. *)
Definition runs_command (a : ActionType) : bool :=
  match a with
  | EXECUTE_COMMAND | RUN_CODE => true
  | _ => false
  end.

Module ServerScenario.

(** A server over the executor of [Scenario], with an empty table. *)
Definition server (p : ProcResult) (rt : DockerRuntime.t) : ActionServer.St :=
  ActionServer.mkSt (Scenario.executor p rt) ∅.

Definition echo : ActionRequest.t :=
  Scenario.request EXECUTE_COMMAND
    [("command", "echo hello"); ("container_id", "c1")] 30.

(** [submit_action(echo)] on the fresh server: the id and the state. *)
Definition submitted : Res string * ActionServer.St :=
  ActionServer.submit_action echo (server Scenario.fine Scenario.runtime1).

Definition the_id : string := dashed Scenario.hex.

(** The same server once the event loop has run the task up to its first
    subprocess await, the [docker exec]. *)
Definition suspended : ActionServer.St :=
  ActionServer.mkSt (Scenario.executor Scenario.fine Scenario.runtime1)
    (<[the_id := ActionServer.Pending echo the_id (ActionServer.AtAwait 0)]> ∅).

End ServerScenario.

(** ** Disciplines of exceptions *)

(** The computation never ends in [TimeoutError]. *)
Definition never_times_out {S A} (m : M S A) : Prop :=
  forall s, fst (m s) <> Raise TimeoutError.

(** A cancellation that is due at subprocess await [c], not yet reached, is
    delivered by the computation exactly when it gets that far: the request
    stays in place, the log of subprocesses only grows, and the outcome is
    [CancelledError] if and only if await [c] was among those made.  [pe]
    reads the world out of the state. *)
Definition delivers_cancellation {S A} (pe : S -> Env) (m : M S A) : Prop :=
  forall (s : S) (c : nat),
    cancel_at (pe s) = Some c ->
    (length (spawned (pe s)) <= c)%nat ->
    cancel_at (pe (snd (m s))) = Some c
    /\ (length (spawned (pe s)) <= length (spawned (pe (snd (m s)))))%nat
    /\ (fst (m s) = Raise CancelledError
        <-> (c < length (spawned (pe (snd (m s)))))%nat).

(** A computation that neither spawns nor touches the cancellation request,
    and does not end in [CancelledError]. *)
Definition spawns_nothing {S A} (pe : S -> Env) (m : M S A) : Prop :=
  forall s : S,
    cancel_at (pe (snd (m s))) = cancel_at (pe s)
    /\ spawned (pe (snd (m s))) = spawned (pe s)
    /\ fst (m s) <> Raise CancelledError.

(** The run of a task's coroutine with a cancellation due at its [k]-th
    subprocess await. *)
Definition cancelled_run (request : ActionRequest.t) (aid : string) (k : nat)
  (s : ActionExecutor.St) : Res ActionResponse.t * ActionExecutor.St :=
  ActionExecutor.execute_action request (Some aid)
    (ActionServer.with_cancel
       (Some (length (spawned (ActionExecutor.env s)) + k)%nat) s).

(** The coroutine gets as far as its [k]-th subprocess await. *)
Definition reaches_await (request : ActionRequest.t) (aid : string) (k : nat)
  (s : ActionExecutor.St) : Prop :=
  (length (spawned (ActionExecutor.env s)) + k
   < length (spawned (ActionExecutor.env (snd (cancelled_run request aid k s)))))%nat.

(** ** The life cycle of a container, named *)

Definition inspect_cmdline (container_id : string) : string :=
  Text.join " " ["docker"; "inspect"; container_id].

Definition stop_cmdline (container_id : string) : string :=
  Text.join " " ["docker"; "stop"; container_id].

Definition rm_cmdline (container_id : string) (force : bool) : string :=
  Text.join " "
    ("docker" :: ["rm"] ++ (if force then ["-f"] else []) ++ [container_id]).

(** The dictionary of the [except] branch of [get_container_status]. *)
Definition status_unknown (info : DockerRuntime.ContainerInfo) (e : exn)
  : pydict :=
  DockerRuntime.status_dict info (VStr "unknown") (VInt 0) (VInt 0)
  ++ [("error", VStr (str_exn e))].

(** What [get_container_status] returns once [docker inspect] has ended
    with [p]. *)
Definition status_report (w : Env) (info : DockerRuntime.ContainerInfo)
  (p : ProcResult) : pydict :=
  match docker_result p true with
  | Ok out =>
      match json_inspect w out with
      | Some (status, cpu_usage, memory_usage) =>
          DockerRuntime.status_dict info status cpu_usage memory_usage
      | None =>
          status_unknown info (Exception "docker inspect: unreadable output")
      end
  | Raise e => status_unknown info e
  end.

(** The runtime with another table of containers. *)
Definition with_containers (tbl : gmap string DockerRuntime.ContainerInfo)
  (rt : DockerRuntime.t) : DockerRuntime.t :=
  DockerRuntime.mk (DockerRuntime.config rt) tbl (DockerRuntime._initialized rt).

(** The call is refused for an unknown container: the not-found exception,
    the runtime as it was, and no subprocess. *)
Definition refused {A} (container_id : string) (m : M DockerRuntime.St A)
  (s : DockerRuntime.St) : Prop :=
  fst (m s) = Raise (Exception ("容器未找到: " +:+ container_id))
  /\ DockerRuntime.self (snd (m s)) = DockerRuntime.self s
  /\ spawned (DockerRuntime.env (snd (m s))) = spawned (DockerRuntime.env s).

(** The table of a runtime state. *)
Definition table (s : DockerRuntime.St)
  : gmap string DockerRuntime.ContainerInfo :=
  DockerRuntime._containers (DockerRuntime.self s).

(** The subprocess the engine would run next for [cmdline]. *)
Definition next_proc (cmdline : string) (w : Env) : ProcResult :=
  engine w (length (spawned w)) cmdline.

(** [docker inspect] ends in a way [get_container_status] cannot read. *)
Definition inspect_unreadable (w : Env) (p : ProcResult) : Prop :=
  match docker_result p true with
  | Ok out => json_inspect w out = None
  | Raise _ => True
  end.

(** [report] is a status report of the container registered under [key]. *)
Definition reports_on (tbl : gmap string DockerRuntime.ContainerInfo)
  (key : string) (report : pydict) : Prop :=
  exists info,
    tbl !! key = Some info
    /\ dict_get report "name" VNone = VStr (DockerRuntime.name info)
    /\ dict_get report "created_at" VNone = VInt (DockerRuntime.created_at info).

(** The command line of the probe [initialize] runs. *)
Definition version_cmdline : string := Text.join " " ["docker"; "version"].

(** The runtime [DockerRuntime(config)] makes, once initialised. *)
Definition initialised (rt : DockerRuntime.t) : DockerRuntime.t :=
  DockerRuntime.mk (DockerRuntime.config rt) (DockerRuntime._containers rt) true.

(** ** Requests, as the handlers read them *)

(** The container a request names. *)
Definition named_container (request : ActionRequest.t) : string :=
  Handlers.text (ActionRequest.param request "container_id").

(** The language of a RUN_CODE request: "python" when it names none. *)
Definition language_of (request : ActionRequest.t) : string :=
  default "python" (ActionRequest.param request "language").

(** The languages [_handle_run_code] has a command line for. *)
Definition supported_language (language : string) : bool :=
  String.eqb language "python" || String.eqb language "javascript"
  || String.eqb language "bash".


(** The executor [s] with a handler registered for [action_type]. *)
Definition with_handler (action_type : ActionType) (handler : Handler)
  (s : ActionExecutor.St) : ActionExecutor.St :=
  ActionExecutor.mkSt (ActionExecutor.env s) (ActionExecutor.factory_instance s)
    (ActionExecutor.register_action_handler action_type handler
       (ActionExecutor.self s)).

(** Two responses that differ in their metadata at most. *)
Definition same_outcome (r1 r2 : ActionResponse.t) : Prop :=
  ActionResponse.action_id r1 = ActionResponse.action_id r2
  /\ ActionResponse.status r1 = ActionResponse.status r2
  /\ ActionResponse.result r1 = ActionResponse.result r2
  /\ ActionResponse.error r1 = ActionResponse.error r2
  /\ ActionResponse.execution_time r1 = ActionResponse.execution_time r2.

(** The handler leaves everything of the response but its metadata. *)
Definition keeps_outcome {A} (m : M Handlers.St A) : Prop :=
  forall h, same_outcome (Handlers.response (snd (m h))) (Handlers.response h).

(** With no cancellation pending, the computation ends with a value or with
    an exception that derives from [Exception] (so not in [CancelledError]),
    and no cancellation is pending afterwards. *)
Definition undisturbed {S A} (pe : S -> Env) (m : M S A) : Prop :=
  forall s : S,
    cancel_at (pe s) = None ->
    cancel_at (pe (snd (m s))) = None
    /\ (forall e, fst (m s) = Raise e -> is_Exception e = true).

(** ** The table of the server *)

(** [get_running_actions] lists the id. *)
Definition listed (action_id : string) (s : ActionServer.St) : Prop :=
  match fst (ActionServer.get_running_actions s) with
  | Ok ids => action_id ∈ ids
  | Raise _ => False
  end.

(** The id [submit_action] will hand out next. *)
Definition next_action_id (s : ActionServer.St) : string :=
  fst (assign_id None (ActionExecutor.env (ActionServer.ex s))).

(** A server made by [ActionServer(executor)] around an executor that was
    handed the runtime [rt], in a world whose engine ends every subprocess
    with [p]. *)
Definition fresh_server (p : ProcResult) (rt : DockerRuntime.t)
  : ActionServer.St :=
  ActionServer.new (Some (ActionExecutor.new (Some rt)))
    (Scenario.world (Scenario.always p)) None.

(** The message of the [AttributeError] that [options.dict()] raises. *)
Definition no_dict_attribute : string :=
  "'SandboxRuntimeOptions' object has no attribute 'dict'".

(** The command line of [docker create] for a container name and options. *)
Definition create_cmdline (container_name : string)
  (options : SandboxRuntimeOptions.t) : string :=
  Text.join " " ("docker" :: DockerRuntime.create_args container_name options).

Definition start_cmdline (container_id : string) : string :=
  Text.join " " ["docker"; "start"; container_id].

(** ** Acquiring the runtime *)

(** The executor at the point where [execute_action] asks for its runtime:
    the id of the action is settled. *)
Definition at_acquisition (action_id : option string) (s : ActionExecutor.St)
  : ActionExecutor.St :=
  ActionExecutor.mkSt (snd (assign_id action_id (ActionExecutor.env s)))
    (ActionExecutor.factory_instance s) (ActionExecutor.self s).

(** The outcome, in this call, of
    [if self._runtime is None: self._runtime = await ...get_instance()]:
    the runtime and the executor that has it, or the exception of the
    factory. *)
Definition acquisition (action_id : option string) (s : ActionExecutor.St)
  : Res DockerRuntime.t * ActionExecutor.St :=
  ActionExecutor.acquire_runtime (at_acquisition action_id s).

(** The state the handler starts in when the call began in [s] and the
    runtime [rt] was acquired with the executor in [s1]. *)
Definition handler_entry (request : ActionRequest.t) (action_id : option string)
  (rt : DockerRuntime.t) (s s1 : ActionExecutor.St) : Handlers.St :=
  Handlers.mkSt (ActionExecutor.env s1) rt
    (initial_response (fst (assign_id action_id (ActionExecutor.env s))) request).

(** An executor made by [ActionExecutor()], without a runtime, when the
    factory holds no instance, in a world whose engine ends every subprocess
    with [p]. *)
Definition bare_executor (p : ProcResult) : ActionExecutor.St :=
  ActionExecutor.mkSt (Scenario.world (Scenario.always p)) None
    (ActionExecutor.new None).

(** ** The copy behind a file request *)

(** The call a TRANSFER_FILE, PUT_FILE or GET_FILE handler makes on the
    runtime. *)
Definition copy_call (request : ActionRequest.t) : M DockerRuntime.St bool :=
  match ActionRequest.action_type request with
  | GET_FILE =>
      DockerRuntime.copy_from_container (named_container request)
        (Handlers.text (ActionRequest.param request "container_path"))
        (Handlers.text (ActionRequest.param request "host_path"))
  | _ =>
      DockerRuntime.copy_to_container (named_container request)
        (Handlers.text (ActionRequest.param request "source_path"))
        (Handlers.text (ActionRequest.param request "destination_path"))
  end.

(** The [docker cp] command line of that call, and the operation it is. *)
Definition copy_cmdline (request : ActionRequest.t) : string :=
  match ActionRequest.action_type request with
  | GET_FILE =>
      cp_from_cmdline (named_container request)
        (Handlers.text (ActionRequest.param request "container_path"))
        (Handlers.text (ActionRequest.param request "host_path"))
  | _ =>
      cp_to_cmdline (named_container request)
        (Handlers.text (ActionRequest.param request "source_path"))
        (Handlers.text (ActionRequest.param request "destination_path"))
  end.

Definition copy_op (request : ActionRequest.t) : RuntimeOp :=
  match ActionRequest.action_type request with
  | GET_FILE =>
      OpCopyFrom (named_container request)
        (Handlers.text (ActionRequest.param request "container_path"))
        (Handlers.text (ActionRequest.param request "host_path"))
  | _ =>
      OpCopyTo (named_container request)
        (Handlers.text (ActionRequest.param request "source_path"))
        (Handlers.text (ActionRequest.param request "destination_path"))
  end.

(** * Properties *)

(** ** Text *)

Lemma append_empty_r (s : string) : s +:+ EmptyString = s.
Proof. induction s as [|c s IH]; simpl; [reflexivity | now rewrite IH]. Qed.

Lemma append_assoc (a b c : string) : (a +:+ b) +:+ c = a +:+ (b +:+ c).
Proof. induction a as [|x a IH]; simpl; [reflexivity | now rewrite IH]. Qed.

Lemma all_chars_append (p : ascii -> bool) (a b : string) :
  Text.all_chars p (a +:+ b) = Text.all_chars p a && Text.all_chars p b.
Proof.
  induction a as [|c a IH]; simpl; [reflexivity |].
  rewrite IH. now rewrite andb_assoc.
Qed.

Lemma isdigit_all_chars (s : string) :
  Text.ascii_isdigit s = true <-> Formats.all_digits s /\ s <> EmptyString.
Proof.
  unfold Formats.all_digits. destruct s as [|c s]; simpl.
  - split; [discriminate | intros [_ H]; now elim H].
  - split; [intros H; split; [exact H | discriminate] | now intros [H _]].
Qed.

Lemma digit_is_not_point (c : ascii) :
  Text.is_digit_char c = true -> Ascii.eqb "." c = false.
Proof.
  intros H. destruct (Ascii.eqb_spec "." c) as [<- | ]; [discriminate H | reflexivity].
Qed.

Lemma digits_count_point (s : string) :
  Formats.all_digits s -> Text.count "." s = O.
Proof.
  unfold Formats.all_digits. induction s as [|c s IH]; simpl; [reflexivity |].
  intros [Hc Hs]%andb_prop. rewrite (digit_is_not_point c Hc). now apply IH.
Qed.

Lemma count_zero_remove_first (c : ascii) (s : string) :
  Text.count c s = O -> Text.remove_first c s = s.
Proof.
  induction s as [|d s IH]; simpl; [reflexivity |].
  destruct (Ascii.eqb c d); [discriminate |]. intros H. now rewrite IH.
Qed.

Lemma remove_first_split (c : ascii) (s : string) :
  Text.count c s <> O ->
  exists a b, s = a +:+ Text.str1 c +:+ b
              /\ Text.count c a = O
              /\ Text.remove_first c s = a +:+ b
              /\ Text.count c s = S (Text.count c b).
Proof.
  induction s as [|d s IH]; simpl; [congruence |].
  destruct (Ascii.eqb_spec c d) as [<- | Hne].
  - intros _. exists EmptyString, s. simpl. auto.
  - intros H. destruct (IH H) as (a & b & Hs & Ha & Hr & Hc).
    exists (String d a), b.
    assert (E : Ascii.eqb c d = false) by now apply Ascii.eqb_neq.
    simpl. rewrite E, Hr, Hc. rewrite Hs at 1. auto.
Qed.

Lemma remove_first_point_digits (a b : string) :
  Formats.all_digits a ->
  Text.remove_first "." (a +:+ "." +:+ b) = a +:+ b.
Proof.
  unfold Formats.all_digits. induction a as [|c a IH]; simpl in *.
  - intros _. first [reflexivity | now rewrite Ascii.eqb_refl].
  - intros [Hc Ha]%andb_prop. rewrite (digit_is_not_point c Hc). now rewrite IH.
Qed.

Lemma count_append (c : ascii) (a b : string) :
  Text.count c (a +:+ b) = (Text.count c a + Text.count c b)%nat.
Proof.
  induction a as [|d a IH]; simpl; [reflexivity |].
  destruct (Ascii.eqb c d); simpl; now rewrite IH.
Qed.

Lemma last_char_snoc (p : string) (c : ascii) :
  Text.last_char (p +:+ Text.str1 c) = Some c.
Proof.
  induction p as [|d p IH]; simpl; [reflexivity |].
  rewrite IH. destruct (p +:+ Text.str1 c) eqn:E; [| reflexivity].
  destruct p; discriminate E.
Qed.

Lemma last_char_some (s : string) (c : ascii) :
  Text.last_char s = Some c -> exists p, s = p +:+ Text.str1 c.
Proof.
  induction s as [|d s IH]; simpl; [discriminate |].
  destruct s as [|e s].
  - intros [= ->]. now exists EmptyString.
  - intros H. destruct (IH H) as [p Hp]. exists (String d p). simpl. now rewrite <- Hp.
Qed.

Lemma in_suffixes_In (c : ascii) :
  ResourceLimits.in_suffixes c = true <-> In c ResourceLimits.valid_suffixes.
Proof.
  unfold ResourceLimits.in_suffixes. rewrite existsb_exists. split.
  - intros (x & Hx & Heq). apply Ascii.eqb_eq in Heq. now subst.
  - intros H. exists c. split; [exact H | apply Ascii.eqb_refl].
Qed.

(** ** Text in ASCII *)

Lemma isdigit_ascii (db : string -> bool) (s : string) :
  Text.is_ascii s = true -> Text.isdigit db s = Text.ascii_isdigit s.
Proof. unfold Text.isdigit. now intros ->. Qed.

Lemma len_ascii (s : string) :
  Text.is_ascii s = true -> Text.len s = String.length s.
Proof.
  unfold Text.is_ascii. induction s as [|c s IH]; simpl; [reflexivity |].
  intros [Hc Hs]%andb_prop. rewrite (IH Hs).
  unfold Text.continuation, Text.byte_in.
  apply N.ltb_lt in Hc.
  destruct (N.leb_spec 128 (N_of_ascii c)); [lia | reflexivity].
Qed.

Lemma remove_first_ascii (c : ascii) (s : string) :
  Text.is_ascii s = true -> Text.is_ascii (Text.remove_first c s) = true.
Proof.
  unfold Text.is_ascii. induction s as [|d s IH]; simpl; [reflexivity |].
  intros [Hd Hs]%andb_prop. destruct (Ascii.eqb c d); [exact Hs |].
  simpl. now rewrite Hd, IH.
Qed.

(** ** config.py: what the validators accept *)

Section Validators.

(** The verdict of the Unicode database on text outside ASCII. *)
Variable db : string -> bool.

Lemma validate_cpu_accepts (v : string) :
  Text.is_ascii v = true ->
  ResourceLimits.validate_cpu db v = Ok v <-> Formats.cpu_format v.
Proof.
  intros Hv. unfold ResourceLimits.validate_cpu, Formats.cpu_format.
  rewrite (isdigit_ascii db v Hv),
    (isdigit_ascii db _ (remove_first_ascii "." v Hv)).
  split.
  - destruct (Text.ascii_isdigit v) eqn:Hd; simpl.
    + intros _. apply isdigit_all_chars in Hd as [Hd Hne].
      exists v, EmptyString. rewrite append_empty_r. repeat split; auto.
    + destruct (Text.ascii_isdigit (Text.remove_first "." v)) eqn:Hr; simpl; [| discriminate].
      destruct (Nat.ltb_spec (Text.count "." v) 2) as [Hlt | ]; simpl; [| discriminate].
      intros _. destruct (Nat.eq_dec (Text.count "." v) 0) as [Hz | Hnz].
      * rewrite (count_zero_remove_first _ _ Hz) in Hr. congruence.
      * destruct (remove_first_split _ _ Hnz) as (a & b & Hv' & Ha & Hrem & Hc).
        rewrite Hrem in Hr. apply isdigit_all_chars in Hr as [Hab Hne].
        unfold Formats.all_digits in Hab. rewrite all_chars_append in Hab.
        apply andb_prop in Hab as [Hda Hdb].
        exists a, b. repeat split; auto.
  - intros (a & b & Hv' & Ha & Hb & Hne).
    assert (Hab : Text.ascii_isdigit (a +:+ b) = true).
    { apply isdigit_all_chars. split; [| exact Hne].
      unfold Formats.all_digits. rewrite all_chars_append.
      now rewrite Ha, Hb. }
    destruct Hv' as [-> | ->].
    + now rewrite Hab.
    + rewrite (remove_first_point_digits a b Ha), Hab.
      rewrite count_append. simpl.
      rewrite (digits_count_point a Ha), (digits_count_point b Hb).
      simpl. now rewrite orb_true_r.
Qed.

Lemma size_check_accepts (v : string) :
  Text.is_ascii v = true ->
  ((Text.len v <? 2)%nat = false
   /\ ResourceLimits.last_not_suffix v && negb (Text.isdigit db v) = false)
  <-> Formats.size_format v.
Proof.
  intros Hv. rewrite (isdigit_ascii db v Hv), (len_ascii v Hv).
  unfold Formats.size_format, Formats.ends_with_unit, ResourceLimits.last_not_suffix.
  rewrite Nat.ltb_ge. split.
  - intros [Hlen H]. split; [exact Hlen |].
    apply andb_false_iff in H as [H | H].
    + left. destruct (Text.last_char v) as [c|] eqn:E; [| discriminate].
      apply negb_false_iff, in_suffixes_In in H.
      destruct (last_char_some _ _ E) as [p ->]. eauto.
    + right. apply negb_false_iff in H. now apply isdigit_all_chars.
  - intros [Hlen [(p & c & -> & Hin) | Hd]]; (split; [exact Hlen |]).
    + rewrite last_char_snoc. apply in_suffixes_In in Hin. now rewrite Hin.
    + apply isdigit_all_chars in Hd. rewrite Hd. apply andb_false_r.
Qed.

Lemma validate_memory_accepts (v : string) :
  Text.is_ascii v = true ->
  ResourceLimits.validate_memory db v = Ok v <-> Formats.size_format v.
Proof.
  intros Hv. rewrite <- (size_check_accepts v Hv).
  unfold ResourceLimits.validate_memory.
  destruct (Text.len v <? 2)%nat; [split; [discriminate | intros [? _]; discriminate] |].
  destruct (_ && _); split; try discriminate; auto.
  intros [_ ?]; discriminate.
Qed.

Lemma validate_disk_accepts (v : string) :
  Text.is_ascii v = true ->
  ResourceLimits.validate_disk db v = Ok v <-> Formats.size_format v.
Proof.
  intros Hv. rewrite <- (size_check_accepts v Hv).
  unfold ResourceLimits.validate_disk.
  destruct (Text.len v <? 2)%nat; [split; [discriminate | intros [? _]; discriminate] |].
  destruct (_ && _); split; try discriminate; auto.
  intros [_ ?]; discriminate.
Qed.

Lemma validator_outcome (v : string) :
  (ResourceLimits.validate_cpu db v = Ok v
   \/ exists m, ResourceLimits.validate_cpu db v = Raise (ValueError m))
  /\ (ResourceLimits.validate_memory db v = Ok v
      \/ exists m, ResourceLimits.validate_memory db v = Raise (ValueError m))
  /\ (ResourceLimits.validate_disk db v = Ok v
      \/ exists m, ResourceLimits.validate_disk db v = Raise (ValueError m)).
Proof.
  unfold ResourceLimits.validate_cpu, ResourceLimits.validate_memory,
    ResourceLimits.validate_disk.
  repeat split.
  - destruct (negb _); eauto.
  - destruct (_ <? _)%nat; eauto. destruct (_ && _); eauto.
  - destruct (_ <? _)%nat; eauto. destruct (_ && _); eauto.
Qed.

Lemma ResourceLimits_new_outcome
  (cpu memory disk : string) (timeout max_processes : Z) :
  (ResourceLimits.validate_cpu db cpu = Ok cpu
   /\ ResourceLimits.validate_memory db memory = Ok memory
   /\ ResourceLimits.validate_disk db disk = Ok disk
   /\ ResourceLimits.new db cpu memory disk timeout max_processes
      = Ok (ResourceLimits.mk cpu memory disk timeout max_processes))
  \/ (~ (ResourceLimits.validate_cpu db cpu = Ok cpu
         /\ ResourceLimits.validate_memory db memory = Ok memory
         /\ ResourceLimits.validate_disk db disk = Ok disk)
      /\ exists errors, errors <> []
           /\ ResourceLimits.new db cpu memory disk timeout max_processes
              = Raise (ValidationError errors)).
Proof.
  unfold ResourceLimits.new.
  destruct (validator_outcome cpu) as ([Hc | [mc Hc]] & _ & _);
  destruct (validator_outcome memory) as (_ & [Hm | [mm Hm]] & _);
  destruct (validator_outcome disk) as (_ & _ & [Hd | [md Hd]]);
  rewrite Hc, Hm, Hd; simpl;
    first [ left; now auto
          | right; split;
            [ intros (? & ? & ?); discriminate
            | eexists; split; [| reflexivity]; discriminate ] ].
Qed.

End Validators.

(** C6, as amended.  For values written in ASCII, whatever the Unicode
    database says of other text: construction succeeds, keeping the five
    values as given, exactly when [cpu] is digits 0 to 9 with at most one
    point and at least one digit, and [memory] and [disk] have two
    characters or more and end in K, M, G or T or are all digits; otherwise
    it raises a [ValidationError] that carries at least one message.  No
    bound is put on [timeout] or [max_processes]. *)
Theorem ResourceLimits_construction (unicode_isdigit : string -> bool)
  (cpu memory disk : string) (timeout max_processes : Z) :
  Text.is_ascii cpu = true ->
  Text.is_ascii memory = true ->
  Text.is_ascii disk = true ->
  (ResourceLimits.new unicode_isdigit cpu memory disk timeout max_processes
   = Ok (ResourceLimits.mk cpu memory disk timeout max_processes)
   <-> Formats.cpu_format cpu /\ Formats.size_format memory
       /\ Formats.size_format disk)
  /\ ((exists errors, errors <> []
         /\ ResourceLimits.new unicode_isdigit cpu memory disk timeout
              max_processes
            = Raise (ValidationError errors))
      <-> ~ (Formats.cpu_format cpu /\ Formats.size_format memory
             /\ Formats.size_format disk)).
Proof.
  intros Hcpu Hmem Hdisk.
  rewrite <- (validate_cpu_accepts unicode_isdigit cpu Hcpu),
    <- (validate_memory_accepts unicode_isdigit memory Hmem),
    <- (validate_disk_accepts unicode_isdigit disk Hdisk).
  destruct (ResourceLimits_new_outcome unicode_isdigit cpu memory disk timeout
              max_processes)
    as [(Hc & Hm & Hd & Hnew) | (Hnot & errors & Hne & Hnew)];
    rewrite Hnew; split; split.
  - auto.
  - auto.
  - intros (? & _ & [=]).
  - intros H. elim H. auto.
  - intros [=].
  - intros H. elim Hnot. exact H.
  - intros _. exact Hnot.
  - intros _. eauto.
Qed.

Lemma ResourceLimits_construction_witness :
  (ResourceLimits.new (fun _ => false) "0.5" "512M" "10G" 300 10
   = Ok (ResourceLimits.mk "0.5" "512M" "10G" 300 10)
   <-> Formats.cpu_format "0.5" /\ Formats.size_format "512M"
       /\ Formats.size_format "10G")
  /\ ((exists errors, errors <> []
         /\ ResourceLimits.new (fun _ => false) "0.5" "512M" "10G" 300 10
            = Raise (ValidationError errors))
      <-> ~ (Formats.cpu_format "0.5" /\ Formats.size_format "512M"
             /\ Formats.size_format "10G")).
Proof.
  apply (ResourceLimits_construction (fun _ => false) "0.5" "512M" "10G" 300 10);
    reflexivity.
Defined.

(** C6, counterexample.  A CPU count of zero, a memory size with no
    magnitude and a timeout of zero seconds are all accepted, whatever the
    Unicode database says.  A raw byte count of one digit is refused, by
    the length check.  And a CPU count written with a digit from outside
    ASCII is accepted as soon as [str.isdigit] knows the digit, as it does
    the superscript two. *)
Lemma ResourceLimits_accepts_unchecked_values :
  (forall unicode_isdigit,
      ResourceLimits.new unicode_isdigit "0" "xG" "10G" 0 10
      = Ok (ResourceLimits.mk "0" "xG" "10G" 0 10))
  /\ (0 <? ResourceLimits.timeout (ResourceLimits.mk "0" "xG" "10G" 0 10)) = false
  /\ (forall unicode_isdigit,
        exists errors,
          ResourceLimits.new unicode_isdigit "1" "5" "10G" 300 10
          = Raise (ValidationError errors))
  /\ (forall unicode_isdigit,
        unicode_isdigit "²" = true ->
        ResourceLimits.new unicode_isdigit "²" "1G" "10G" 300 10
        = Ok (ResourceLimits.mk "²" "1G" "10G" 300 10)).
Proof.
  split; [intros db; reflexivity |]. split; [reflexivity |].
  split; [intros db; eexists; reflexivity |].
  intros db Hdb. unfold ResourceLimits.new, ResourceLimits.validate_cpu,
    Text.isdigit.
  cbn [Text.is_ascii Text.all_chars]. simpl. rewrite Hdb. reflexivity.
Qed.

(** ** docker_runtime.py *)

Ltac unfold_monad :=
  unfold bind, ret, raise, get, modify, try_except, zoom, DockerRuntime.lift_res in *.

(** Projections applied to explicit records, and nothing else. *)
Ltac project :=
  cbn beta iota zeta delta
    [fst snd
     engine json_inspect uuid_src spawned uuid_drawn now cancel_at ops
     set_spawned set_uuid_drawn set_now set_cancel_at set_ops
     DockerRuntime.env DockerRuntime.self DockerRuntime.config
     DockerRuntime._containers DockerRuntime._initialized
     DockerRuntime.cc_name
     Handlers.env Handlers.runtime Handlers.response
     ActionExecutor.env ActionExecutor.factory_instance ActionExecutor.self
     ActionExecutor._runtime ActionExecutor._action_handlers
     ActionServer.ex ActionServer._running_actions
     ActionResponse.action_id ActionResponse.status ActionResponse.result
     ActionResponse.error ActionResponse.execution_time
     ActionResponse.metadata ActionResponse.set_metadata
     ActionResponse.complete ActionResponse.fail_with] in *.

(** The state [remove_container] leaves when the container is not known:
    only the call itself has been noted. *)
Lemma remove_container_unknown (cid : string) (force : bool)
  (s : DockerRuntime.St) :
  DockerRuntime._containers (DockerRuntime.self s) !! cid = None ->
  DockerRuntime.remove_container cid force s
  = (Raise (Exception ("容器未找到: " +:+ cid)),
     DockerRuntime.mkSt
       (set_ops (ops (DockerRuntime.env s) ++ [OpRemove cid]) (DockerRuntime.env s))
       (DockerRuntime.self s)).
Proof.
  intros H. unfold DockerRuntime.remove_container, DockerRuntime.record_op,
    DockerRuntime.on_env, DockerRuntime.not_found.
  unfold_monad. simpl. now rewrite H.
Qed.

(** A removal that reports success has deleted the entry. *)
Lemma remove_container_deletes (cid : string) (force : bool)
  (s s' : DockerRuntime.St) :
  DockerRuntime.remove_container cid force s = (Ok true, s') ->
  DockerRuntime._containers (DockerRuntime.self s') !! cid = None.
Proof.
  unfold DockerRuntime.remove_container, DockerRuntime.record_op,
    DockerRuntime.on_env, DockerRuntime.not_found, DockerRuntime.set_containers.
  unfold_monad. simpl.
  destruct (_ !! cid) as [info|]; [| discriminate].
  destruct (DockerRuntime.get_container_status cid _) as [[st|e] s1].
  2:{ destruct (is_Exception e); intros [=]. }
  destruct (DockerRuntime.is_running st).
  - destruct (DockerRuntime.stop_container cid s1) as [[b|e] s2].
    2:{ destruct (is_Exception e); intros [=]. }
    destruct (DockerRuntime._run_docker_command _ true _) as [[o|e] w].
    2:{ destruct (is_Exception e); intros [=]. }
    intros [= <-]. simpl. apply lookup_delete_eq.
  - destruct (DockerRuntime._run_docker_command _ true _) as [[o|e] w].
    2:{ destruct (is_Exception e); intros [=]. }
    intros [= <-]. simpl. apply lookup_delete_eq.
Qed.

(** C5, as amended.  For a container id that is not in the table,
    [remove_container] raises the exception whose message is the
    not-found text followed by the id; the table, the clock and the list
    of spawned commands are as before.  An id removed by an earlier,
    successful [remove_container] is such an id. *)
Theorem remove_container_not_found_raises (cid : string) (force : bool)
  (s : DockerRuntime.St) :
  DockerRuntime._containers (DockerRuntime.self s) !! cid = None ->
  let r := DockerRuntime.remove_container cid force s in
  fst r = Raise (Exception ("容器未找到: " +:+ cid))
  /\ DockerRuntime.self (snd r) = DockerRuntime.self s
  /\ spawned (DockerRuntime.env (snd r)) = spawned (DockerRuntime.env s)
  /\ now (DockerRuntime.env (snd r)) = now (DockerRuntime.env s)
  /\ (forall (force' force'' : bool) (s0 s1 : DockerRuntime.St),
        DockerRuntime.remove_container cid force' s0 = (Ok true, s1) ->
        fst (DockerRuntime.remove_container cid force'' s1)
        = Raise (Exception ("容器未找到: " +:+ cid))).
Proof.
  intros H r. subst r. rewrite (remove_container_unknown cid force s H). simpl.
  repeat split.
  intros f1 f2 s0 s1 Hrm. apply remove_container_deletes in Hrm.
  now rewrite (remove_container_unknown cid f2 s1 Hrm).
Qed.

Lemma run_docker_command_spec (args : list string) (check : bool) (w : Env) :
  cancel_at w <> Some (length (spawned w)) ->
  DockerRuntime._run_docker_command args check w
  = (docker_result (engine w (length (spawned w)) (Text.join " " ("docker" :: args))) check,
     after_subprocess (Text.join " " ("docker" :: args)) w).
Proof.
  intros H. unfold DockerRuntime._run_docker_command, communicate, docker_result,
    after_subprocess, DockerRuntime.decode.
  unfold_monad.
  rewrite bool_decide_eq_false_2 by exact H.
  set (cmdline := Text.join " " ("docker" :: args)).
  set (p := engine w (length (spawned w)) cmdline).
  destruct (Text.decode_strip (stdout p)); [| reflexivity].
  destruct (Text.decode_strip (stderr p)); [| reflexivity].
  destruct (check && negb (returncode p =? 0)); reflexivity.
Qed.

Lemma run_docker_command_cancelled (args : list string) (check : bool) (w : Env) :
  cancel_at w = Some (length (spawned w)) ->
  DockerRuntime._run_docker_command args check w
  = (Raise CancelledError,
     set_spawned (spawned w ++ [Text.join " " ("docker" :: args)]) w).
Proof.
  intros H. unfold DockerRuntime._run_docker_command, communicate.
  unfold_monad. now rewrite bool_decide_eq_true_2 by exact H.
Qed.

Lemma docker_result_cases (p : ProcResult) :
  (decodable p = true /\ returncode p = 0
   /\ exists out, Text.decode_strip (stdout p) = Some out
                  /\ docker_result p true = Ok out)
  \/ ((decodable p = false \/ returncode p <> 0)
      /\ exists e, docker_result p true = Raise e /\ is_Exception e = true
                   /\ e <> TimeoutError).
Proof.
  unfold docker_result, decodable.
  destruct (Text.decode_strip (stdout p)) as [out|];
    [| right; split; [now left | exists UnicodeDecodeError; repeat split; discriminate]].
  destruct (Text.decode_strip (stderr p)) as [err|];
    [| right; split; [now left | exists UnicodeDecodeError; repeat split; discriminate]].
  simpl. destruct (Z.eqb_spec (returncode p) 0) as [E | E]; simpl.
  - left. eauto.
  - right. split; [now right |]. eexists. repeat split; discriminate.
Qed.

(** The outcome of [execute_command] on a registered container when no
    cancellation is pending, by cases on deadline and subprocess. *)
Lemma execute_command_spec (cid command : string) (timeout : option Z)
  (s : DockerRuntime.St) (info : DockerRuntime.ContainerInfo) :
  DockerRuntime._containers (DockerRuntime.self s) !! cid = Some info ->
  cancel_at (DockerRuntime.env s) = None ->
  let t := DockerRuntime.effective_timeout timeout (DockerRuntime.self s) in
  let w := with_op (OpExec cid command) (DockerRuntime.env s) in
  let p := next_exec cid command (DockerRuntime.env s) in
  DockerRuntime.execute_command cid command timeout s
  = if t <=? 0 then
      (Ok DockerRuntime.exec_timeout, DockerRuntime.mkSt w (DockerRuntime.self s))
    else if 1000 * t <=? elapsed p then
      (Ok DockerRuntime.exec_timeout,
       DockerRuntime.mkSt
         (set_now (now w + 1000 * t) (after_subprocess (exec_cmdline cid command) w))
         (DockerRuntime.self s))
    else
      (match docker_result p true with
       | Ok out => Ok (DockerRuntime.exec_success out)
       | Raise e => Ok (DockerRuntime.exec_failure e)
       end,
       DockerRuntime.mkSt (after_subprocess (exec_cmdline cid command) w)
         (DockerRuntime.self s)).
Proof.
  intros Hreg Hc t w p.
  unfold DockerRuntime.execute_command, DockerRuntime.record_op,
    DockerRuntime.on_env, wait_for.
  unfold_monad. cbn [DockerRuntime.env DockerRuntime.self].
  change (set_ops (ops (DockerRuntime.env s) ++ [OpExec cid command])
            (DockerRuntime.env s)) with w.
  rewrite Hreg. fold t.
  destruct (t <=? 0) eqn:Ht; [reflexivity |].
  assert (Hw : cancel_at w <> Some (length (spawned w))).
  { subst w. simpl. rewrite Hc. discriminate. }
  rewrite (run_docker_command_spec _ true _ Hw).
  change (Text.join " " ("docker" :: ["exec"; cid] ++ ["sh"; "-c"; command]))
    with (exec_cmdline cid command).
  change (engine w (length (spawned w)) (exec_cmdline cid command)) with p.
  cbn [DockerRuntime.env DockerRuntime.self].
  assert (Hnow : now (after_subprocess (exec_cmdline cid command) w)
                 = now w + elapsed p) by reflexivity.
  assert (Hle : (now w + 1000 * t <=? now w + elapsed p) = (1000 * t <=? elapsed p)).
  { destruct (Z.leb_spec (1000 * t) (elapsed p)),
      (Z.leb_spec (now w + 1000 * t) (now w + elapsed p)); lia || reflexivity. }
  destruct (docker_result_cases p) as [(_ & _ & out & _ & ->) | (_ & e & -> & He & Hne)].
  - rewrite Hnow, Hle. destruct (1000 * t <=? elapsed p); reflexivity.
  - destruct e; try discriminate He; try congruence; rewrite Hnow, Hle;
      destruct (1000 * t <=? elapsed p); reflexivity.
Qed.

(** C5, counterexample.  The runtime knows [c1]; the first removal
    succeeds and the second one, on the id just removed, raises instead of
    returning a value. *)
Lemma remove_container_again_raises :
  fst (DockerRuntime.remove_container "c1" true
         (Scenario.rt_state Scenario.fine Scenario.runtime1)) = Ok true
  /\ fst (DockerRuntime.remove_container "c1" true
            (snd (DockerRuntime.remove_container "c1" true
                    (Scenario.rt_state Scenario.fine Scenario.runtime1))))
     = Raise (Exception "容器未找到: c1").
Proof. split; vm_compute; reflexivity. Qed.

Lemma remove_container_not_found_raises_witness :
  DockerRuntime._containers
    (DockerRuntime.self (Scenario.rt_state Scenario.fine Scenario.runtime0))
    !! "c1" = None
  /\ fst (DockerRuntime.remove_container "c1" true
            (Scenario.rt_state Scenario.fine Scenario.runtime0))
     = Raise (Exception "容器未找到: c1").
Proof.
  split; [reflexivity |].
  apply (remove_container_not_found_raises "c1" true
           (Scenario.rt_state Scenario.fine Scenario.runtime0)).
  reflexivity.
Defined.

Lemma in_time_tests (p : ProcResult) (t : Z) :
  in_time p t = negb (t <=? 0) && negb (1000 * t <=? elapsed p).
Proof.
  unfold in_time.
  destruct (Z.ltb_spec 0 t), (Z.leb_spec t 0), (Z.ltb_spec (elapsed p) (1000 * t)),
    (Z.leb_spec (1000 * t) (elapsed p)); simpl; lia || reflexivity.
Qed.

(** C9, as amended.  On a registered container, with no cancellation
    pending, [execute_command] returns a dictionary.  It reports success
    with return code 0 when the subprocess ends before the deadline with
    exit code 0 and UTF-8 on both pipes; it reports failure with return
    code -1 when the deadline expires first, the exit code is not 0, or a
    pipe does not decode.  The container table is left as it was. *)
Theorem execute_command_collapses_exit_codes (cid command : string)
  (timeout : option Z) (s : DockerRuntime.St)
  (info : DockerRuntime.ContainerInfo) :
  DockerRuntime._containers (DockerRuntime.self s) !! cid = Some info ->
  cancel_at (DockerRuntime.env s) = None ->
  let t := DockerRuntime.effective_timeout timeout (DockerRuntime.self s) in
  let p := next_exec cid command (DockerRuntime.env s) in
  exists d s',
    DockerRuntime.execute_command cid command timeout s = (Ok d, s')
    /\ (in_time p t = true -> returncode p = 0 -> decodable p = true ->
        dict_get d "success" VNone = VBool true
        /\ dict_get d "return_code" VNone = VInt 0)
    /\ (in_time p t = false \/ returncode p <> 0 \/ decodable p = false ->
        dict_get d "success" VNone = VBool false
        /\ dict_get d "return_code" VNone = VInt (-1))
    /\ DockerRuntime.self s' = DockerRuntime.self s.
Proof.
  intros Hreg Hc t p.
  rewrite (execute_command_spec cid command timeout s info Hreg Hc).
  fold t p. rewrite in_time_tests.
  destruct (t <=? 0); simpl.
  { do 2 eexists. split; [reflexivity |].
    split; [discriminate |]. split; [| reflexivity]. intros _. split; reflexivity. }
  destruct (1000 * t <=? elapsed p); simpl.
  { do 2 eexists. split; [reflexivity |].
    split; [discriminate |]. split; [| reflexivity]. intros _. split; reflexivity. }
  destruct (docker_result_cases p)
    as [(Hd & Hrc & out & _ & ->) | (Hbad & e & -> & _ & _)];
    do 2 eexists; (split; [reflexivity |]).
  - split; [intros _ _ _; split; reflexivity |].
    split; [| reflexivity].
    intros [? | [? | ?]]; congruence.
  - split; [intros _ ? ?; destruct Hbad; congruence |].
    split; [| reflexivity].
    intros _. split; reflexivity.
Qed.

Lemma execute_command_collapses_exit_codes_witness :
  dict_get
    (match fst (DockerRuntime.execute_command "c1" "false" (Some 30)
                  (Scenario.rt_state Scenario.broken Scenario.runtime1)) with
     | Ok d => d
     | Raise _ => []
     end) "return_code" VNone = VInt (-1).
Proof.
  destruct (execute_command_collapses_exit_codes "c1" "false" (Some 30)
              (Scenario.rt_state Scenario.broken Scenario.runtime1)
              Scenario.box eq_refl eq_refl)
    as (d & s' & Hrun & _ & Hfail & _).
  rewrite Hrun. simpl. apply Hfail. right. left. discriminate.
Defined.

(** C9, counterexample.  The subprocess of [docker exec] exits 0 well
    before the deadline, its output is the byte 0xFF, and the result
    reports failure with return code -1. *)
Lemma execute_command_exit_zero_reported_failed :
  returncode (next_exec "c1" "head -c 1 blob"
                (DockerRuntime.env (Scenario.rt_state Scenario.binary Scenario.runtime1))) = 0
  /\ in_time (next_exec "c1" "head -c 1 blob"
                (DockerRuntime.env (Scenario.rt_state Scenario.binary Scenario.runtime1))) 30 = true
  /\ fst (DockerRuntime.execute_command "c1" "head -c 1 blob" (Some 30)
            (Scenario.rt_state Scenario.binary Scenario.runtime1))
     = Ok [("success", VBool false);
           ("output", VStr "'utf-8' codec can't decode bytes");
           ("return_code", VInt (-1));
           ("error", VStr "'utf-8' codec can't decode bytes")].
Proof. repeat split; vm_compute; reflexivity. Qed.

(** ** docker_runtime.py: container creation *)

Ltac crush_create :=
  cbn -[DockerRuntime._run_docker_command DockerRuntime.create_args
        String.append Text.prefix].

(** [create_container] never returns: when both engine commands succeed it
    stops at [options.dict()].  The table is never written. *)
Lemma create_container_raises (options : option SandboxRuntimeOptions.t)
  (s : DockerRuntime.St) :
  exists e s',
    DockerRuntime.create_container options s = (Raise e, s')
    /\ DockerRuntime._containers (DockerRuntime.self s')
       = DockerRuntime._containers (DockerRuntime.self s)
    /\ DockerRuntime.config (DockerRuntime.self s')
       = DockerRuntime.config (DockerRuntime.self s).
Proof.
  destruct s as [w [cfg tbl ini]].
  unfold DockerRuntime.create_container, DockerRuntime.record_op,
    DockerRuntime.initialize, DockerRuntime._build_container_config,
    DockerRuntime.on_env, DockerRuntime.set_initialized,
    DockerRuntime.set_containers, uuid4_hex.
  unfold_monad. crush_create.
  destruct ini; crush_create.
  - destruct (DockerRuntime._run_docker_command _ true _) as [[cid | e] w1];
      crush_create; [| do 2 eexists; split; [reflexivity | split; reflexivity]].
    destruct (DockerRuntime._run_docker_command _ true _) as [[o | e] w2];
      crush_create; do 2 eexists; (split; [reflexivity | split; reflexivity]).
  - destruct (DockerRuntime._run_docker_command ["version"] true _) as [[v | e] w0];
      crush_create; [| do 2 eexists; split; [reflexivity | split; reflexivity]].
    destruct (DockerRuntime._run_docker_command _ true _) as [[cid | e] w1];
      crush_create; [| do 2 eexists; split; [reflexivity | split; reflexivity]].
    destruct (DockerRuntime._run_docker_command _ true _) as [[o | e] w2];
      crush_create; do 2 eexists; (split; [reflexivity | split; reflexivity]).
Qed.

(** ** action_executor.py: the shape of [execute_action] *)

Lemma execute_action_unfold (request : ActionRequest.t)
  (action_id : option string) (rt : DockerRuntime.t) (s : ActionExecutor.St) :
  ActionExecutor._runtime (ActionExecutor.self s) = Some rt ->
  ActionExecutor.execute_action request action_id s
  = (match fst (ActionExecutor.guarded_call
                  (ActionExecutor._action_handlers (ActionExecutor.self s))
                  request (handler_start request action_id rt s)) with
     | Ok _ =>
         Ok (Handlers.response
               (snd (ActionExecutor.guarded_call
                       (ActionExecutor._action_handlers (ActionExecutor.self s))
                       request (handler_start request action_id rt s))))
     | Raise e => Raise e
     end,
     executor_after s
       (snd (ActionExecutor.guarded_call
               (ActionExecutor._action_handlers (ActionExecutor.self s))
               request (handler_start request action_id rt s)))).
Proof.
  intros Hrt. destruct s as [w f [r hs]]. simpl in Hrt. subst r.
  unfold ActionExecutor.execute_action, ActionExecutor.acquire_runtime,
    ActionExecutor.on_env, uuid4_str, uuid4_hex, handler_start, executor_after.
  unfold_monad.
  destruct action_id as [a |]; cbn -[ActionExecutor.guarded_call];
    destruct (ActionExecutor.guarded_call hs request _) as [[[] | e] h];
    reflexivity.
Qed.

Lemma guarded_call_unfold (handlers : ActionType -> option Handler)
  (request : ActionRequest.t) (handler : Handler) (h : Handlers.St) :
  handlers (ActionRequest.action_type request) = Some handler ->
  ActionExecutor.guarded_call handlers request h
  = conclude (now (Handlers.env h)) (fst (call_handler handler request h))
      (snd (call_handler handler request h)).
Proof.
  intros H. unfold ActionExecutor.guarded_call. rewrite H.
  unfold Handlers.clock, Handlers.update_response, conclude, put_response.
  unfold_monad.
  destruct (call_handler handler request h) as [[result | e] h']; simpl;
    [reflexivity |].
  destruct e; reflexivity.
Qed.

Lemma guarded_call_unsupported (handlers : ActionType -> option Handler)
  (request : ActionRequest.t) (h : Handlers.St) :
  handlers (ActionRequest.action_type request) = None ->
  ActionExecutor.guarded_call handlers request h
  = (Ok tt,
     put_response
       (ActionResponse.fail_with FAILED
          ("不支持的动作类型: " +:+ ActionType_str (ActionRequest.action_type request))
          (Handlers.response h)) h).
Proof.
  intros H. unfold ActionExecutor.guarded_call. rewrite H. reflexivity.
Qed.

(** ** action_executor.py: acquiring the runtime *)

Lemma assign_id_cancel_at (action_id : option string) (w : Env) :
  cancel_at (snd (assign_id action_id w)) = cancel_at w.
Proof. destruct action_id; reflexivity. Qed.

Lemma assign_id_spawned (action_id : option string) (w : Env) :
  spawned (snd (assign_id action_id w)) = spawned w
  /\ engine (snd (assign_id action_id w)) = engine w
  /\ now (snd (assign_id action_id w)) = now w
  /\ ops (snd (assign_id action_id w)) = ops w.
Proof. destruct action_id; repeat split; reflexivity. Qed.

Lemma run_docker_command_keeps_ops (args : list string) (check : bool) (w : Env) :
  ops (snd (DockerRuntime._run_docker_command args check w)) = ops w.
Proof.
  unfold DockerRuntime._run_docker_command, communicate, DockerRuntime.decode.
  unfold_monad.
  destruct (bool_decide _); [reflexivity |]. simpl.
  destruct (Text.decode_strip (stdout _)); [| reflexivity].
  destruct (Text.decode_strip (stderr _)); [| reflexivity].
  destruct (check && _); reflexivity.
Qed.

(** Acquiring the runtime enters no operation of the runtime and leaves the
    handlers alone; when it returns a runtime, the executor holds it. *)
Lemma acquisition_frame (action_id : option string) (s s1 : ActionExecutor.St)
  (r : Res DockerRuntime.t) :
  acquisition action_id s = (r, s1) ->
  ActionExecutor._action_handlers (ActionExecutor.self s1)
  = ActionExecutor._action_handlers (ActionExecutor.self s)
  /\ ops (ActionExecutor.env s1) = ops (ActionExecutor.env s)
  /\ (forall rt, r = Ok rt ->
      ActionExecutor._runtime (ActionExecutor.self s1) = Some rt).
Proof.
  destruct s as [w inst [held hs]].
  unfold acquisition, at_acquisition, ActionExecutor.acquire_runtime.
  unfold bind at 1. unfold get at 1. project.
  assert (Hops : ops (snd (assign_id action_id w)) = ops w)
    by apply assign_id_spawned.
  destruct held as [rt0 |].
  - unfold ret. intros [= <- <-]. project.
    split; [reflexivity |]. split; [exact Hops |]. now intros rt [= <-].
  - unfold ActionExecutor.get_instance.
    unfold bind at 2. unfold get at 1. project.
    destruct inst as [rt0 |].
    + unfold_monad. intros [= <- <-]. project.
      split; [reflexivity |]. split; [exact Hops |]. now intros rt [= <-].
    + unfold DockerRuntime.initialize, DockerRuntime.on_env,
        DockerRuntime.set_initialized, DockerRuntime.new.
      unfold_monad. project.
      pose proof (run_docker_command_keeps_ops ["version"] true
                    (snd (assign_id action_id w))) as Hkeep.
      match goal with
      | |- context [DockerRuntime._run_docker_command ?a ?c ?x] =>
          destruct (DockerRuntime._run_docker_command a c x) as [[out | e] w1]
      end; project; simpl in Hkeep; intros [= <- <-]; project;
        (split; [reflexivity |]); (split; [congruence |]).
      * now intros rt [= <-].
      * discriminate.
Qed.

(** An executor that holds a runtime uses it, and nothing happens. *)
Lemma acquisition_held (action_id : option string) (s : ActionExecutor.St)
  (rt : DockerRuntime.t) :
  ActionExecutor._runtime (ActionExecutor.self s) = Some rt ->
  acquisition action_id s = (Ok rt, at_acquisition action_id s).
Proof.
  destruct s as [w inst [held hs]]. simpl. intros ->. reflexivity.
Qed.

(** [execute_action], step by step: the runtime is acquired, and then the
    [try] statement runs against the response. *)
Lemma execute_action_steps (request : ActionRequest.t)
  (action_id : option string) (s : ActionExecutor.St) :
  ActionExecutor.execute_action request action_id s
  = match acquisition action_id s with
    | (Ok rt, s1) =>
        (match fst (ActionExecutor.guarded_call
                      (ActionExecutor._action_handlers (ActionExecutor.self s1))
                      request (handler_entry request action_id rt s s1)) with
         | Ok _ =>
             Ok (Handlers.response
                   (snd (ActionExecutor.guarded_call
                           (ActionExecutor._action_handlers
                              (ActionExecutor.self s1))
                           request (handler_entry request action_id rt s s1))))
         | Raise e => Raise e
         end,
         executor_after s1
           (snd (ActionExecutor.guarded_call
                   (ActionExecutor._action_handlers (ActionExecutor.self s1))
                   request (handler_entry request action_id rt s s1))))
    | (Raise e, s1) => (Raise e, s1)
    end.
Proof.
  destruct s as [w inst ex].
  unfold ActionExecutor.execute_action, acquisition, at_acquisition,
    handler_entry, executor_after, ActionExecutor.on_env, uuid4_str, uuid4_hex.
  unfold bind at 1.
  assert (Hid : (match action_id with
                 | Some a => ret a
                 | None =>
                     zoom ActionExecutor.env
                       (fun w0 s1 =>
                          ActionExecutor.mkSt w0
                            (ActionExecutor.factory_instance s1)
                            (ActionExecutor.self s1))
                       (bind (fun w0 => (Ok (uuid_src w0 (uuid_drawn w0)),
                                         set_uuid_drawn (S (uuid_drawn w0)) w0))
                          (fun h => ret (dashed h)))
                 end) (ActionExecutor.mkSt w inst ex)
                = (Ok (fst (assign_id action_id w)),
                   ActionExecutor.mkSt (snd (assign_id action_id w)) inst ex))
    by (destruct action_id; reflexivity).
  rewrite Hid. project. unfold bind at 1.
  destruct (ActionExecutor.acquire_runtime _) as [[rt | e] s1]; [| reflexivity].
  destruct (ActionExecutor.guarded_call _ request _) as [[[] | e] h];
    reflexivity.
Qed.

(** C2, as amended.  No handler is registered for the type of the request.
    Once [execute_action] has its runtime (the executor holds one, in which
    case nothing is done to get it, or the factory supplies one) it returns
    a response whose status is FAILED and whose error names the unsupported
    type, and no subprocess is spawned after the acquisition.  When the
    factory raises instead, that exception leaves [execute_action] and there
    is no response.  Either way, no operation of the runtime is entered. *)
Theorem execute_action_unsupported_type (request : ActionRequest.t)
  (action_id : option string) (s : ActionExecutor.St) :
  ActionExecutor._action_handlers (ActionExecutor.self s)
    (ActionRequest.action_type request) = None ->
  ops (ActionExecutor.env
         (snd (ActionExecutor.execute_action request action_id s)))
  = ops (ActionExecutor.env s)
  /\ (forall rt,
        ActionExecutor._runtime (ActionExecutor.self s) = Some rt ->
        acquisition action_id s = (Ok rt, at_acquisition action_id s)
        /\ spawned (ActionExecutor.env (at_acquisition action_id s))
           = spawned (ActionExecutor.env s))
  /\ (forall rt s1,
        acquisition action_id s = (Ok rt, s1) ->
        exists response s',
          ActionExecutor.execute_action request action_id s = (Ok response, s')
          /\ ActionResponse.status response = FAILED
          /\ ActionResponse.error response
             = Some ("不支持的动作类型: "
                     +:+ ActionType_str (ActionRequest.action_type request))
          /\ ActionResponse.result response = None
          /\ spawned (ActionExecutor.env s') = spawned (ActionExecutor.env s1)
          /\ ActionExecutor._runtime (ActionExecutor.self s') = Some rt)
  /\ (forall e s1,
        acquisition action_id s = (Raise e, s1) ->
        ActionExecutor.execute_action request action_id s = (Raise e, s1)).
Proof.
  intros Hnone. rewrite (execute_action_steps request action_id s).
  destruct (acquisition action_id s) as [[rt | e] s1] eqn:Hacq.
  - destruct (acquisition_frame action_id s s1 _ Hacq) as (Hhs & Hops & _).
    rewrite Hhs.
    rewrite (guarded_call_unsupported _ request _ Hnone). simpl.
    split; [exact Hops |]. split.
    { intros rt0 Hheld. rewrite (acquisition_held action_id s rt0 Hheld) in Hacq.
      injection Hacq as <- <-. split; [reflexivity |]. apply assign_id_spawned. }
    split; [| discriminate].
    intros rt0 s0 [= <- <-]. do 2 eexists. split; [reflexivity |].
    repeat split.
  - destruct (acquisition_frame action_id s s1 _ Hacq) as (_ & Hops & _).
    simpl. split; [exact Hops |]. split.
    { intros rt0 Hheld. rewrite (acquisition_held action_id s rt0 Hheld) in Hacq.
      discriminate. }
    split; [discriminate |]. intros e0 s0 [= <- <-]. reflexivity.
Qed.

Lemma execute_action_unsupported_type_witness :
  Scenario.status_of
    (ActionExecutor.execute_action (Scenario.request CUSTOM [] 30) (Some "a-1")
       (bare_executor Scenario.fine))
  = Some FAILED
  /\ ops (ActionExecutor.env
         (snd (ActionExecutor.execute_action (Scenario.request CUSTOM [] 30)
                 (Some "a-1") (bare_executor Scenario.fine))))
  = ops (ActionExecutor.env (bare_executor Scenario.fine))
  /\ (forall rt,
        ActionExecutor._runtime (ActionExecutor.self (bare_executor Scenario.fine))
        = Some rt ->
        acquisition (Some "a-1") (bare_executor Scenario.fine)
        = (Ok rt, at_acquisition (Some "a-1") (bare_executor Scenario.fine))
        /\ spawned (ActionExecutor.env
                      (at_acquisition (Some "a-1") (bare_executor Scenario.fine)))
           = spawned (ActionExecutor.env (bare_executor Scenario.fine)))
  /\ (forall rt s1,
        acquisition (Some "a-1") (bare_executor Scenario.fine) = (Ok rt, s1) ->
        exists response s',
          ActionExecutor.execute_action (Scenario.request CUSTOM [] 30)
            (Some "a-1") (bare_executor Scenario.fine)
          = (Ok response, s')
          /\ ActionResponse.status response = FAILED
          /\ ActionResponse.error response
             = Some ("不支持的动作类型: "
                     +:+ ActionType_str
                           (ActionRequest.action_type
                              (Scenario.request CUSTOM [] 30)))
          /\ ActionResponse.result response = None
          /\ spawned (ActionExecutor.env s') = spawned (ActionExecutor.env s1)
          /\ ActionExecutor._runtime (ActionExecutor.self s') = Some rt)
  /\ (forall e s1,
        acquisition (Some "a-1") (bare_executor Scenario.fine) = (Raise e, s1) ->
        ActionExecutor.execute_action (Scenario.request CUSTOM [] 30)
          (Some "a-1") (bare_executor Scenario.fine)
        = (Raise e, s1)).
Proof.
  split; [vm_compute; reflexivity |].
  apply (execute_action_unsupported_type (Scenario.request CUSTOM [] 30)
           (Some "a-1") (bare_executor Scenario.fine)).
  reflexivity.
Defined.

(** C2, counterexample.  An executor made without a runtime, a factory
    without an instance and an engine whose [docker version] fails: the
    request of an unsupported type gets no response, the exception of the
    probe leaves [execute_action]. *)
Lemma execute_action_unsupported_type_raises :
  ActionExecutor._action_handlers
    (ActionExecutor.self (bare_executor Scenario.broken)) CUSTOM = None
  /\ fst (ActionExecutor.execute_action (Scenario.request CUSTOM [] 30)
            (Some "a-1") (bare_executor Scenario.broken))
     = Raise (Exception "Docker 命令执行失败: no such file")
  /\ Scenario.status_of
       (ActionExecutor.execute_action (Scenario.request CUSTOM [] 30)
          (Some "a-1") (bare_executor Scenario.broken))
     = None.
Proof. repeat split; vm_compute; reflexivity. Qed.

(** ** action_executor.py: required parameters *)

Lemma missing_required_raises (request : ActionRequest.t) (handler : Handler) :
  ActionExecutor.default_handlers (ActionRequest.action_type request)
  = Some handler ->
  missing_required request = true ->
  exists msg, forall h : Handlers.St,
    call_handler handler request h = (Raise (Exception msg), h).
Proof.
  unfold missing_required, missing.
  destruct (ActionRequest.action_type request); simpl;
    intros [= <-] Hm; simpl;
    unfold Handlers._handle_execute_command, Handlers._handle_run_code,
      Handlers._handle_put_file, Handlers._handle_transfer_file,
      Handlers._handle_get_file, Handlers._handle_delete_file,
      Handlers._handle_list_directory, Handlers._handle_check_status;
    repeat match goal with
      | H : _ || _ = true |- _ => apply orb_prop in H as [H | H]
      end;
    try rewrite Hm;
    try (eexists; intros h; reflexivity).
  all: repeat match goal with
         | |- context [if ?b || _ then _ else _] => destruct b; simpl
         | |- context [if falsy ?v then _ else _] => destruct (falsy v); simpl
         end;
       try discriminate;
       try (eexists; intros h; reflexivity).
Qed.

(** C7, as amended.  With the default handlers, a request lacks a required
    parameter of its type ([command]; [code]; the two paths and
    [container_id] of a file transfer; the path and [container_id] of a
    deletion or a listing; [container_id] of a status check), or has it
    empty; [language] is not among them.  Once [execute_action] has its
    runtime (the executor holds one, in which case nothing is done to get
    it, or the factory supplies one) it returns a FAILED response with an
    error message, and no subprocess is spawned after the acquisition.  When
    the factory raises instead, that exception leaves [execute_action] and
    there is no response.  Either way, no operation of the runtime is
    entered. *)
Theorem execute_action_missing_parameter (request : ActionRequest.t)
  (action_id : option string) (s : ActionExecutor.St) :
  ActionExecutor._action_handlers (ActionExecutor.self s)
    (ActionRequest.action_type request)
  = ActionExecutor.default_handlers (ActionRequest.action_type request) ->
  missing_required request = true ->
  ops (ActionExecutor.env
         (snd (ActionExecutor.execute_action request action_id s)))
  = ops (ActionExecutor.env s)
  /\ (forall rt,
        ActionExecutor._runtime (ActionExecutor.self s) = Some rt ->
        acquisition action_id s = (Ok rt, at_acquisition action_id s)
        /\ spawned (ActionExecutor.env (at_acquisition action_id s))
           = spawned (ActionExecutor.env s))
  /\ (forall rt s1,
        acquisition action_id s = (Ok rt, s1) ->
        exists response s' msg,
          ActionExecutor.execute_action request action_id s = (Ok response, s')
          /\ ActionResponse.status response = FAILED
          /\ ActionResponse.error response = Some msg
          /\ ActionResponse.result response = None
          /\ spawned (ActionExecutor.env s') = spawned (ActionExecutor.env s1)
          /\ ActionExecutor._runtime (ActionExecutor.self s') = Some rt)
  /\ (forall e s1,
        acquisition action_id s = (Raise e, s1) ->
        ActionExecutor.execute_action request action_id s = (Raise e, s1)).
Proof.
  intros Hdef Hmiss. rewrite (execute_action_steps request action_id s).
  destruct (ActionExecutor.default_handlers (ActionRequest.action_type request))
    as [handler |] eqn:Hh.
  2:{ unfold missing_required in Hmiss.
      destruct (ActionRequest.action_type request); discriminate. }
  destruct (missing_required_raises request handler Hh Hmiss) as [msg Hraise].
  destruct (acquisition action_id s) as [[rt | e] s1] eqn:Hacq.
  - destruct (acquisition_frame action_id s s1 _ Hacq) as (Hhs & Hops & _).
    rewrite Hhs.
    rewrite (guarded_call_unfold
               (ActionExecutor._action_handlers (ActionExecutor.self s))
               request handler _ Hdef), Hraise. simpl.
    split; [exact Hops |]. split.
    { intros rt0 Hheld. rewrite (acquisition_held action_id s rt0 Hheld) in Hacq.
      injection Hacq as <- <-. split; [reflexivity |]. apply assign_id_spawned. }
    split; [| discriminate].
    intros rt0 s0 [= <- <-]. do 3 eexists. split; [reflexivity |].
    repeat split.
  - destruct (acquisition_frame action_id s s1 _ Hacq) as (_ & Hops & _).
    simpl. split; [exact Hops |]. split.
    { intros rt0 Hheld. rewrite (acquisition_held action_id s rt0 Hheld) in Hacq.
      discriminate. }
    split; [discriminate |]. intros e0 s0 [= <- <-]. reflexivity.
Qed.

Lemma execute_action_missing_parameter_witness :
  Scenario.status_of
    (ActionExecutor.execute_action
       (Scenario.request EXECUTE_COMMAND [("container_id", "c1")] 30) None
       (bare_executor Scenario.fine))
  = Some FAILED
  /\ ops (ActionExecutor.env
         (snd (ActionExecutor.execute_action
                 (Scenario.request EXECUTE_COMMAND [("container_id", "c1")] 30)
                 None (bare_executor Scenario.fine))))
  = ops (ActionExecutor.env (bare_executor Scenario.fine))
  /\ (forall rt,
        ActionExecutor._runtime (ActionExecutor.self (bare_executor Scenario.fine))
        = Some rt ->
        acquisition None (bare_executor Scenario.fine)
        = (Ok rt, at_acquisition None (bare_executor Scenario.fine))
        /\ spawned (ActionExecutor.env
                      (at_acquisition None (bare_executor Scenario.fine)))
           = spawned (ActionExecutor.env (bare_executor Scenario.fine)))
  /\ (forall rt s1,
        acquisition None (bare_executor Scenario.fine) = (Ok rt, s1) ->
        exists response s' msg,
          ActionExecutor.execute_action
            (Scenario.request EXECUTE_COMMAND [("container_id", "c1")] 30)
            None (bare_executor Scenario.fine)
          = (Ok response, s')
          /\ ActionResponse.status response = FAILED
          /\ ActionResponse.error response = Some msg
          /\ ActionResponse.result response = None
          /\ spawned (ActionExecutor.env s') = spawned (ActionExecutor.env s1)
          /\ ActionExecutor._runtime (ActionExecutor.self s') = Some rt)
  /\ (forall e s1,
        acquisition None (bare_executor Scenario.fine) = (Raise e, s1) ->
        ActionExecutor.execute_action
          (Scenario.request EXECUTE_COMMAND [("container_id", "c1")] 30)
          None (bare_executor Scenario.fine)
        = (Raise e, s1)).
Proof.
  split; [vm_compute; reflexivity |].
  apply (execute_action_missing_parameter
           (Scenario.request EXECUTE_COMMAND [("container_id", "c1")] 30)
           None (bare_executor Scenario.fine));
    reflexivity.
Defined.

(** C7, counterexample.  A RUN_CODE request with [code] and no [language]
    is run as Python: the response is COMPLETED and the runtime has
    executed one command.  And for an executor made without a runtime, when
    the factory has no instance and [docker version] fails, a request
    without its [command] gets no response: the exception of the probe
    leaves [execute_action]. *)
Lemma run_code_without_language_completes :
  ActionRequest.param
    (Scenario.request RUN_CODE [("code", "print(1)"); ("container_id", "c1")] 30)
    "language" = None
  /\ Scenario.status_of
       (ActionExecutor.execute_action
          (Scenario.request RUN_CODE
             [("code", "print(1)"); ("container_id", "c1")] 30) (Some "a-1")
          (Scenario.executor Scenario.fine Scenario.runtime1))
     = Some COMPLETED
  /\ length (ops (ActionExecutor.env
                    (snd (ActionExecutor.execute_action
                            (Scenario.request RUN_CODE
                               [("code", "print(1)"); ("container_id", "c1")] 30)
                            (Some "a-1")
                            (Scenario.executor Scenario.fine Scenario.runtime1)))))
     = 1%nat
  /\ missing_required
       (Scenario.request EXECUTE_COMMAND [("container_id", "c1")] 30) = true
  /\ fst (ActionExecutor.execute_action
            (Scenario.request EXECUTE_COMMAND [("container_id", "c1")] 30)
            (Some "a-1") (bare_executor Scenario.broken))
     = Raise (Exception "Docker 命令执行失败: no such file").
Proof. repeat split; vm_compute; reflexivity. Qed.

(** ** docker_runtime.py: the copies *)

Lemma docker_result_not_cancelled (p : ProcResult) (check : bool) (e : exn) :
  docker_result p check = Raise e -> is_Exception e = true /\ e <> TimeoutError.
Proof.
  unfold docker_result.
  destruct (Text.decode_strip (stdout p)); [| intros [= <-]; split; [reflexivity | discriminate]].
  destruct (Text.decode_strip (stderr p)); [| intros [= <-]; split; [reflexivity | discriminate]].
  destruct (check && negb (returncode p =? 0)); [| discriminate].
  intros [= <-]. split; [reflexivity | discriminate].
Qed.

Lemma copy_to_container_spec (cid host_path container_path : string)
  (s : DockerRuntime.St) (info : DockerRuntime.ContainerInfo) :
  DockerRuntime._containers (DockerRuntime.self s) !! cid = Some info ->
  cancel_at (DockerRuntime.env s) = None ->
  let w := with_op (OpCopyTo cid host_path container_path) (DockerRuntime.env s) in
  let cmdline := cp_to_cmdline cid host_path container_path in
  DockerRuntime.copy_to_container cid host_path container_path s
  = (Ok (succeeded (engine w (length (spawned w)) cmdline)),
     DockerRuntime.mkSt (after_subprocess cmdline w) (DockerRuntime.self s)).
Proof.
  intros Hreg Hc w cmdline. destruct s as [w0 rt]. simpl in Hreg, Hc.
  unfold DockerRuntime.copy_to_container, DockerRuntime.record_op,
    DockerRuntime.on_env.
  unfold_monad. project. rewrite Hreg.
  change (set_ops (ops w0 ++ [OpCopyTo cid host_path container_path]) w0) with w.
  assert (Hw : cancel_at w <> Some (length (spawned w))).
  { subst w. simpl. rewrite Hc. discriminate. }
  rewrite (run_docker_command_spec _ true _ Hw).
  change (Text.join " " ("docker" :: ["cp"; host_path; cid +:+ ":" +:+ container_path]))
    with cmdline.
  unfold succeeded.
  destruct (docker_result _ true) as [out | e] eqn:E; [reflexivity |].
  apply docker_result_not_cancelled in E as [-> _]. reflexivity.
Qed.

Lemma copy_from_container_spec (cid container_path host_path : string)
  (s : DockerRuntime.St) (info : DockerRuntime.ContainerInfo) :
  DockerRuntime._containers (DockerRuntime.self s) !! cid = Some info ->
  cancel_at (DockerRuntime.env s) = None ->
  let w := with_op (OpCopyFrom cid container_path host_path) (DockerRuntime.env s) in
  let cmdline := cp_from_cmdline cid container_path host_path in
  DockerRuntime.copy_from_container cid container_path host_path s
  = (Ok (succeeded (engine w (length (spawned w)) cmdline)),
     DockerRuntime.mkSt (after_subprocess cmdline w) (DockerRuntime.self s)).
Proof.
  intros Hreg Hc w cmdline. destruct s as [w0 rt]. simpl in Hreg, Hc.
  unfold DockerRuntime.copy_from_container, DockerRuntime.record_op,
    DockerRuntime.on_env.
  unfold_monad. project. rewrite Hreg.
  change (set_ops (ops w0 ++ [OpCopyFrom cid container_path host_path]) w0) with w.
  assert (Hw : cancel_at w <> Some (length (spawned w))).
  { subst w. simpl. rewrite Hc. discriminate. }
  rewrite (run_docker_command_spec _ true _ Hw).
  change (Text.join " " ("docker" :: ["cp"; cid +:+ ":" +:+ container_path; host_path]))
    with cmdline.
  unfold succeeded.
  destruct (docker_result _ true) as [out | e] eqn:E; [reflexivity |].
  apply docker_result_not_cancelled in E as [-> _]. reflexivity.
Qed.

(** ** action_executor.py: the file handlers *)

Lemma call_runtime_unfold {A} (m : M DockerRuntime.St A) (h : Handlers.St) :
  Handlers.call_runtime m h
  = (fst (m (DockerRuntime.mkSt (Handlers.env h) (Handlers.runtime h))),
     Handlers.mkSt
       (DockerRuntime.env
          (snd (m (DockerRuntime.mkSt (Handlers.env h) (Handlers.runtime h)))))
       (DockerRuntime.self
          (snd (m (DockerRuntime.mkSt (Handlers.env h) (Handlers.runtime h)))))
       (Handlers.response h)).
Proof.
  unfold Handlers.call_runtime, zoom.
  destruct (m _) as [r s]. reflexivity.
Qed.

Lemma falsy_false_text (v : option string) :
  falsy v = false -> v = Some (Handlers.text v).
Proof. destruct v as [[|c s]|]; simpl; intros H; try discriminate; reflexivity. Qed.

(** A copy handler makes its call on the runtime, whose boolean it drops,
    and returns [success: true]. *)
Lemma copy_handler_succeeds (request : ActionRequest.t) (handler : Handler)
  (h : Handlers.St) (info : DockerRuntime.ContainerInfo) :
  is_copy (ActionRequest.action_type request) = true ->
  ActionExecutor.default_handlers (ActionRequest.action_type request)
  = Some handler ->
  missing_required request = false ->
  DockerRuntime._containers (Handlers.runtime h) !! named_container request
  = Some info ->
  cancel_at (Handlers.env h) = None ->
  exists d h',
    call_handler handler request h = (Ok d, h')
    /\ dict_get d "success" VNone = VBool true
    /\ Handlers.runtime h' = Handlers.runtime h
    /\ Handlers.response h' = Handlers.response h
    /\ copy_call request (DockerRuntime.mkSt (Handlers.env h) (Handlers.runtime h))
       = (Ok (succeeded (next_proc (copy_cmdline request) (Handlers.env h))),
          DockerRuntime.mkSt (Handlers.env h') (Handlers.runtime h))
    /\ ops (Handlers.env h') = ops (Handlers.env h) ++ [copy_op request]
    /\ spawned (Handlers.env h')
       = spawned (Handlers.env h) ++ [copy_cmdline request].
Proof.
  intros Hcopy Hh Hmiss Hreg Hc.
  unfold missing_required, missing in Hmiss.
  unfold copy_call, copy_cmdline, copy_op, next_proc, named_container in *.
  destruct h as [w rt resp]. simpl in Hreg, Hc.
  destruct (ActionRequest.action_type request); try discriminate Hcopy;
    injection Hh as <-; cbn [call_handler];
    apply orb_false_elim in Hmiss as [Hmiss H3];
    apply orb_false_elim in Hmiss as [H1 H2];
    unfold Handlers._handle_put_file, Handlers._handle_transfer_file,
      Handlers._handle_get_file;
    rewrite H1, H2, H3; cbn [orb]; unfold bind; rewrite call_runtime_unfold;
    project.
  - rewrite !(copy_to_container_spec _ _ _ (DockerRuntime.mkSt w rt) info Hreg Hc).
    cbv zeta. project. unfold ret.
    do 2 eexists. split; [reflexivity |]. project. repeat split;
      simpl; now rewrite <- app_assoc.
  - rewrite !(copy_from_container_spec _ _ _ (DockerRuntime.mkSt w rt) info Hreg Hc).
    cbv zeta. project. unfold ret.
    do 2 eexists. split; [reflexivity |]. project. repeat split;
      simpl; now rewrite <- app_assoc.
  - rewrite !(copy_to_container_spec _ _ _ (DockerRuntime.mkSt w rt) info Hreg Hc).
    cbv zeta. project. unfold ret.
    do 2 eexists. split; [reflexivity |]. project. repeat split;
      simpl; now rewrite <- app_assoc.
Qed.

(** C10.  With the default handlers, once [execute_action] has its runtime
    (the one the executor holds, or the one the factory supplies), a
    TRANSFER_FILE, PUT_FILE or GET_FILE request that has its paths and names
    a container registered with that runtime makes the handler call
    [copy_to_container] (or [copy_from_container] for GET_FILE) once, with
    the container and the two paths of the request: the operation is
    entered and its [docker cp] is run, and nothing else is.  The boolean
    that call returns, which says whether [docker cp] succeeded, is dropped:
    the action is answered COMPLETED with [success: true] and no error
    whether the copy returned [True] or [False]. *)
Theorem copy_actions_report_success (request : ActionRequest.t)
  (action_id : option string) (rt : DockerRuntime.t) (s s1 : ActionExecutor.St)
  (info : DockerRuntime.ContainerInfo) :
  ActionExecutor._action_handlers (ActionExecutor.self s)
    (ActionRequest.action_type request)
  = ActionExecutor.default_handlers (ActionRequest.action_type request) ->
  is_copy (ActionRequest.action_type request) = true ->
  missing_required request = false ->
  acquisition action_id s = (Ok rt, s1) ->
  DockerRuntime._containers rt
    !! Handlers.text (ActionRequest.param request "container_id") = Some info ->
  cancel_at (ActionExecutor.env s1) = None ->
  exists response s' d copied,
    ActionExecutor.execute_action request action_id s = (Ok response, s')
    /\ ActionResponse.status response = COMPLETED
    /\ ActionResponse.result response = Some d
    /\ dict_get d "success" VNone = VBool true
    /\ ActionResponse.error response = None
    /\ copy_call request (DockerRuntime.mkSt (ActionExecutor.env s1) rt)
       = (Ok copied, DockerRuntime.mkSt (ActionExecutor.env s') rt)
    /\ copied
       = succeeded (next_proc (copy_cmdline request) (ActionExecutor.env s1))
    /\ ops (ActionExecutor.env s')
       = ops (ActionExecutor.env s) ++ [copy_op request]
    /\ spawned (ActionExecutor.env s')
       = spawned (ActionExecutor.env s1) ++ [copy_cmdline request]
    /\ ActionExecutor._runtime (ActionExecutor.self s') = Some rt.
Proof.
  intros Hdef Hcopy Hmiss Hacq Hreg Hc.
  rewrite (execute_action_steps request action_id s), Hacq.
  destruct (acquisition_frame action_id s s1 _ Hacq) as (Hhs & Hops1 & _).
  rewrite Hhs.
  destruct (ActionExecutor.default_handlers (ActionRequest.action_type request))
    as [handler |] eqn:Hh.
  2:{ destruct (ActionRequest.action_type request); discriminate. }
  rewrite (guarded_call_unfold (ActionExecutor._action_handlers (ActionExecutor.self s)) request handler _ Hdef).
  destruct (copy_handler_succeeds request handler
              (handler_entry request action_id rt s s1) info Hcopy Hh Hmiss Hreg Hc)
    as (d & h' & Hcall & Hd & Hrt' & Hresp & Hcopied & Hops & Hsp).
  rewrite Hcall. simpl. rewrite Hresp.
  exists (ActionResponse.complete d
            (now (Handlers.env h') - now (ActionExecutor.env s1))
            (initial_response (fst (assign_id action_id (ActionExecutor.env s)))
               request)).
  eexists. exists d.
  exists (succeeded (next_proc (copy_cmdline request) (ActionExecutor.env s1))).
  split; [reflexivity |]. simpl.
  split; [reflexivity |]. split; [reflexivity |]. split; [exact Hd |].
  split; [reflexivity |]. split; [exact Hcopied |].
  split; [reflexivity |]. split.
  { rewrite Hops. simpl. now rewrite Hops1. }
  split; [exact Hsp |].
  rewrite Hrt'. reflexivity.
Qed.

Lemma copy_actions_report_success_witness :
  exists response s' d copied,
    ActionExecutor.execute_action
      (Scenario.request TRANSFER_FILE
         [("source_path", "/tmp/a.txt"); ("destination_path", "/workspace/a.txt");
          ("container_id", "c1")] 30) (Some "a-1")
      (Scenario.executor Scenario.broken Scenario.runtime1)
    = (Ok response, s')
    /\ ActionResponse.status response = COMPLETED
    /\ ActionResponse.result response = Some d
    /\ dict_get d "success" VNone = VBool true
    /\ ActionResponse.error response = None
    /\ DockerRuntime.copy_to_container "c1" "/tmp/a.txt" "/workspace/a.txt"
         (Scenario.rt_state Scenario.broken Scenario.runtime1)
       = (Ok copied, DockerRuntime.mkSt (ActionExecutor.env s') Scenario.runtime1)
    /\ copied = false
    /\ ops (ActionExecutor.env s')
       = [OpCopyTo "c1" "/tmp/a.txt" "/workspace/a.txt"]
    /\ spawned (ActionExecutor.env s')
       = ["docker cp /tmp/a.txt c1:/workspace/a.txt"]
    /\ ActionExecutor._runtime (ActionExecutor.self s') = Some Scenario.runtime1.
Proof.
  apply (copy_actions_report_success
           (Scenario.request TRANSFER_FILE
              [("source_path", "/tmp/a.txt");
               ("destination_path", "/workspace/a.txt");
               ("container_id", "c1")] 30) (Some "a-1")
           Scenario.runtime1
           (Scenario.executor Scenario.broken Scenario.runtime1)
           (Scenario.executor Scenario.broken Scenario.runtime1)
           Scenario.box);
    reflexivity.
Defined.

(** ** action_executor.py: a command that outlives its deadline *)

Lemma effective_timeout_positive (t : Z) (rt : DockerRuntime.t) :
  0 < t -> DockerRuntime.effective_timeout (Some t) rt = t.
Proof. intros H. destruct t; try reflexivity. lia. Qed.

Lemma next_exec_assign_id (cid command : string) (action_id : option string)
  (w : Env) :
  next_exec cid command (snd (assign_id action_id w)) = next_exec cid command w.
Proof. destruct action_id; reflexivity. Qed.

Lemma execute_command_handler_deadline (request : ActionRequest.t)
  (h : Handlers.St) (info : DockerRuntime.ContainerInfo) :
  falsy (ActionRequest.param request "command") = false ->
  falsy (ActionRequest.param request "container_id") = false ->
  DockerRuntime._containers (Handlers.runtime h)
    !! Handlers.text (ActionRequest.param request "container_id") = Some info ->
  cancel_at (Handlers.env h) = None ->
  0 < ActionRequest.timeout request ->
  1000 * ActionRequest.timeout request
  <= elapsed (next_exec (Handlers.text (ActionRequest.param request "container_id"))
                (Handlers.text (ActionRequest.param request "command"))
                (Handlers.env h)) ->
  exists h',
    call_handler HExecuteCommand request h
    = (Ok [("output", VStr "命令执行超时"); ("return_code", VInt (-1));
           ("success", VBool false)], h')
    /\ Handlers.response h' = Handlers.response h
    /\ now (Handlers.env h')
       = now (Handlers.env h) + 1000 * ActionRequest.timeout request.
Proof.
  intros Hcmd Hcid Hreg Hc Hpos Hslow. simpl.
  unfold Handlers._handle_execute_command, Handlers.container_for.
  rewrite Hcmd, Hcid. unfold bind, ret. rewrite call_runtime_unfold.
  rewrite (execute_command_spec _ _ _
             (DockerRuntime.mkSt (Handlers.env h) (Handlers.runtime h))
             info Hreg Hc).
  rewrite (effective_timeout_positive _ _ Hpos).
  cbn [DockerRuntime.env DockerRuntime.self].
  destruct (Z.leb_spec (ActionRequest.timeout request) 0) as [? | _]; [lia |].
  destruct (Z.leb_spec (1000 * ActionRequest.timeout request)
              (elapsed (next_exec (Handlers.text (ActionRequest.param request "container_id"))
                          (Handlers.text (ActionRequest.param request "command"))
                          (Handlers.env h)))) as [_ | ?]; [| lia].
  eexists. split; [reflexivity |]. split; reflexivity.
Qed.

(** C1, what the code does.  An EXECUTE_COMMAND request names a registered
    container and a command that is still running when [request.timeout]
    seconds have passed.  The runtime turns the expiry into a result
    dictionary, so the handler returns normally: the response is COMPLETED
    (not TIMED_OUT), carries no error, its result reports failure with
    return code -1, and its execution time is the timeout. *)
Theorem execute_command_deadline_expiry (request : ActionRequest.t)
  (action_id : option string) (rt : DockerRuntime.t) (s : ActionExecutor.St)
  (info : DockerRuntime.ContainerInfo) :
  ActionExecutor._runtime (ActionExecutor.self s) = Some rt ->
  ActionExecutor._action_handlers (ActionExecutor.self s)
    (ActionRequest.action_type request)
  = ActionExecutor.default_handlers (ActionRequest.action_type request) ->
  ActionRequest.action_type request = EXECUTE_COMMAND ->
  falsy (ActionRequest.param request "command") = false ->
  falsy (ActionRequest.param request "container_id") = false ->
  DockerRuntime._containers rt
    !! Handlers.text (ActionRequest.param request "container_id") = Some info ->
  cancel_at (ActionExecutor.env s) = None ->
  0 < ActionRequest.timeout request ->
  1000 * ActionRequest.timeout request
  <= elapsed (next_exec (Handlers.text (ActionRequest.param request "container_id"))
                (Handlers.text (ActionRequest.param request "command"))
                (ActionExecutor.env s)) ->
  exists response s',
    ActionExecutor.execute_action request action_id s = (Ok response, s')
    /\ ActionResponse.status response = COMPLETED
    /\ ActionResponse.result response
       = Some [("output", VStr "命令执行超时"); ("return_code", VInt (-1));
               ("success", VBool false)]
    /\ ActionResponse.error response = None
    /\ ActionResponse.execution_time response
       = 1000 * ActionRequest.timeout request.
Proof.
  intros Hrt Hdef Htype Hcmd Hcid Hreg Hc Hpos Hslow.
  rewrite (execute_action_unfold request action_id rt s Hrt).
  rewrite (guarded_call_unfold _ request HExecuteCommand)
    by (rewrite Hdef, Htype; reflexivity).
  destruct (execute_command_handler_deadline request
              (handler_start request action_id rt s) info Hcmd Hcid Hreg)
    as (h' & Hcall & Hresp & Hnow); try assumption.
  { unfold handler_start. simpl. now rewrite assign_id_cancel_at. }
  { unfold handler_start. simpl. now rewrite next_exec_assign_id. }
  rewrite Hcall. simpl. rewrite Hresp, Hnow.
  do 2 eexists. split; [reflexivity |].
  simpl. do 3 (split; [reflexivity |]). lia.
Qed.

Lemma execute_command_deadline_expiry_witness :
  (ActionResponse.status
     <$> Scenario.response_of
           (ActionExecutor.execute_action
              (Scenario.request EXECUTE_COMMAND
                 [("command", "sleep 5"); ("container_id", "c1")] 1)
              (Some "a-1")
              (Scenario.executor Scenario.sleepy Scenario.runtime1)),
   ActionResponse.execution_time
     <$> Scenario.response_of
           (ActionExecutor.execute_action
              (Scenario.request EXECUTE_COMMAND
                 [("command", "sleep 5"); ("container_id", "c1")] 1)
              (Some "a-1")
              (Scenario.executor Scenario.sleepy Scenario.runtime1)))
  = (Some COMPLETED, Some 1000).
Proof.
  destruct (execute_command_deadline_expiry
              (Scenario.request EXECUTE_COMMAND
                 [("command", "sleep 5"); ("container_id", "c1")] 1)
              (Some "a-1") Scenario.runtime1
              (Scenario.executor Scenario.sleepy Scenario.runtime1)
              Scenario.box eq_refl eq_refl eq_refl eq_refl eq_refl eq_refl
              eq_refl eq_refl)
    as (response & s' & Hrun & Hstatus & _ & _ & Htime).
  { vm_compute. discriminate. }
  unfold Scenario.response_of. rewrite Hrun. simpl.
  now rewrite Hstatus, Htime.
Defined.

(** ** action_executor.py: temporary containers *)

Lemma after_subprocess_cancel_at (cmdline : string) (w : Env) :
  cancel_at (after_subprocess cmdline w) = cancel_at w
  /\ uuid_drawn (after_subprocess cmdline w) = uuid_drawn w.
Proof. split; reflexivity. Qed.

Lemma run_docker_command_quiet (args : list string) (check : bool) (w : Env) :
  cancel_at w = None ->
  exists r w',
    DockerRuntime._run_docker_command args check w = (r, w')
    /\ cancel_at w' = None
    /\ (forall e, r = Raise e -> is_Exception e = true /\ e <> TimeoutError).
Proof.
  intros Hc.
  rewrite run_docker_command_spec by (rewrite Hc; discriminate).
  do 2 eexists. split; [reflexivity |]. split; [exact Hc |].
  intros e He. now apply docker_result_not_cancelled in He.
Qed.

(** With no cancellation pending, [create_container] ends in an exception
    of the [Exception] family that is not a timeout, and the table of
    containers is as before. *)
Lemma create_container_fails (options : option SandboxRuntimeOptions.t)
  (s : DockerRuntime.St) :
  cancel_at (DockerRuntime.env s) = None ->
  exists e s',
    DockerRuntime.create_container options s = (Raise e, s')
    /\ is_Exception e = true /\ e <> TimeoutError
    /\ DockerRuntime._containers (DockerRuntime.self s')
       = DockerRuntime._containers (DockerRuntime.self s)
    /\ cancel_at (DockerRuntime.env s') = None.
Proof.
  destruct s as [w [cfg tbl ini]]. simpl. intros Hc.
  unfold DockerRuntime.create_container, DockerRuntime.record_op,
    DockerRuntime.initialize, DockerRuntime._build_container_config,
    DockerRuntime.on_env, DockerRuntime.set_initialized,
    DockerRuntime.set_containers, uuid4_hex.
  unfold_monad. crush_create.
  assert (Hraise : forall (e : exn) (w' : Env) (rt : DockerRuntime.t),
             is_Exception e = true /\ e <> TimeoutError ->
             DockerRuntime._containers rt = tbl -> cancel_at w' = None ->
             exists e0 s',
               (@Raise string e, DockerRuntime.mkSt w' rt) = (Raise e0, s')
               /\ is_Exception e0 = true /\ e0 <> TimeoutError
               /\ DockerRuntime._containers (DockerRuntime.self s') = tbl
               /\ cancel_at (DockerRuntime.env s') = None).
  { intros e w' rt [He1 He2] Hrt Hw. do 2 eexists. split; [reflexivity |]. auto. }
  destruct ini; crush_create.
  - destruct (run_docker_command_quiet
                (DockerRuntime.create_args
                   ("openhands-" +:+ Text.prefix 12 (uuid_src w (uuid_drawn w)))
                   match options with
                   | Some o => o
                   | None => SandboxRuntimeOptions.default
                   end) true
                (set_uuid_drawn (S (uuid_drawn w)) (set_ops (ops w ++ [OpCreate]) w)))
      as (r1 & w1 & -> & Hc1 & Hr1); [exact Hc |].
    destruct r1 as [cid | e]; crush_create; [| apply Hraise; auto].
    destruct (run_docker_command_quiet ["start"; cid] true w1)
      as (r2 & w2 & -> & Hc2 & Hr2); [exact Hc1 |].
    destruct r2 as [o | e]; crush_create; apply Hraise; auto.
  - destruct (run_docker_command_quiet ["version"] true
                (set_ops (ops w ++ [OpCreate]) w))
      as (r0 & w0 & -> & Hc0 & Hr0); [exact Hc |].
    destruct r0 as [v | e]; crush_create; [| apply Hraise; auto].
    destruct (run_docker_command_quiet
                (DockerRuntime.create_args
                   ("openhands-" +:+ Text.prefix 12 (uuid_src w0 (uuid_drawn w0)))
                   match options with
                   | Some o => o
                   | None => SandboxRuntimeOptions.default
                   end) true
                (set_uuid_drawn (S (uuid_drawn w0)) w0))
      as (r1 & w1 & -> & Hc1 & Hr1); [exact Hc0 |].
    destruct r1 as [cid | e]; crush_create; [| apply Hraise; auto].
    destruct (run_docker_command_quiet ["start"; cid] true w1)
      as (r2 & w2 & -> & Hc2 & Hr2); [exact Hc1 |].
    destruct r2 as [o | e]; crush_create; apply Hraise; auto.
Qed.

Lemma temp_container_handler_raises (request : ActionRequest.t)
  (handler : Handler) (h : Handlers.St) :
  runs_command (ActionRequest.action_type request) = true ->
  ActionExecutor.default_handlers (ActionRequest.action_type request)
  = Some handler ->
  falsy (ActionRequest.param request "container_id") = true ->
  cancel_at (Handlers.env h) = None ->
  exists e h',
    call_handler handler request h = (Raise e, h')
    /\ is_Exception e = true /\ e <> TimeoutError
    /\ Handlers.response h' = Handlers.response h
    /\ DockerRuntime._containers (Handlers.runtime h')
       = DockerRuntime._containers (Handlers.runtime h).
Proof.
  intros Hrun Hh Hcid Hc.
  destruct (create_container_fails (ActionRequest.sandbox_options request)
              (DockerRuntime.mkSt (Handlers.env h) (Handlers.runtime h)) Hc)
    as (e & s' & Hcreate & He1 & He2 & Htbl & _).
  assert (Hcontainer :
            Handlers.container_for request h
            = (Raise e, Handlers.mkSt (DockerRuntime.env s') (DockerRuntime.self s')
                          (Handlers.response h))).
  { unfold Handlers.container_for. rewrite Hcid. unfold bind.
    rewrite call_runtime_unfold, Hcreate. reflexivity. }
  destruct (ActionRequest.action_type request); try discriminate Hrun;
    injection Hh as <-; simpl.
  - unfold Handlers._handle_execute_command.
    destruct (falsy (ActionRequest.param request "command")).
    + do 2 eexists. split; [reflexivity |].
      repeat split; try reflexivity. discriminate.
    + unfold bind. rewrite Hcontainer.
      do 2 eexists. split; [reflexivity |]. auto.
  - unfold Handlers._handle_run_code.
    destruct (falsy (ActionRequest.param request "code")).
    + do 2 eexists. split; [reflexivity |].
      repeat split; try reflexivity. discriminate.
    + destruct (Handlers.code_command _ _).
      * unfold bind. rewrite Hcontainer.
        do 2 eexists. split; [reflexivity |]. auto.
      * do 2 eexists. split; [reflexivity |].
        repeat split; try reflexivity. discriminate.
Qed.

(** C8, what the code does.  With the default handlers, an EXECUTE_COMMAND
    or RUN_CODE request without a [container_id] never gets a temporary
    container: the response is FAILED, its metadata is the metadata of the
    request (no [temp_container] is written), and the table of containers
    is as before. *)
Theorem temp_container_never_recorded (request : ActionRequest.t)
  (action_id : option string) (rt : DockerRuntime.t) (s : ActionExecutor.St) :
  ActionExecutor._runtime (ActionExecutor.self s) = Some rt ->
  ActionExecutor._action_handlers (ActionExecutor.self s)
    (ActionRequest.action_type request)
  = ActionExecutor.default_handlers (ActionRequest.action_type request) ->
  runs_command (ActionRequest.action_type request) = true ->
  falsy (ActionRequest.param request "container_id") = true ->
  cancel_at (ActionExecutor.env s) = None ->
  exists response s' msg rt',
    ActionExecutor.execute_action request action_id s = (Ok response, s')
    /\ ActionResponse.status response = FAILED
    /\ ActionResponse.error response = Some msg
    /\ ActionResponse.metadata response = ActionRequest.metadata request
    /\ ActionExecutor._runtime (ActionExecutor.self s') = Some rt'
    /\ DockerRuntime._containers rt' = DockerRuntime._containers rt.
Proof.
  intros Hrt Hdef Hrun Hcid Hc.
  rewrite (execute_action_unfold request action_id rt s Hrt).
  destruct (ActionExecutor.default_handlers (ActionRequest.action_type request))
    as [handler |] eqn:Hh.
  2:{ destruct (ActionRequest.action_type request); discriminate. }
  rewrite (guarded_call_unfold (ActionExecutor._action_handlers (ActionExecutor.self s)) request handler _ Hdef).
  destruct (temp_container_handler_raises request handler
              (handler_start request action_id rt s) Hrun Hh Hcid)
    as (e & h' & Hcall & He1 & He2 & Hresp & Htbl).
  { unfold handler_start. simpl. now rewrite assign_id_cancel_at. }
  rewrite Hcall. simpl.
  destruct e; try discriminate He1; try congruence; simpl;
    rewrite Hresp; do 4 eexists; (split; [reflexivity |]);
    simpl; repeat split; exact Htbl.
Qed.

Lemma temp_container_never_recorded_witness :
  (ActionResponse.status
     <$> Scenario.response_of
           (ActionExecutor.execute_action
              (Scenario.request EXECUTE_COMMAND [("command", "echo hello")] 30)
              (Some "a-1") (Scenario.executor Scenario.fine Scenario.runtime0)),
   (fun r => ActionResponse.metadata r !! "temp_container")
     <$> Scenario.response_of
           (ActionExecutor.execute_action
              (Scenario.request EXECUTE_COMMAND [("command", "echo hello")] 30)
              (Some "a-1") (Scenario.executor Scenario.fine Scenario.runtime0)))
  = (Some FAILED, Some None).
Proof.
  destruct (temp_container_never_recorded
              (Scenario.request EXECUTE_COMMAND [("command", "echo hello")] 30)
              (Some "a-1") Scenario.runtime0
              (Scenario.executor Scenario.fine Scenario.runtime0)
              eq_refl eq_refl eq_refl eq_refl eq_refl)
    as (response & s' & msg & rt' & Hrun & Hstatus & _ & Hmeta & _).
  unfold Scenario.response_of. rewrite Hrun. simpl.
  now rewrite Hstatus, Hmeta.
Defined.

(** The same run, seen from the engine: a container was created and
    started there, and the runtime's table does not know it. *)
Lemma temp_container_is_orphaned :
  Scenario.response_of
    (ActionExecutor.execute_action
       (Scenario.request EXECUTE_COMMAND [("command", "echo hello")] 30)
       (Some "a-1") (Scenario.executor Scenario.fine Scenario.runtime0))
  = Some (ActionResponse.mk "a-1" FAILED None
            (Some "'SandboxRuntimeOptions' object has no attribute 'dict'")
            0 ∅)
  /\ spawned (ActionExecutor.env
             (snd (ActionExecutor.execute_action
                     (Scenario.request EXECUTE_COMMAND [("command", "echo hello")] 30)
                     (Some "a-1") (Scenario.executor Scenario.fine Scenario.runtime0))))
  = ["docker create --name openhands-0123456789ab --workdir /workspace --network bridge --cpus 1 --memory 1G python:3.12-slim";
     "docker start 4f2a9c"]
  /\ (DockerRuntime._containers
        <$> ActionExecutor._runtime
              (ActionExecutor.self
                 (snd (ActionExecutor.execute_action
                         (Scenario.request EXECUTE_COMMAND [("command", "echo hello")] 30)
                         (Some "a-1") (Scenario.executor Scenario.fine Scenario.runtime0)))))
     = Some ∅.
Proof. repeat split; vm_compute; reflexivity. Qed.

Lemma run_docker_command_ops (args : list string) (check : bool) (w : Env) :
  ops (snd (DockerRuntime._run_docker_command args check w)) = ops w.
Proof.
  unfold DockerRuntime._run_docker_command, communicate, DockerRuntime.decode.
  unfold_monad.
  destruct (bool_decide _); [reflexivity |].
  destruct (Text.decode_strip (stdout _)); [| reflexivity].
  destruct (Text.decode_strip (stderr _)); [| reflexivity].
  destruct (check && _); reflexivity.
Qed.

(** [execute_command] leaves [self] alone and notes one operation, its
    own, in every state. *)
Lemma execute_command_frame (cid command : string) (timeout : option Z)
  (s : DockerRuntime.St) :
  DockerRuntime.self (snd (DockerRuntime.execute_command cid command timeout s))
  = DockerRuntime.self s
  /\ ops (DockerRuntime.env
            (snd (DockerRuntime.execute_command cid command timeout s)))
     = ops (DockerRuntime.env s) ++ [OpExec cid command].
Proof.
  destruct s as [w rt].
  unfold DockerRuntime.execute_command, DockerRuntime.record_op,
    DockerRuntime.on_env, DockerRuntime.not_found, wait_for.
  unfold_monad. project.
  destruct (DockerRuntime._containers rt !! cid); [| split; reflexivity].
  destruct (_ <=? 0); [split; reflexivity |].
  pose proof (run_docker_command_ops
                (["exec"; cid] ++ ["sh"; "-c"; command]) true
                (set_ops (ops w ++ [OpExec cid command]) w)) as Hops.
  destruct (DockerRuntime._run_docker_command _ true _) as [[out | e] w'];
    simpl in Hops.
  - destruct (_ <=? now w'); simpl; split; try reflexivity; exact Hops.
  - destruct e; simpl;
      try (destruct (_ <=? now w'); simpl);
      split; try reflexivity; exact Hops.
Qed.

(** An EXECUTE_COMMAND or RUN_CODE request that names its container never
    reaches [create_container]: the handler leaves the runtime and the
    response as it found them. *)
Lemma supplied_container_is_used (request : ActionRequest.t)
  (handler : Handler) (h : Handlers.St) :
  runs_command (ActionRequest.action_type request) = true ->
  ActionExecutor.default_handlers (ActionRequest.action_type request)
  = Some handler ->
  falsy (ActionRequest.param request "container_id") = false ->
  Handlers.runtime (snd (call_handler handler request h)) = Handlers.runtime h
  /\ Handlers.response (snd (call_handler handler request h))
     = Handlers.response h
  /\ (In OpCreate (ops (Handlers.env (snd (call_handler handler request h))))
      -> In OpCreate (ops (Handlers.env h))).
Proof.
  intros Hrun Hh Hcid.
  assert (Hexec : forall command,
            let r := Handlers.call_runtime
                       (DockerRuntime.execute_command
                          (Handlers.text (ActionRequest.param request "container_id"))
                          command (Some (ActionRequest.timeout request))) h in
            Handlers.runtime (snd r) = Handlers.runtime h
            /\ Handlers.response (snd r) = Handlers.response h
            /\ ops (Handlers.env (snd r))
               = ops (Handlers.env h)
                 ++ [OpExec (Handlers.text (ActionRequest.param request "container_id"))
                       command]).
  { intros command r. subst r. rewrite call_runtime_unfold. simpl.
    destruct (execute_command_frame
                (Handlers.text (ActionRequest.param request "container_id"))
                command (Some (ActionRequest.timeout request))
                (DockerRuntime.mkSt (Handlers.env h) (Handlers.runtime h)))
      as [Hself Hops].
    rewrite Hself, Hops. auto. }
  assert (Hnew : forall command l,
            l = ops (Handlers.env h)
                ++ [OpExec (Handlers.text (ActionRequest.param request "container_id"))
                      command] ->
            In OpCreate l -> In OpCreate (ops (Handlers.env h))).
  { intros command l -> Hin. apply in_app_or in Hin as [Hin | [Hin | []]];
      [exact Hin | discriminate]. }
  destruct (ActionRequest.action_type request); try discriminate Hrun;
    injection Hh as <-; simpl.
  - unfold Handlers._handle_execute_command, Handlers.container_for.
    rewrite Hcid.
    destruct (falsy (ActionRequest.param request "command"));
      [simpl; auto |].
    specialize (Hexec (Handlers.text (ActionRequest.param request "command"))).
    simpl in Hexec. unfold bind, ret.
    destruct (Handlers.call_runtime _ h) as [[d | e] h']; simpl in *;
      destruct Hexec as (H1 & H2 & H3); repeat split; auto;
      eapply Hnew; eauto.
  - unfold Handlers._handle_run_code, Handlers.container_for.
    rewrite Hcid.
    destruct (falsy (ActionRequest.param request "code"));
      [simpl; auto |].
    destruct (Handlers.code_command _ _) as [command |]; [| simpl; auto].
    specialize (Hexec command). simpl in Hexec. unfold bind, ret.
    destruct (Handlers.call_runtime _ h) as [[d | e] h']; simpl in *;
      destruct Hexec as (H1 & H2 & H3); repeat split; auto;
      eapply Hnew; eauto.
Qed.

(** ** action_executor.py: ActionServer *)

(** C3, as amended.  [get_action_result] never waits and consumes what it
    finds finished.  For an id that is not in the table, and for one whose
    task is not done, it returns [None] and leaves the server as it is.  For
    a task that ended with a response it returns that response and deletes
    the entry.  For a task that ended with an exception (a cancelled task,
    or one whose [execute_action] raised) it deletes the entry as well, and
    [task.result()] raises that exception to the caller instead of
    returning.  In both cases the id is unknown from then on: a further
    call returns [None] and changes nothing, so every later call does. *)
Theorem get_action_result_consuming_read (action_id : string)
  (s : ActionServer.St) :
  (ActionServer._running_actions s !! action_id = None ->
   ActionServer.get_action_result action_id s = (Ok None, s))
  /\ (forall request aid at_,
        ActionServer._running_actions s !! action_id
        = Some (ActionServer.Pending request aid at_) ->
        ActionServer.get_action_result action_id s = (Ok None, s))
  /\ (forall response,
        ActionServer._running_actions s !! action_id
        = Some (ActionServer.Done (ActionServer.Returned response)) ->
        let s' := ActionServer.mkSt (ActionServer.ex s)
                    (delete action_id (ActionServer._running_actions s)) in
        ActionServer.get_action_result action_id s = (Ok (Some response), s')
        /\ ActionServer._running_actions s' !! action_id = None
        /\ ActionServer.get_action_result action_id s' = (Ok None, s'))
  /\ (forall e,
        ActionServer._running_actions s !! action_id
        = Some (ActionServer.Done (ActionServer.Raised e)) ->
        let s' := ActionServer.mkSt (ActionServer.ex s)
                    (delete action_id (ActionServer._running_actions s)) in
        ActionServer.get_action_result action_id s = (Raise e, s')
        /\ ActionServer._running_actions s' !! action_id = None
        /\ ActionServer.get_action_result action_id s' = (Ok None, s')).
Proof.
  unfold ActionServer.get_action_result, ActionServer.set_running,
    ActionServer.task_result.
  unfold_monad. destruct s as [e tbl]. simpl.
  split; [intros ->; reflexivity |].
  split; [intros request aid at_ ->; reflexivity |].
  split.
  - intros response ->. simpl. rewrite lookup_delete_eq. auto.
  - intros e0 ->. simpl. rewrite lookup_delete_eq. auto.
Qed.

(** C3, counterexample.  A task is submitted and cancelled before it
    starts; [cancel_action] leaves it in the table, done.  The first
    [get_action_result] for this finished action returns no response: it
    raises [CancelledError].  The same happens, with the exception of the
    probe, to the task of an executor that could not get its runtime. *)
Lemma get_action_result_of_finished_action_raises :
  ActionServer.done <$>
    (ActionServer._running_actions
       (snd (ActionServer.cancel_action ServerScenario.the_id
               (snd ServerScenario.submitted)))
     !! ServerScenario.the_id)
  = Some true
  /\ fst (ActionServer.get_action_result ServerScenario.the_id
            (snd (ActionServer.cancel_action ServerScenario.the_id
                    (snd ServerScenario.submitted))))
     = Raise CancelledError
  /\ fst (ActionServer.get_action_result ServerScenario.the_id
            (ActionServer.run_to_completion ServerScenario.the_id
               (snd (ActionServer.submit_action ServerScenario.echo
                       (ActionServer.new None
                          (Scenario.world (Scenario.always Scenario.broken))
                          None)))))
     = Raise (Exception "Docker 命令执行失败: no such file").
Proof. repeat split; vm_compute; reflexivity. Qed.

(** A task that ended with an exception, a cancelled one included, is
    consumed as well, and the exception is raised to the caller. *)
Lemma get_action_result_reraises (action_id : string) (e : exn)
  (s : ActionServer.St) :
  ActionServer._running_actions s !! action_id
  = Some (ActionServer.Done (ActionServer.Raised e)) ->
  ActionServer.get_action_result action_id s
  = (Raise e,
     ActionServer.mkSt (ActionServer.ex s)
       (delete action_id (ActionServer._running_actions s))).
Proof.
  unfold ActionServer.get_action_result, ActionServer.set_running,
    ActionServer.task_result.
  unfold_monad. destruct s as [ex tbl]. simpl. intros ->. reflexivity.
Qed.

(** The half of C4 that holds: nothing happens for an id that is unknown
    or whose task is done. *)
Lemma cancel_action_noop (action_id : string) (s : ActionServer.St) :
  (ActionServer._running_actions s !! action_id = None
   \/ exists o, ActionServer._running_actions s !! action_id
                = Some (ActionServer.Done o)) ->
  ActionServer.cancel_action action_id s = (Ok false, s).
Proof.
  unfold ActionServer.cancel_action. unfold_monad.
  intros [-> | [o ->]]; reflexivity.
Qed.

(** C4, what the code does.  A task that was submitted and not yet
    scheduled is cancelled: [await task] raises [CancelledError], the
    matching clause returns [True] there and then, and the statement that
    deletes the entry is skipped.  The id is still listed by
    [get_running_actions], now with a task that is done. *)
Theorem cancel_action_keeps_entry (action_id aid : string)
  (request : ActionRequest.t) (s : ActionServer.St) :
  ActionServer._running_actions s !! action_id
  = Some (ActionServer.Pending request aid ActionServer.NotStarted) ->
  exists s' ids,
    ActionServer.cancel_action action_id s = (Ok true, s')
    /\ ActionServer._running_actions s' !! action_id
       = Some (ActionServer.Done (ActionServer.Raised CancelledError))
    /\ ActionServer.get_running_actions s' = (Ok ids, s')
    /\ action_id ∈ ids.
Proof.
  intros Hpending.
  unfold ActionServer.cancel_action, ActionServer.cancel_and_await,
    ActionServer.get_running_actions, ActionServer.run_task,
    ActionServer.task_result.
  unfold_monad. rewrite Hpending. simpl.
  do 2 eexists. split; [reflexivity |]. simpl.
  split; [apply lookup_insert_eq |]. split; [reflexivity |].
  apply list_elem_of_fmap.
  exists (action_id, ActionServer.Done (ActionServer.Raised CancelledError)).
  split; [reflexivity |].
  apply elem_of_map_to_list. apply lookup_insert_eq.
Qed.

Lemma cancel_action_keeps_entry_witness :
  fst ServerScenario.submitted = Ok ServerScenario.the_id
  /\ ActionServer._running_actions (snd ServerScenario.submitted)
     !! ServerScenario.the_id
     = Some (ActionServer.Pending ServerScenario.echo ServerScenario.the_id
               ActionServer.NotStarted)
  /\ exists s' ids,
       ActionServer.cancel_action ServerScenario.the_id
         (snd ServerScenario.submitted) = (Ok true, s')
       /\ ActionServer._running_actions s' !! ServerScenario.the_id
          = Some (ActionServer.Done (ActionServer.Raised CancelledError))
       /\ ActionServer.get_running_actions s' = (Ok ids, s')
       /\ ServerScenario.the_id ∈ ids.
Proof.
  split; [reflexivity |]. split; [reflexivity |].
  apply (cancel_action_keeps_entry ServerScenario.the_id
           ServerScenario.the_id ServerScenario.echo
           (snd ServerScenario.submitted)).
  reflexivity.
Defined.

(** The same cancellation, evaluated: [True] is returned and the id is
    still the one listed. *)
Lemma cancelled_action_still_listed :
  fst (ActionServer.cancel_action ServerScenario.the_id
         (snd ServerScenario.submitted)) = Ok true
  /\ fst (ActionServer.get_running_actions
            (snd (ActionServer.cancel_action ServerScenario.the_id
                    (snd ServerScenario.submitted))))
     = Ok [ServerScenario.the_id].
Proof. split; vm_compute; reflexivity. Qed.

(** The round trip of C3 on a concrete server: submit, let the event loop
    finish the task, read the response once, read again. *)
Lemma consuming_read_round_trip :
  match fst (ActionServer.get_action_result ServerScenario.the_id
               (ActionServer.run_to_completion ServerScenario.the_id
                  (snd ServerScenario.submitted))) with
  | Ok (Some response) => ActionResponse.status response = COMPLETED
  | _ => False
  end
  /\ fst (ActionServer.get_action_result ServerScenario.the_id
            (snd (ActionServer.get_action_result ServerScenario.the_id
                    (ActionServer.run_to_completion ServerScenario.the_id
                       (snd ServerScenario.submitted)))))
     = Ok None.
Proof. split; vm_compute; reflexivity. Qed.

(** ** No built-in handler raises [TimeoutError] *)

Section NeverTimesOut.

Context {S : Type}.

Lemma nto_ret {A} (a : A) : never_times_out (ret (S := S) a).
Proof. intros s. discriminate. Qed.

Lemma nto_get : never_times_out (get (S := S)).
Proof. intros s. discriminate. Qed.

Lemma nto_modify (f : S -> S) : never_times_out (modify f).
Proof. intros s. discriminate. Qed.

Lemma nto_raise {A} (e : exn) :
  e <> TimeoutError -> never_times_out (raise (S := S) (A := A) e).
Proof. intros H s. simpl. congruence. Qed.

Lemma nto_bind {A B} (m : M S A) (k : A -> M S B) :
  never_times_out m -> (forall a, never_times_out (k a)) ->
  never_times_out (bind m k).
Proof.
  intros Hm Hk s. unfold bind. specialize (Hm s).
  destruct (m s) as [[a | e] s']; simpl in *; [apply Hk |].
  intros [= ->]. now apply Hm.
Qed.

Lemma nto_try_except {A} (body : M S A) (clauses : exn -> option (M S A)) :
  (forall e suite, clauses e = Some suite -> never_times_out suite) ->
  clauses TimeoutError <> None \/ never_times_out body ->
  never_times_out (try_except body clauses).
Proof.
  intros Hsuites Hcatch s. unfold try_except.
  destruct (body s) as [[a | e] s'] eqn:E; simpl; [discriminate |].
  destruct (clauses e) as [suite |] eqn:Hc.
  - apply (Hsuites e suite Hc).
  - simpl. intros [= ->]. destruct Hcatch as [Hcatch | Hbody].
    + contradiction.
    + specialize (Hbody s). rewrite E in Hbody. now apply Hbody.
Qed.

Lemma nto_zoom {T A} (proj : S -> T) (inj : T -> S -> S) (m : M T A) :
  never_times_out m -> never_times_out (zoom proj inj m).
Proof.
  intros Hm s. unfold zoom. specialize (Hm (proj s)).
  destruct (m (proj s)) as [r t]. exact Hm.
Qed.

Lemma nto_if {A} (b : bool) (m1 m2 : M S A) :
  never_times_out m1 -> never_times_out m2 ->
  never_times_out (if b then m1 else m2).
Proof. destruct b; auto. Qed.

End NeverTimesOut.

Lemma nto_run_docker_command (args : list string) (check : bool) :
  never_times_out (DockerRuntime._run_docker_command args check).
Proof.
  intros w. unfold DockerRuntime._run_docker_command, communicate,
    DockerRuntime.decode.
  unfold_monad.
  destruct (bool_decide _); [discriminate |].
  destruct (Text.decode_strip (stdout _)); [| discriminate].
  destruct (Text.decode_strip (stderr _)); [| discriminate].
  destruct (check && _); discriminate.
Qed.

(** One structural step, chosen by the shape of the computation; [known]
    closes the calls of methods already dealt with. *)
Ltac nto_step known :=
  lazymatch goal with
  | |- never_times_out (ret _) => apply nto_ret
  | |- never_times_out get => apply nto_get
  | |- never_times_out (modify _) => apply nto_modify
  | |- never_times_out (raise _) => apply nto_raise; discriminate
  | |- never_times_out (bind _ _) => apply nto_bind; [| intros ?]
  | |- never_times_out (zoom _ _ _) => apply nto_zoom
  | |- never_times_out (DockerRuntime._run_docker_command _ _) =>
      apply nto_run_docker_command
  | |- never_times_out (match ?x with _ => _ end) => destruct x
  | |- never_times_out (let _ := _ in _) => lazy zeta
  | |- _ => known
  end.

Ltac nto_with known := repeat (nto_step known).

Ltac nto := nto_with ltac:(idtac; fail).

Lemma nto_create_container (options : option SandboxRuntimeOptions.t) :
  never_times_out (DockerRuntime.create_container options).
Proof.
  unfold DockerRuntime.create_container, DockerRuntime.record_op,
    DockerRuntime.initialize, DockerRuntime._build_container_config,
    DockerRuntime.on_env, DockerRuntime.set_initialized,
    DockerRuntime.set_containers, uuid4_hex.
  nto; intros ?; simpl; discriminate.
Qed.

Lemma is_Exception_clause_catches {S A} (suite : M S A) :
  (if is_Exception TimeoutError then Some suite else None) <> None.
Proof. discriminate. Qed.

Lemma nto_execute_command (cid command : string) (timeout : option Z) :
  never_times_out (DockerRuntime.execute_command cid command timeout).
Proof.
  unfold DockerRuntime.execute_command, DockerRuntime.record_op,
    DockerRuntime.on_env, DockerRuntime.not_found.
  nto. apply nto_try_except; [| left; discriminate].
  intros e suite. destruct e; simpl; intros [= <-]; nto.
Qed.

Lemma nto_copy_to_container (cid host_path container_path : string) :
  never_times_out (DockerRuntime.copy_to_container cid host_path container_path).
Proof.
  unfold DockerRuntime.copy_to_container, DockerRuntime.record_op,
    DockerRuntime.on_env, DockerRuntime.not_found.
  nto. apply nto_try_except; [| left; discriminate].
  intros e suite. destruct e; simpl; intros [= <-]; nto.
Qed.

Lemma nto_copy_from_container (cid container_path host_path : string) :
  never_times_out (DockerRuntime.copy_from_container cid container_path host_path).
Proof.
  unfold DockerRuntime.copy_from_container, DockerRuntime.record_op,
    DockerRuntime.on_env, DockerRuntime.not_found.
  nto. apply nto_try_except; [| left; discriminate].
  intros e suite. destruct e; simpl; intros [= <-]; nto.
Qed.

Lemma nto_get_container_status (cid : string) :
  never_times_out (DockerRuntime.get_container_status cid).
Proof.
  unfold DockerRuntime.get_container_status, DockerRuntime.record_op,
    DockerRuntime.on_env, DockerRuntime.not_found.
  nto. apply nto_try_except; [| left; discriminate].
  intros e suite. destruct e; simpl; intros [= <-]; nto.
Qed.

Lemma nto_call_handler (handler : Handler) (request : ActionRequest.t) :
  is_builtin handler = true ->
  never_times_out (call_handler handler request).
Proof.
  destruct handler; simpl; try discriminate; intros _;
    unfold Handlers._handle_execute_command, Handlers._handle_run_code,
      Handlers._handle_put_file, Handlers._handle_transfer_file,
      Handlers._handle_get_file, Handlers._handle_delete_file,
      Handlers._handle_list_directory, Handlers._handle_check_status,
      Handlers.container_for, Handlers.call_runtime,
      Handlers.set_response_metadata;
    nto_with ltac:(idtac; lazymatch goal with
      | |- never_times_out (DockerRuntime.create_container _) =>
          apply nto_create_container
      | |- never_times_out (DockerRuntime.execute_command _ _ _) =>
          apply nto_execute_command
      | |- never_times_out (DockerRuntime.copy_to_container _ _ _) =>
          apply nto_copy_to_container
      | |- never_times_out (DockerRuntime.copy_from_container _ _ _) =>
          apply nto_copy_from_container
      | |- never_times_out (DockerRuntime.get_container_status _) =>
          apply nto_get_container_status
      end).
Qed.

(** Whatever the request and the state, and whether the executor holds a
    runtime or has to get one from the factory, a response that
    [execute_action] returns for one of the eight built-in handlers is
    COMPLETED or FAILED: the clause that sets TIMED_OUT is never taken. *)
Theorem builtin_handlers_never_time_out (request : ActionRequest.t)
  (action_id : option string) (s : ActionExecutor.St) (handler : Handler) :
  ActionExecutor._action_handlers (ActionExecutor.self s)
    (ActionRequest.action_type request) = Some handler ->
  is_builtin handler = true ->
  forall response s',
    ActionExecutor.execute_action request action_id s = (Ok response, s') ->
    ActionResponse.status response = COMPLETED
    \/ ActionResponse.status response = FAILED.
Proof.
  intros Hh Hb response s'.
  rewrite (execute_action_steps request action_id s).
  destruct (acquisition action_id s) as [[rt | e] s1] eqn:Hacq; [| discriminate].
  destruct (acquisition_frame action_id s s1 _ Hacq) as (Hhs & _ & _).
  rewrite Hhs.
  rewrite (guarded_call_unfold _ request handler _ Hh).
  pose proof (nto_call_handler handler request Hb
                (handler_entry request action_id rt s s1)) as Hnto.
  destruct (call_handler handler request _) as [[d | e] h']; simpl in *.
  - intros [= <- _]. now left.
  - destruct e; try congruence; simpl; intros [= <- _]; now right.
Qed.

(** ** Where a cancellation goes *)

Section Cancellation.

Context {S : Type} (pe : S -> Env).

Lemma quiet_delivers {A} (m : M S A) :
  spawns_nothing pe m -> delivers_cancellation pe m.
Proof.
  intros Hq s c Hc Hle. destruct (Hq s) as (H1 & H2 & H3).
  rewrite H1, H2. split; [exact Hc |]. split; [lia |].
  split; [intros H; contradiction | lia].
Qed.

Lemma quiet_ret {A} (a : A) : spawns_nothing pe (ret a).
Proof. intros s. simpl. repeat split; discriminate. Qed.

Lemma quiet_get : spawns_nothing pe get.
Proof. intros s. simpl. repeat split; discriminate. Qed.

Lemma quiet_raise {A} (e : exn) :
  e <> CancelledError -> spawns_nothing pe (raise (A := A) e).
Proof. intros H s. simpl. repeat split. congruence. Qed.

Lemma quiet_modify (f : S -> S) :
  (forall s, cancel_at (pe (f s)) = cancel_at (pe s)
             /\ spawned (pe (f s)) = spawned (pe s)) ->
  spawns_nothing pe (modify f).
Proof. intros H s. simpl. destruct (H s). repeat split; auto; discriminate. Qed.

Lemma delivers_bind {A B} (m : M S A) (k : A -> M S B) :
  delivers_cancellation pe m ->
  (forall a, delivers_cancellation pe (k a)) ->
  delivers_cancellation pe (bind m k).
Proof.
  intros Hm Hk s c Hc Hle. unfold bind.
  destruct (Hm s c Hc Hle) as (H1 & H2 & H3).
  destruct (m s) as [[a | e] s1]; simpl in *.
  - assert (Hle1 : (length (spawned (pe s1)) <= c)%nat).
    { destruct (Nat.le_gt_cases (length (spawned (pe s1))) c) as [? | Hlt];
        [assumption |]. apply H3 in Hlt. discriminate. }
    destruct (Hk a s1 c H1 Hle1) as (K1 & K2 & K3).
    split; [exact K1 |]. split; [lia | exact K3].
  - split; [exact H1 |]. split; [exact H2 |].
    split; [intros [= ->]; now apply H3 | intros Hlt; apply H3 in Hlt; congruence].
Qed.

Lemma delivers_try_except {A} (body : M S A) (clauses : exn -> option (M S A)) :
  delivers_cancellation pe body ->
  clauses CancelledError = None ->
  (forall e suite, clauses e = Some suite -> delivers_cancellation pe suite) ->
  delivers_cancellation pe (try_except body clauses).
Proof.
  intros Hbody Hnone Hsuites s c Hc Hle. unfold try_except.
  destruct (Hbody s c Hc Hle) as (H1 & H2 & H3).
  destruct (body s) as [[a | e] s1]; simpl in *.
  - split; [exact H1 |]. split; [exact H2 |].
    split; [discriminate | intros Hlt; apply H3 in Hlt; discriminate].
  - destruct (clauses e) as [suite |] eqn:Hcl.
    + assert (Hne : e <> CancelledError) by (intros ->; congruence).
      assert (Hle1 : (length (spawned (pe s1)) <= c)%nat).
      { destruct (Nat.le_gt_cases (length (spawned (pe s1))) c) as [? | Hlt];
          [assumption |]. apply H3 in Hlt. congruence. }
      destruct (Hsuites e suite Hcl s1 c H1 Hle1) as (K1 & K2 & K3).
      split; [exact K1 |]. split; [lia | exact K3].
    + split; [exact H1 |]. split; [exact H2 |]. exact H3.
Qed.

Lemma delivers_zoom {T A} (pt : T -> Env) (proj : S -> T) (inj : T -> S -> S)
  (m : M T A) :
  (forall s, pt (proj s) = pe s) ->
  (forall t s, pe (inj t s) = pt t) ->
  delivers_cancellation pt m ->
  delivers_cancellation pe (zoom proj inj m).
Proof.
  intros Hproj Hinj Hm s c Hc Hle. unfold zoom.
  rewrite <- Hproj in Hc, Hle.
  destruct (Hm (proj s) c Hc Hle) as (H1 & H2 & H3).
  destruct (m (proj s)) as [r t]. simpl in *.
  rewrite Hinj, <- Hproj. auto.
Qed.

Lemma delivers_if {A} (b : bool) (m1 m2 : M S A) :
  delivers_cancellation pe m1 -> delivers_cancellation pe m2 ->
  delivers_cancellation pe (if b then m1 else m2).
Proof. destruct b; auto. Qed.

End Cancellation.

Lemma delivers_communicate (cmdline : string) :
  delivers_cancellation id (communicate cmdline).
Proof.
  intros w c Hc Hle. unfold communicate, id in *.
  destruct (bool_decide _) eqn:Hb; simpl.
  - apply bool_decide_eq_true in Hb. rewrite Hc in Hb. injection Hb as ->.
    rewrite length_app. simpl.
    split; [exact Hc |]. split; [lia |]. split; [lia | reflexivity].
  - apply bool_decide_eq_false in Hb. rewrite Hc in Hb.
    rewrite length_app. simpl.
    split; [exact Hc |]. split; [lia |].
    split; [discriminate |]. intros Hlt.
    elim Hb. f_equal. lia.
Qed.

Lemma delivers_run_docker_command (args : list string) (check : bool) :
  delivers_cancellation id (DockerRuntime._run_docker_command args check).
Proof.
  unfold DockerRuntime._run_docker_command, DockerRuntime.decode.
  apply delivers_bind; [apply delivers_communicate | intros p].
  apply delivers_bind; [| intros out].
  { apply quiet_delivers. destruct (Text.decode_strip _);
      [apply quiet_ret | apply quiet_raise; discriminate]. }
  apply delivers_bind; [| intros err].
  { apply quiet_delivers. destruct (Text.decode_strip _);
      [apply quiet_ret | apply quiet_raise; discriminate]. }
  apply quiet_delivers. destruct (check && _);
    [apply quiet_raise; discriminate | apply quiet_ret].
Qed.

Lemma delivers_wait_for {A} (fut : M Env A) (timeout : Z) :
  delivers_cancellation id fut ->
  delivers_cancellation id (wait_for fut timeout).
Proof.
  intros Hfut w c Hc Hle. unfold wait_for, id in *.
  destruct (timeout <=? 0); simpl.
  { split; [exact Hc |]. split; [lia |]. split; [discriminate | lia]. }
  destruct (Hfut w c Hc Hle) as (H1 & H2 & H3).
  destruct (fut w) as [[a | e] w']; simpl in *.
  - destruct (_ <=? now w'); simpl;
      (split; [exact H1 |]); (split; [exact H2 |]);
      (split; [discriminate | intros Hlt; apply H3 in Hlt; discriminate]).
  - destruct e; simpl; try (destruct (_ <=? now w'); simpl);
      (split; [exact H1 |]); (split; [exact H2 |]);
      (split; [try discriminate; try (intros _; now apply H3)
              | intros Hlt; apply H3 in Hlt; try discriminate; try reflexivity]).
Qed.

Lemma delivers_on_env {A} (m : M Env A) :
  delivers_cancellation id m ->
  delivers_cancellation DockerRuntime.env (DockerRuntime.on_env m).
Proof.
  intros H. unfold DockerRuntime.on_env.
  apply (delivers_zoom DockerRuntime.env id); [reflexivity | reflexivity | exact H].
Qed.

Lemma delivers_call_runtime {A} (m : M DockerRuntime.St A) :
  delivers_cancellation DockerRuntime.env m ->
  delivers_cancellation Handlers.env (Handlers.call_runtime m).
Proof.
  intros H. unfold Handlers.call_runtime.
  apply (delivers_zoom Handlers.env DockerRuntime.env);
    [reflexivity | reflexivity | exact H].
Qed.

Lemma delivers_record_op (op : RuntimeOp) :
  delivers_cancellation DockerRuntime.env (DockerRuntime.record_op op).
Proof.
  unfold DockerRuntime.record_op. apply delivers_on_env.
  apply quiet_delivers. apply quiet_modify. intros w. split; reflexivity.
Qed.

(** A computation that leaves the world as it is and does not end in
    [CancelledError]; the goal is closed by evaluation. *)
Ltac quiet_by_evaluation :=
  apply quiet_delivers; intros ?; simpl; repeat split; discriminate.

(** One structural step, chosen by the shape of the computation; [known]
    closes the calls of methods already dealt with. *)
Ltac dc_step known :=
  lazymatch goal with
  | |- delivers_cancellation _ (bind _ _) => apply delivers_bind; [| intros ?]
  | |- delivers_cancellation _ (DockerRuntime.on_env _) => apply delivers_on_env
  | |- delivers_cancellation _ (Handlers.call_runtime _) =>
      apply delivers_call_runtime
  | |- delivers_cancellation _ (DockerRuntime._run_docker_command _ _) =>
      apply delivers_run_docker_command
  | |- delivers_cancellation _ (wait_for _ _) => apply delivers_wait_for
  | |- delivers_cancellation _ (DockerRuntime.record_op _) =>
      apply delivers_record_op
  | |- delivers_cancellation _ (match ?x with _ => _ end) => destruct x
  | |- delivers_cancellation _ (let _ := _ in _) => lazy zeta
  | |- delivers_cancellation _ (ret _) => apply quiet_delivers, quiet_ret
  | |- delivers_cancellation _ get => apply quiet_delivers, quiet_get
  | |- delivers_cancellation _ (raise _) =>
      apply quiet_delivers, quiet_raise; discriminate
  | |- delivers_cancellation _ (modify _) =>
      apply quiet_delivers, quiet_modify; intros ?; split; reflexivity
  | |- delivers_cancellation _ uuid4_hex => quiet_by_evaluation
  | |- delivers_cancellation _ (DockerRuntime.lift_res _) => quiet_by_evaluation
  | |- _ => known
  end.

Ltac dc_with known := repeat (dc_step known).

Ltac dc := dc_with ltac:(idtac; fail).

Lemma delivers_create_container (options : option SandboxRuntimeOptions.t) :
  delivers_cancellation DockerRuntime.env
    (DockerRuntime.create_container options).
Proof.
  unfold DockerRuntime.create_container, DockerRuntime.initialize,
    DockerRuntime._build_container_config, DockerRuntime.set_initialized,
    DockerRuntime.set_containers.
  dc.
Qed.

(** The [except] clauses of the runtime: each suite is a plain [return]. *)
Ltac dc_clauses :=
  let e := fresh "e" in
  let suite := fresh "suite" in
  intros e suite; destruct e; simpl; intros [= <-]; dc.

Lemma delivers_execute_command (cid command : string) (timeout : option Z) :
  delivers_cancellation DockerRuntime.env
    (DockerRuntime.execute_command cid command timeout).
Proof.
  unfold DockerRuntime.execute_command, DockerRuntime.not_found.
  dc. apply delivers_try_except; [dc | reflexivity | dc_clauses].
Qed.

Lemma delivers_copy_to_container (cid host_path container_path : string) :
  delivers_cancellation DockerRuntime.env
    (DockerRuntime.copy_to_container cid host_path container_path).
Proof.
  unfold DockerRuntime.copy_to_container, DockerRuntime.not_found.
  dc. apply delivers_try_except; [dc | reflexivity | dc_clauses].
Qed.

Lemma delivers_copy_from_container (cid container_path host_path : string) :
  delivers_cancellation DockerRuntime.env
    (DockerRuntime.copy_from_container cid container_path host_path).
Proof.
  unfold DockerRuntime.copy_from_container, DockerRuntime.not_found.
  dc. apply delivers_try_except; [dc | reflexivity | dc_clauses].
Qed.

Lemma delivers_get_container_status (cid : string) :
  delivers_cancellation DockerRuntime.env
    (DockerRuntime.get_container_status cid).
Proof.
  unfold DockerRuntime.get_container_status, DockerRuntime.not_found.
  dc. apply delivers_try_except; [dc | reflexivity | dc_clauses].
Qed.

Lemma delivers_call_handler (handler : Handler) (request : ActionRequest.t) :
  is_builtin handler = true ->
  delivers_cancellation Handlers.env (call_handler handler request).
Proof.
  destruct handler; simpl; try discriminate; intros _;
    unfold Handlers._handle_execute_command, Handlers._handle_run_code,
      Handlers._handle_put_file, Handlers._handle_transfer_file,
      Handlers._handle_get_file, Handlers._handle_delete_file,
      Handlers._handle_list_directory, Handlers._handle_check_status,
      Handlers.container_for, Handlers.set_response_metadata;
    dc_with ltac:(idtac; lazymatch goal with
      | |- delivers_cancellation _ (DockerRuntime.create_container _) =>
          apply delivers_create_container
      | |- delivers_cancellation _ (DockerRuntime.execute_command _ _ _) =>
          apply delivers_execute_command
      | |- delivers_cancellation _ (DockerRuntime.copy_to_container _ _ _) =>
          apply delivers_copy_to_container
      | |- delivers_cancellation _ (DockerRuntime.copy_from_container _ _ _) =>
          apply delivers_copy_from_container
      | |- delivers_cancellation _ (DockerRuntime.get_container_status _) =>
          apply delivers_get_container_status
      end).
Qed.

(** [execute_action] with a built-in handler lets the cancellation through:
    it ends in [CancelledError] exactly when the await at which the
    cancellation is due is reached. *)
Lemma execute_action_cancelled (request : ActionRequest.t) (aid : string)
  (rt : DockerRuntime.t) (handler : Handler) (s : ActionExecutor.St) (c : nat) :
  ActionExecutor._runtime (ActionExecutor.self s) = Some rt ->
  ActionExecutor._action_handlers (ActionExecutor.self s)
    (ActionRequest.action_type request) = Some handler ->
  is_builtin handler = true ->
  cancel_at (ActionExecutor.env s) = Some c ->
  (length (spawned (ActionExecutor.env s)) <= c)%nat ->
  fst (ActionExecutor.execute_action request (Some aid) s) = Raise CancelledError
  <-> (c < length (spawned (ActionExecutor.env
                              (snd (ActionExecutor.execute_action request (Some aid) s)))))%nat.
Proof.
  intros Hrt Hh Hb Hc Hle.
  rewrite (execute_action_unfold request (Some aid) rt s Hrt).
  rewrite (guarded_call_unfold _ request handler _ Hh).
  destruct (delivers_call_handler handler request Hb
              (handler_start request (Some aid) rt s) c Hc Hle)
    as (_ & _ & H3).
  destruct (call_handler handler request _) as [[d | e] h']; simpl in *.
  - split; [discriminate | intros Hlt; apply H3 in Hlt; discriminate].
  - destruct e; simpl;
      try (split; [discriminate | intros Hlt; apply H3 in Hlt; discriminate]).
    split; [intros _; now apply H3 | reflexivity].
Qed.

(** A task that runs a built-in handler and is suspended
    at a subprocess await is cancelled: [cancel_action] returns [True] and
    the entry stays in the table, holding the cancelled task. *)
Theorem cancel_action_at_await_keeps_entry (action_id aid : string)
  (request : ActionRequest.t) (k : nat) (s : ActionServer.St)
  (rt : DockerRuntime.t) (handler : Handler) :
  ActionServer._running_actions s !! action_id
  = Some (ActionServer.Pending request aid (ActionServer.AtAwait k)) ->
  ActionExecutor._runtime (ActionExecutor.self (ActionServer.ex s)) = Some rt ->
  ActionExecutor._action_handlers (ActionExecutor.self (ActionServer.ex s))
    (ActionRequest.action_type request) = Some handler ->
  is_builtin handler = true ->
  reaches_await request aid k (ActionServer.ex s) ->
  exists s',
    ActionServer.cancel_action action_id s = (Ok true, s')
    /\ ActionServer._running_actions s' !! action_id
       = Some (ActionServer.Done (ActionServer.Raised CancelledError)).
Proof.
  intros Hpending Hrt Hh Hb Hreach.
  unfold reaches_await, cancelled_run in Hreach.
  apply (execute_action_cancelled request aid rt handler) in Hreach;
    [| exact Hrt | exact Hh | exact Hb | reflexivity | simpl; lia].
  unfold ActionServer.cancel_action, ActionServer.cancel_and_await,
    ActionServer.run_task, ActionServer.task_result, ActionServer.outcome_of.
  unfold_monad. rewrite Hpending.
  destruct (ActionExecutor.execute_action request (Some aid) _) as [r e].
  simpl in Hreach. subst r. simpl.
  eexists. split; [reflexivity |]. simpl. apply lookup_insert_eq.
Qed.

Lemma cancel_action_at_await_keeps_entry_witness :
  reaches_await ServerScenario.echo ServerScenario.the_id 0
    (ActionServer.ex ServerScenario.suspended)
  /\ exists s',
       ActionServer.cancel_action ServerScenario.the_id ServerScenario.suspended
       = (Ok true, s')
       /\ ActionServer._running_actions s' !! ServerScenario.the_id
          = Some (ActionServer.Done (ActionServer.Raised CancelledError)).
Proof.
  assert (H : reaches_await ServerScenario.echo ServerScenario.the_id 0
                (ActionServer.ex ServerScenario.suspended)).
  { unfold reaches_await. vm_compute. lia. }
  split; [exact H |].
  apply (cancel_action_at_await_keeps_entry ServerScenario.the_id
           ServerScenario.the_id ServerScenario.echo 0 ServerScenario.suspended
           Scenario.runtime1 HExecuteCommand);
    [reflexivity | reflexivity | reflexivity | reflexivity | exact H].
Defined.

(** ** docker_runtime.py: inspecting, stopping and removing *)

Lemma cancel_none_not_due (w : Env) :
  cancel_at w = None -> cancel_at w <> Some (length (spawned w)).
Proof. intros ->. discriminate. Qed.

Lemma get_container_status_spec (cid : string) (s : DockerRuntime.St)
  (info : DockerRuntime.ContainerInfo) :
  DockerRuntime._containers (DockerRuntime.self s) !! cid = Some info ->
  cancel_at (DockerRuntime.env s) = None ->
  let w := with_op (OpInspect cid) (DockerRuntime.env s) in
  DockerRuntime.get_container_status cid s
  = (Ok (status_report w info (engine w (length (spawned w)) (inspect_cmdline cid))),
     DockerRuntime.mkSt (after_subprocess (inspect_cmdline cid) w)
       (DockerRuntime.self s)).
Proof.
  intros Hreg Hc w. destruct s as [w0 rt]. simpl in Hreg, Hc.
  unfold DockerRuntime.get_container_status, DockerRuntime.record_op,
    DockerRuntime.on_env.
  unfold_monad. project. rewrite Hreg.
  change (set_ops (ops w0 ++ [OpInspect cid]) w0) with w.
  rewrite (run_docker_command_spec _ true w) by (apply cancel_none_not_due; exact Hc).
  change (Text.join " " ("docker" :: ["inspect"; cid])) with (inspect_cmdline cid).
  unfold status_report.
  destruct (docker_result _ true) as [out | e] eqn:E; project.
  - change (json_inspect (after_subprocess (inspect_cmdline cid) w) out)
      with (json_inspect w out).
    destruct (json_inspect w out) as [[[st cpu] mem] |]; reflexivity.
  - apply docker_result_not_cancelled in E as [He _]. rewrite He. reflexivity.
Qed.

Lemma stop_container_spec (cid : string) (s : DockerRuntime.St)
  (info : DockerRuntime.ContainerInfo) :
  DockerRuntime._containers (DockerRuntime.self s) !! cid = Some info ->
  cancel_at (DockerRuntime.env s) = None ->
  let w := with_op (OpStop cid) (DockerRuntime.env s) in
  let ok := succeeded (engine w (length (spawned w)) (stop_cmdline cid)) in
  DockerRuntime.stop_container cid s
  = (Ok ok,
     DockerRuntime.mkSt (after_subprocess (stop_cmdline cid) w)
       (if ok
        then with_containers
               (alter (DockerRuntime.set_status "stopped") cid
                  (DockerRuntime._containers (DockerRuntime.self s)))
               (DockerRuntime.self s)
        else DockerRuntime.self s)).
Proof.
  intros Hreg Hc w ok. destruct s as [w0 rt]. simpl in Hreg, Hc.
  unfold DockerRuntime.stop_container, DockerRuntime.record_op,
    DockerRuntime.on_env, DockerRuntime.set_containers.
  unfold_monad. project. rewrite Hreg.
  change (set_ops (ops w0 ++ [OpStop cid]) w0) with w.
  rewrite (run_docker_command_spec _ true w) by (apply cancel_none_not_due; exact Hc).
  change (Text.join " " ("docker" :: ["stop"; cid])) with (stop_cmdline cid).
  subst ok. unfold succeeded.
  destruct (docker_result _ true) as [out | e] eqn:E; project; [reflexivity |].
  apply docker_result_not_cancelled in E as [He _]. rewrite He. reflexivity.
Qed.

Lemma remove_container_outcome (cid : string) (force : bool)
  (s : DockerRuntime.St) (info : DockerRuntime.ContainerInfo) :
  DockerRuntime._containers (DockerRuntime.self s) !! cid = Some info ->
  cancel_at (DockerRuntime.env s) = None ->
  exists b s',
    DockerRuntime.remove_container cid force s = (Ok b, s')
    /\ cancel_at (DockerRuntime.env s') = None
    /\ engine (DockerRuntime.env s') = engine (DockerRuntime.env s)
    /\ json_inspect (DockerRuntime.env s') = json_inspect (DockerRuntime.env s)
    /\ (b = true ->
        DockerRuntime.self s'
        = with_containers
            (delete cid (DockerRuntime._containers (DockerRuntime.self s)))
            (DockerRuntime.self s))
    /\ (b = false ->
        DockerRuntime.self s' = DockerRuntime.self s
        \/ DockerRuntime.self s'
           = with_containers
               (alter (DockerRuntime.set_status "stopped") cid
                  (DockerRuntime._containers (DockerRuntime.self s)))
               (DockerRuntime.self s))
    /\ ((forall n,
           succeeded (engine (DockerRuntime.env s) n (rm_cmdline cid force)) = true) ->
        b = true).
Proof.
  intros Hreg Hc. destruct s as [w0 rt]. simpl in Hreg, Hc.
  unfold DockerRuntime.remove_container.
  unfold bind at 1. unfold DockerRuntime.record_op, DockerRuntime.on_env.
  unfold modify, zoom. project.
  unfold bind at 1. unfold get at 1. project. rewrite Hreg.
  unfold try_except. unfold bind at 1.
  set (w1 := set_ops (ops w0 ++ [OpRemove cid]) w0).
  rewrite (get_container_status_spec cid (DockerRuntime.mkSt w1 rt) info Hreg Hc).
  project.
  set (w2 := after_subprocess (inspect_cmdline cid) (with_op (OpInspect cid) w1)).
  set (report := status_report _ info _).
  assert (Hrm : forall (w : Env) (rt' : DockerRuntime.t),
             cancel_at w = None -> engine w = engine w0 ->
             json_inspect w = json_inspect w0 ->
             DockerRuntime.config rt' = DockerRuntime.config rt ->
             DockerRuntime._initialized rt' = DockerRuntime._initialized rt ->
             (DockerRuntime._containers rt' = DockerRuntime._containers rt
              \/ DockerRuntime._containers rt'
                 = alter (DockerRuntime.set_status "stopped") cid
                     (DockerRuntime._containers rt)) ->
             exists b s',
               (let (r, s1) :=
                  bind (DockerRuntime.on_env
                          (DockerRuntime._run_docker_command
                             (["rm"] ++ (if force then ["-f"] else []) ++ [cid]) true))
                    (fun _ =>
                       bind get (fun s2 =>
                         bind (DockerRuntime.set_containers
                                 (delete cid (DockerRuntime._containers
                                                (DockerRuntime.self s2))))
                           (fun _ => ret true)))
                    (DockerRuntime.mkSt w rt') in
                match r with
                | Ok a => (Ok a, s1)
                | Raise e =>
                    match (if is_Exception e then Some (ret false) else None) with
                    | Some suite => suite s1
                    | None => (Raise e, s1)
                    end
                end) = (Ok b, s')
               /\ cancel_at (DockerRuntime.env s') = None
               /\ engine (DockerRuntime.env s') = engine w0
               /\ json_inspect (DockerRuntime.env s') = json_inspect w0
               /\ (b = true ->
                   DockerRuntime.self s'
                   = with_containers (delete cid (DockerRuntime._containers rt)) rt)
               /\ (b = false ->
                   DockerRuntime.self s' = rt
                   \/ DockerRuntime.self s'
                      = with_containers
                          (alter (DockerRuntime.set_status "stopped") cid
                             (DockerRuntime._containers rt)) rt)
               /\ ((forall n, succeeded (engine w0 n (rm_cmdline cid force)) = true) ->
                   b = true)).
  { intros w rt' Hcw Hew Hjw Hcfg Hini Htbl.
    unfold DockerRuntime.on_env, DockerRuntime.set_containers.
    unfold_monad. project.
    rewrite (run_docker_command_spec _ true w) by (apply cancel_none_not_due; exact Hcw).
    destruct (docker_result _ true) as [out | e] eqn:E; project.
    - exists true. eexists. split; [reflexivity |]. project.
      split; [exact Hcw |]. split; [exact Hew |]. split; [exact Hjw |].
      split; [| split; [discriminate | reflexivity]].
      intros _. unfold with_containers. rewrite Hcfg, Hini. f_equal.
      destruct Htbl as [-> | ->]; [reflexivity | apply delete_alter_eq].
    - pose proof E as E'.
      apply docker_result_not_cancelled in E as [He _]. rewrite He.
      exists false. eexists. split; [reflexivity |]. project.
      split; [exact Hcw |]. split; [exact Hew |]. split; [exact Hjw |].
      split; [discriminate |]. split.
      + intros _. destruct rt as [cfg tbl ini], rt' as [cfg' tbl' ini'].
        simpl in *. subst cfg' ini'.
        destruct Htbl as [-> | ->]; [now left | now right].
      + intros Hall. rewrite Hew in E'.
        specialize (Hall (length (spawned w))).
        unfold succeeded, rm_cmdline in Hall. rewrite E' in Hall. discriminate. }
  destruct (DockerRuntime.is_running report).
  - unfold bind at 1. unfold bind at 1.
    rewrite (stop_container_spec cid (DockerRuntime.mkSt w2 rt) info Hreg Hc).
    project. unfold ret at 1.
    destruct (succeeded _).
    + apply Hrm; try reflexivity; [exact Hc | now right].
    + apply Hrm; try reflexivity; [exact Hc | now left].
  - unfold bind at 1. unfold ret at 1.
    apply Hrm; try reflexivity; [exact Hc | now left].
Qed.

(** For a container the runtime does not know, [execute_command],
    [copy_to_container], [copy_from_container], [get_container_status] and
    [stop_container] all raise the not-found exception, leave the runtime as
    it was and start no subprocess. *)
Theorem unknown_container_is_refused (cid : string) (s : DockerRuntime.St)
  (command host_path container_path : string) (timeout : option Z) :
  table s !! cid = None ->
  refused cid (DockerRuntime.execute_command cid command timeout) s
  /\ refused cid (DockerRuntime.copy_to_container cid host_path container_path) s
  /\ refused cid (DockerRuntime.copy_from_container cid container_path host_path) s
  /\ refused cid (DockerRuntime.get_container_status cid) s
  /\ refused cid (DockerRuntime.stop_container cid) s.
Proof.
  intros H. destruct s as [w rt]. unfold table in H. simpl in H.
  unfold refused, DockerRuntime.execute_command,
    DockerRuntime.copy_to_container, DockerRuntime.copy_from_container,
    DockerRuntime.get_container_status, DockerRuntime.stop_container,
    DockerRuntime.record_op, DockerRuntime.on_env, DockerRuntime.not_found.
  unfold_monad. project. rewrite H. project.
  repeat split; reflexivity.
Qed.

Lemma unknown_container_is_refused_witness :
  table (Scenario.rt_state Scenario.fine Scenario.runtime0) !! "c1" = None
  /\ refused "c1" (DockerRuntime.stop_container "c1")
       (Scenario.rt_state Scenario.fine Scenario.runtime0).
Proof.
  split; [reflexivity |].
  apply (unknown_container_is_refused "c1"
           (Scenario.rt_state Scenario.fine Scenario.runtime0)
           "ls" "/tmp/a" "/tmp/b" None).
  reflexivity.
Defined.

(** [get_container_status] of a registered container never raises and never
    changes the runtime.  When [docker inspect] fails, or its output cannot
    be read, the report still carries the container's name, has status
    "unknown" and an "error" entry. *)
Theorem get_container_status_degrades_to_unknown (cid : string)
  (s : DockerRuntime.St) (info : DockerRuntime.ContainerInfo) :
  table s !! cid = Some info ->
  cancel_at (DockerRuntime.env s) = None ->
  exists report s',
    DockerRuntime.get_container_status cid s = (Ok report, s')
    /\ DockerRuntime.self s' = DockerRuntime.self s
    /\ spawned (DockerRuntime.env s')
       = spawned (DockerRuntime.env s) ++ [inspect_cmdline cid]
    /\ dict_get report "name" VNone = VStr (DockerRuntime.name info)
    /\ (inspect_unreadable (DockerRuntime.env s)
          (next_proc (inspect_cmdline cid) (DockerRuntime.env s)) ->
        dict_get report "status" VNone = VStr "unknown"
        /\ exists msg, dict_get report "error" VNone = VStr msg).
Proof.
  intros Hreg Hc. unfold table in Hreg.
  rewrite (get_container_status_spec cid s info Hreg Hc).
  eexists. eexists. split; [reflexivity |].
  destruct s as [w rt]. project.
  split; [reflexivity |]. split; [reflexivity |].
  unfold status_report, inspect_unreadable, next_proc, with_op. project.
  destruct (docker_result _ true) as [out | e].
  - destruct (json_inspect w out) as [[[st cpu] mem] |].
    + split; [reflexivity | discriminate].
    + split; [reflexivity |]. intros _. split; [reflexivity |].
      eexists. reflexivity.
  - split; [reflexivity |]. intros _. split; [reflexivity |].
    eexists. reflexivity.
Qed.

Lemma get_container_status_degrades_to_unknown_witness :
  table (Scenario.rt_state Scenario.broken Scenario.runtime1) !! "c1"
  = Some Scenario.box
  /\ cancel_at (DockerRuntime.env (Scenario.rt_state Scenario.broken Scenario.runtime1))
     = None
  /\ exists report s',
       DockerRuntime.get_container_status "c1"
         (Scenario.rt_state Scenario.broken Scenario.runtime1)
       = (Ok report, s')
       /\ DockerRuntime.self s'
          = DockerRuntime.self (Scenario.rt_state Scenario.broken Scenario.runtime1)
       /\ spawned (DockerRuntime.env s')
          = spawned (DockerRuntime.env
                       (Scenario.rt_state Scenario.broken Scenario.runtime1))
            ++ [inspect_cmdline "c1"]
       /\ dict_get report "name" VNone = VStr (DockerRuntime.name Scenario.box)
       /\ (inspect_unreadable
             (DockerRuntime.env (Scenario.rt_state Scenario.broken Scenario.runtime1))
             (next_proc (inspect_cmdline "c1")
                (DockerRuntime.env
                   (Scenario.rt_state Scenario.broken Scenario.runtime1))) ->
           dict_get report "status" VNone = VStr "unknown"
           /\ exists msg, dict_get report "error" VNone = VStr msg).
Proof.
  split; [reflexivity |]. split; [reflexivity |].
  apply (get_container_status_degrades_to_unknown "c1"
           (Scenario.rt_state Scenario.broken Scenario.runtime1) Scenario.box);
    reflexivity.
Defined.

(** [stop_container] of a registered container never raises.  It returns
    whether [docker stop] succeeded; on success the entry of that container
    gets status "stopped", on failure it is kept as it was, and the entries
    of the other containers are never touched. *)
Theorem stop_container_marks_only_that_container (cid : string)
  (s : DockerRuntime.St) (info : DockerRuntime.ContainerInfo) :
  table s !! cid = Some info ->
  cancel_at (DockerRuntime.env s) = None ->
  exists s',
    DockerRuntime.stop_container cid s
    = (Ok (succeeded (next_proc (stop_cmdline cid) (DockerRuntime.env s))), s')
    /\ table s' !! cid
       = Some (if succeeded (next_proc (stop_cmdline cid) (DockerRuntime.env s))
               then DockerRuntime.set_status "stopped" info
               else info)
    /\ (forall other, other <> cid -> table s' !! other = table s !! other).
Proof.
  intros Hreg Hc. unfold table in *.
  rewrite (stop_container_spec cid s info Hreg Hc).
  eexists. split; [reflexivity |].
  destruct s as [w rt]. unfold next_proc, with_op. project.
  destruct (succeeded _); project; simpl in Hreg.
  - unfold with_containers. project. split.
    + rewrite lookup_alter_eq, Hreg. reflexivity.
    + intros other Hne. now rewrite lookup_alter_ne.
  - split; [exact Hreg | reflexivity].
Qed.

Lemma stop_container_marks_only_that_container_witness :
  table (Scenario.rt_state Scenario.fine Scenario.runtime1) !! "c1"
  = Some Scenario.box
  /\ cancel_at (DockerRuntime.env (Scenario.rt_state Scenario.fine Scenario.runtime1))
     = None
  /\ exists s',
       DockerRuntime.stop_container "c1"
         (Scenario.rt_state Scenario.fine Scenario.runtime1)
       = (Ok (succeeded
                (next_proc (stop_cmdline "c1")
                   (DockerRuntime.env
                      (Scenario.rt_state Scenario.fine Scenario.runtime1)))), s')
       /\ table s' !! "c1"
          = Some (if succeeded
                       (next_proc (stop_cmdline "c1")
                          (DockerRuntime.env
                             (Scenario.rt_state Scenario.fine Scenario.runtime1)))
                  then DockerRuntime.set_status "stopped" Scenario.box
                  else Scenario.box)
       /\ (forall other, other <> "c1" ->
           table s' !! other
           = table (Scenario.rt_state Scenario.fine Scenario.runtime1) !! other).
Proof.
  split; [reflexivity |]. split; [reflexivity |].
  apply (stop_container_marks_only_that_container "c1"
           (Scenario.rt_state Scenario.fine Scenario.runtime1) Scenario.box);
    reflexivity.
Defined.

(** [remove_container] of a registered container never raises.  It returns
    [True] exactly when the entry is gone afterwards; when it returns [False]
    the container is still registered.  The other entries are not touched. *)
Theorem remove_container_reports_what_it_did (cid : string) (force : bool)
  (s : DockerRuntime.St) (info : DockerRuntime.ContainerInfo) :
  table s !! cid = Some info ->
  cancel_at (DockerRuntime.env s) = None ->
  exists b s',
    DockerRuntime.remove_container cid force s = (Ok b, s')
    /\ (b = true <-> table s' !! cid = None)
    /\ (forall other, other <> cid -> table s' !! other = table s !! other).
Proof.
  intros Hreg Hc. unfold table in *.
  destruct (remove_container_outcome cid force s info Hreg Hc)
    as (b & s' & Hrun & _ & _ & _ & Htrue & Hfalse & _).
  exists b, s'. split; [exact Hrun |].
  destruct b.
  - rewrite (Htrue eq_refl). unfold with_containers. project. split.
    + split; [intros _; apply lookup_delete_eq | reflexivity].
    + intros other Hne. now rewrite lookup_delete_ne.
  - destruct (Hfalse eq_refl) as [-> | ->]; unfold with_containers; project.
    + split; [| reflexivity]. split; [discriminate | congruence].
    + split.
      * split; [discriminate |]. rewrite lookup_alter_eq, Hreg. discriminate.
      * intros other Hne. now rewrite lookup_alter_ne.
Qed.

Lemma remove_container_reports_what_it_did_witness :
  table (Scenario.rt_state Scenario.broken Scenario.runtime1) !! "c1"
  = Some Scenario.box
  /\ cancel_at (DockerRuntime.env (Scenario.rt_state Scenario.broken Scenario.runtime1))
     = None
  /\ exists b s',
       DockerRuntime.remove_container "c1" true
         (Scenario.rt_state Scenario.broken Scenario.runtime1)
       = (Ok b, s')
       /\ (b = true <-> table s' !! "c1" = None)
       /\ (forall other, other <> "c1" ->
           table s' !! other
           = table (Scenario.rt_state Scenario.broken Scenario.runtime1) !! other).
Proof.
  split; [reflexivity |]. split; [reflexivity |].
  apply (remove_container_reports_what_it_did "c1" true
           (Scenario.rt_state Scenario.broken Scenario.runtime1) Scenario.box);
    reflexivity.
Defined.

(** What [cleanup_container] does when no cancellation is pending. *)
Lemma cleanup_container_outcome (cid : string) (s : DockerRuntime.St) :
  cancel_at (DockerRuntime.env s) = None ->
  exists s',
    DockerRuntime.cleanup_container cid s = (Ok tt, s')
    /\ cancel_at (DockerRuntime.env s') = None
    /\ engine (DockerRuntime.env s') = engine (DockerRuntime.env s)
    /\ (table s !! cid = None -> s' = s)
    /\ (forall other, other <> cid -> table s' !! other = table s !! other)
    /\ (table s' !! cid <> None -> table s !! cid <> None)
    /\ ((forall n, succeeded (engine (DockerRuntime.env s) n (rm_cmdline cid true))
                   = true) ->
        table s' !! cid = None).
Proof.
  intros Hc. unfold table, DockerRuntime.cleanup_container.
  unfold bind at 1. unfold get at 1.
  destruct (DockerRuntime._containers (DockerRuntime.self s) !! cid)
    as [info |] eqn:Hreg.
  - destruct (remove_container_outcome cid true s info Hreg Hc)
      as (b & s' & Hrun & Hc' & He' & _ & Htrue & Hfalse & Hall).
    exists s'. unfold try_except, bind. rewrite Hrun. unfold ret.
    split; [reflexivity |]. split; [exact Hc' |]. split; [exact He' |].
    split; [discriminate |].
    destruct b.
    + rewrite (Htrue eq_refl). unfold with_containers. project.
      split; [| split].
      * intros other Hne. now rewrite lookup_delete_ne.
      * intros _. discriminate.
      * intros _. apply lookup_delete_eq.
    + split; [| split].
      * intros other Hne.
        destruct (Hfalse eq_refl) as [-> | ->]; [reflexivity |].
        unfold with_containers. project. now rewrite lookup_alter_ne.
      * intros _. discriminate.
      * intros H. specialize (Hall H). discriminate.
  - exists s. unfold ret. split; [reflexivity |]. split; [exact Hc |].
    split; [reflexivity |]. split; [reflexivity |].
    split; [reflexivity |]. split; [intros H; rewrite Hreg in H; exact H |].
    intros _. exact Hreg.
Qed.

(** [cleanup_container] never raises: for an unknown container it does
    nothing at all (where [remove_container] raises), and for a registered
    one it touches no entry but that container's. *)
Theorem cleanup_container_never_raises (cid : string) (s : DockerRuntime.St) :
  cancel_at (DockerRuntime.env s) = None ->
  exists s',
    DockerRuntime.cleanup_container cid s = (Ok tt, s')
    /\ (table s !! cid = None -> s' = s)
    /\ (forall other, other <> cid -> table s' !! other = table s !! other).
Proof.
  intros Hc.
  destruct (cleanup_container_outcome cid s Hc)
    as (s' & Hrun & _ & _ & Hnoop & Hframe & _).
  exists s'. auto.
Qed.

Lemma cleanup_container_never_raises_witness :
  cancel_at (DockerRuntime.env (Scenario.rt_state Scenario.broken Scenario.runtime0))
  = None
  /\ exists s',
       DockerRuntime.cleanup_container "c1"
         (Scenario.rt_state Scenario.broken Scenario.runtime0)
       = (Ok tt, s')
       /\ (table (Scenario.rt_state Scenario.broken Scenario.runtime0) !! "c1" = None ->
           s' = Scenario.rt_state Scenario.broken Scenario.runtime0)
       /\ (forall other, other <> "c1" ->
           table s' !! other
           = table (Scenario.rt_state Scenario.broken Scenario.runtime0) !! other).
Proof.
  split; [reflexivity |].
  apply (cleanup_container_never_raises "c1"
           (Scenario.rt_state Scenario.broken Scenario.runtime0)).
  reflexivity.
Defined.

(** What [cleanup_all] does over a list of keys. *)
Lemma cleanup_all_outcome (keys : list string) :
  forall s : DockerRuntime.St,
    cancel_at (DockerRuntime.env s) = None ->
    exists s',
      DockerRuntime.cleanup_all keys s = (Ok tt, s')
      /\ (forall k, k ∉ keys -> table s' !! k = table s !! k)
      /\ (forall k, table s' !! k <> None -> table s !! k <> None)
      /\ ((forall n k, succeeded (engine (DockerRuntime.env s) n (rm_cmdline k true))
                       = true) ->
          forall k, k ∈ keys -> table s' !! k = None).
Proof.
  induction keys as [| cid rest IH]; intros s Hc.
  - exists s. split; [reflexivity |]. split; [reflexivity |].
    split; [auto |]. intros _ k Hk. inversion Hk.
  - destruct (cleanup_container_outcome cid s Hc)
      as (s1 & Hrun & Hc1 & He1 & _ & Hframe & Hgrow & Hgone).
    destruct (IH s1 Hc1) as (s2 & Hrun2 & Hframe2 & Hgrow2 & Hgone2).
    exists s2. cbn [DockerRuntime.cleanup_all]. unfold bind. rewrite Hrun.
    split; [exact Hrun2 |]. split; [| split].
    + intros k Hk. rewrite not_elem_of_cons in Hk. destruct Hk as [Hne Hk].
      rewrite (Hframe2 k Hk). now apply Hframe.
    + intros k Hk. apply Hgrow2 in Hk.
      destruct (decide (k = cid)) as [-> | Hne]; [now apply Hgrow |].
      now rewrite <- (Hframe k Hne).
    + intros Hall k Hk.
      assert (Hall1 : forall n k0,
                 succeeded (engine (DockerRuntime.env s1) n (rm_cmdline k0 true))
                 = true) by (rewrite He1; exact Hall).
      destruct (decide (k ∈ rest)) as [Hin | Hout].
      * now apply Hgone2.
      * rewrite (Hframe2 k Hout).
        apply elem_of_cons in Hk as [-> | Hin]; [| contradiction].
        apply Hgone. intros n. apply Hall.
Qed.

(** [cleanup_all] never raises and never adds an entry; containers outside
    the keys it walks are left as they were. *)
Theorem cleanup_all_never_raises (keys : list string) (s : DockerRuntime.St) :
  cancel_at (DockerRuntime.env s) = None ->
  exists s',
    DockerRuntime.cleanup_all keys s = (Ok tt, s')
    /\ (forall k, k ∉ keys -> table s' !! k = table s !! k)
    /\ (forall k, table s !! k = None -> table s' !! k = None).
Proof.
  intros Hc.
  destruct (cleanup_all_outcome keys s Hc) as (s' & Hrun & Hframe & Hgrow & _).
  exists s'. split; [exact Hrun |]. split; [exact Hframe |].
  intros k Hk. destruct (table s' !! k) eqn:E; [| reflexivity].
  exfalso. apply (Hgrow k); [rewrite E; discriminate | exact Hk].
Qed.

Lemma cleanup_all_never_raises_witness :
  cancel_at (DockerRuntime.env (Scenario.rt_state Scenario.broken Scenario.runtime1))
  = None
  /\ exists s',
       DockerRuntime.cleanup_all ["c1"]
         (Scenario.rt_state Scenario.broken Scenario.runtime1)
       = (Ok tt, s')
       /\ (forall k, k ∉ ["c1"] ->
           table s' !! k
           = table (Scenario.rt_state Scenario.broken Scenario.runtime1) !! k)
       /\ (forall k,
             table (Scenario.rt_state Scenario.broken Scenario.runtime1) !! k = None ->
             table s' !! k = None).
Proof.
  split; [reflexivity |].
  apply (cleanup_all_never_raises ["c1"]
           (Scenario.rt_state Scenario.broken Scenario.runtime1)).
  reflexivity.
Defined.

(** When every [docker rm -f] succeeds, [cleanup_all] over the keys of the
    table leaves the table empty, whatever [docker inspect] and
    [docker stop] do. *)
Theorem cleanup_all_empties_the_table (keys : list string)
  (s : DockerRuntime.St) :
  cancel_at (DockerRuntime.env s) = None ->
  (forall k, table s !! k <> None -> k ∈ keys) ->
  (forall n k, succeeded (engine (DockerRuntime.env s) n (rm_cmdline k true))
               = true) ->
  exists s',
    DockerRuntime.cleanup_all keys s = (Ok tt, s') /\ table s' = ∅.
Proof.
  intros Hc Hkeys Hall.
  destruct (cleanup_all_outcome keys s Hc) as (s' & Hrun & Hframe & Hgrow & Hgone).
  exists s'. split; [exact Hrun |].
  apply map_eq. intros k. rewrite lookup_empty.
  destruct (table s' !! k) eqn:E; [| reflexivity].
  exfalso. assert (Hk : table s' !! k <> None) by (rewrite E; discriminate).
  apply Hk. apply (Hgone Hall). apply Hkeys. now apply Hgrow.
Qed.

Lemma cleanup_all_empties_the_table_witness :
  cancel_at (DockerRuntime.env (Scenario.rt_state Scenario.fine Scenario.runtime1))
  = None
  /\ exists s',
       DockerRuntime.cleanup_all ["c1"]
         (Scenario.rt_state Scenario.fine Scenario.runtime1)
       = (Ok tt, s')
       /\ table s' = ∅.
Proof.
  split; [reflexivity |].
  apply (cleanup_all_empties_the_table ["c1"]
           (Scenario.rt_state Scenario.fine Scenario.runtime1)).
  - reflexivity.
  - intros k Hk. unfold table, Scenario.rt_state, Scenario.runtime1 in Hk.
    simpl in Hk. destruct (decide (k = "c1")) as [-> | Hne].
    + apply elem_of_cons. now left.
    + rewrite lookup_insert_ne in Hk by congruence.
      rewrite lookup_empty in Hk. contradiction.
  - intros n k. reflexivity.
Defined.

Lemma get_all_containers_outcome (keys : list string) :
  forall s : DockerRuntime.St,
    cancel_at (DockerRuntime.env s) = None ->
    (forall k, k ∈ keys -> table s !! k <> None) ->
    exists reports s',
      DockerRuntime.get_all_containers keys s = (Ok reports, s')
      /\ cancel_at (DockerRuntime.env s') = None
      /\ DockerRuntime.self s' = DockerRuntime.self s
      /\ Forall2 (reports_on (table s)) keys reports.
Proof.
  induction keys as [| cid rest IH]; intros s Hc Hreg.
  - exists [], s. split; [reflexivity |]. split; [exact Hc |].
    split; [reflexivity | constructor].
  - destruct (table s !! cid) as [info |] eqn:Hcid;
      [| exfalso; apply (Hreg cid); [apply elem_of_cons; now left | exact Hcid]].
    pose proof (get_container_status_spec cid s info Hcid Hc) as Hst.
    cbv zeta in Hst.
    set (report := status_report _ info _) in Hst.
    set (s1 := DockerRuntime.mkSt _ (DockerRuntime.self s)) in Hst.
    assert (Hc1 : cancel_at (DockerRuntime.env s1) = None)
      by (destruct s as [w rt]; exact Hc).
    assert (Hreg1 : forall k, k ∈ rest -> table s1 !! k <> None)
      by (intros k Hk; apply Hreg, elem_of_cons; now right).
    destruct (IH s1 Hc1 Hreg1) as (more & s2 & Hrun & Hc2 & Hself & Hall).
    exists (report :: more), s2.
    cbn [DockerRuntime.get_all_containers].
    unfold bind, try_except. rewrite Hst. unfold ret. rewrite Hrun.
    split; [reflexivity |]. split; [exact Hc2 |]. split; [exact Hself |].
    constructor; [| exact Hall].
    exists info. split; [exact Hcid |].
    subst report. unfold status_report, status_unknown.
    destruct (docker_result _ true) as [out | e];
      [destruct (json_inspect _ out) as [[[st cpu] mem] |] |];
      split; reflexivity.
Qed.

(** [get_all_containers] over the keys of the table never raises and never
    changes the runtime.  It yields one report per container, in the order
    of the keys, each with that container's name and creation time, also for
    the containers [docker inspect] fails on. *)
Theorem get_all_containers_reports_every_container (keys : list string)
  (s : DockerRuntime.St) :
  cancel_at (DockerRuntime.env s) = None ->
  (forall k, k ∈ keys -> table s !! k <> None) ->
  exists reports s',
    DockerRuntime.get_all_containers keys s = (Ok reports, s')
    /\ DockerRuntime.self s' = DockerRuntime.self s
    /\ length reports = length keys
    /\ Forall2 (reports_on (table s)) keys reports.
Proof.
  intros Hc Hreg.
  destruct (get_all_containers_outcome keys s Hc Hreg)
    as (reports & s' & Hrun & _ & Hself & Hall).
  exists reports, s'. split; [exact Hrun |]. split; [exact Hself |].
  split; [| exact Hall]. symmetry. eapply Forall2_length, Hall.
Qed.

Lemma get_all_containers_reports_every_container_witness :
  cancel_at (DockerRuntime.env (Scenario.rt_state Scenario.broken Scenario.runtime1))
  = None
  /\ exists reports s',
       DockerRuntime.get_all_containers ["c1"]
         (Scenario.rt_state Scenario.broken Scenario.runtime1)
       = (Ok reports, s')
       /\ DockerRuntime.self s'
          = DockerRuntime.self (Scenario.rt_state Scenario.broken Scenario.runtime1)
       /\ length reports = length ["c1"]
       /\ Forall2
            (reports_on (table (Scenario.rt_state Scenario.broken Scenario.runtime1)))
            ["c1"] reports.
Proof.
  split; [reflexivity |].
  apply (get_all_containers_reports_every_container ["c1"]
           (Scenario.rt_state Scenario.broken Scenario.runtime1)).
  - reflexivity.
  - intros k Hk. apply elem_of_cons in Hk as [-> | Hk]; [discriminate |].
    inversion Hk.
Defined.

(** ** docker_runtime.py: creating a container *)

(** [create_container] never returns a container id: whatever the options
    and the state, it ends with an exception, and the table of the runtime
    is as it was before the call. *)
Theorem create_container_never_returns (options : option SandboxRuntimeOptions.t)
  (s : DockerRuntime.St) :
  exists e s',
    DockerRuntime.create_container options s = (Raise e, s')
    /\ table s' = table s.
Proof.
  destruct (create_container_raises options s) as (e & s' & Hrun & Htbl & _).
  exists e, s'. split; [exact Hrun | exact Htbl].
Qed.

Lemma succeeded_result (p : ProcResult) :
  succeeded p = true -> exists out, docker_result p true = Ok out.
Proof.
  unfold succeeded. destruct (docker_result p true) as [out | e];
    [eauto | discriminate].
Qed.

(** When the engine does all it is asked, [create_container] on an
    initialised runtime runs [docker create] and [docker start] and only
    then fails, with the [AttributeError] of [options.dict()]: the container
    is started in the engine, and the runtime does not know it. *)
Theorem create_container_leaves_a_started_container
  (options : option SandboxRuntimeOptions.t) (s : DockerRuntime.St) :
  cancel_at (DockerRuntime.env s) = None ->
  DockerRuntime._initialized (DockerRuntime.self s) = true ->
  (forall n cmdline, succeeded (engine (DockerRuntime.env s) n cmdline) = true) ->
  exists name cid s',
    DockerRuntime.create_container options s
    = (Raise (AttributeError no_dict_attribute), s')
    /\ spawned (DockerRuntime.env s')
       = spawned (DockerRuntime.env s)
         ++ [create_cmdline name (default SandboxRuntimeOptions.default options);
             start_cmdline cid]
    /\ DockerRuntime.self s' = DockerRuntime.self s.
Proof.
  destruct s as [w [cfg tbl ini]]. simpl. intros Hc -> Hall.
  unfold DockerRuntime.create_container, DockerRuntime.record_op,
    DockerRuntime.initialize, DockerRuntime._build_container_config,
    DockerRuntime.on_env, DockerRuntime.set_initialized,
    DockerRuntime.set_containers, uuid4_hex.
  unfold_monad. crush_create.
  rewrite run_docker_command_spec by (apply cancel_none_not_due; exact Hc).
  crush_create.
  match goal with
  | |- context [docker_result (engine w ?n ?c) true] =>
      destruct (succeeded_result _ (Hall n c)) as [cid ->]
  end.
  crush_create.
  rewrite run_docker_command_spec by (apply cancel_none_not_due; exact Hc).
  crush_create.
  match goal with
  | |- context [docker_result (engine w ?n ?c) true] =>
      destruct (succeeded_result _ (Hall n c)) as [out ->]
  end.
  crush_create.
  exists ("openhands-" +:+ Text.prefix 12 (uuid_src w (uuid_drawn w))), cid.
  eexists. split; [reflexivity |]. crush_create.
  split; [| reflexivity].
  rewrite <- app_assoc. destruct options; reflexivity.
Qed.

Lemma create_container_leaves_a_started_container_witness :
  exists name cid s',
    DockerRuntime.create_container None
      (Scenario.rt_state Scenario.fine Scenario.runtime0)
    = (Raise (AttributeError no_dict_attribute), s')
    /\ spawned (DockerRuntime.env s')
       = spawned (DockerRuntime.env
                    (Scenario.rt_state Scenario.fine Scenario.runtime0))
         ++ [create_cmdline name (default SandboxRuntimeOptions.default None);
             start_cmdline cid]
    /\ DockerRuntime.self s'
       = DockerRuntime.self (Scenario.rt_state Scenario.fine Scenario.runtime0).
Proof.
  apply (create_container_leaves_a_started_container None
           (Scenario.rt_state Scenario.fine Scenario.runtime0));
    reflexivity.
Defined.

(** ** docker_runtime.py: initialisation and the factory *)

Lemma initialize_spec (s : DockerRuntime.St) :
  cancel_at (DockerRuntime.env s) = None ->
  DockerRuntime.initialize s
  = if DockerRuntime._initialized (DockerRuntime.self s) then (Ok tt, s)
    else
      (match docker_result (next_proc version_cmdline (DockerRuntime.env s)) true with
       | Ok _ => Ok tt
       | Raise e => Raise e
       end,
       DockerRuntime.mkSt (after_subprocess version_cmdline (DockerRuntime.env s))
         (if succeeded (next_proc version_cmdline (DockerRuntime.env s))
          then initialised (DockerRuntime.self s)
          else DockerRuntime.self s)).
Proof.
  intros Hc. destruct s as [w [cfg tbl ini]]. simpl in Hc.
  unfold DockerRuntime.initialize, DockerRuntime.on_env,
    DockerRuntime.set_initialized.
  unfold_monad. project. destruct ini; [reflexivity |].
  rewrite (run_docker_command_spec _ true w) by (apply cancel_none_not_due; exact Hc).
  unfold succeeded, next_proc, version_cmdline.
  destruct (docker_result _ true); reflexivity.
Qed.

(** [initialize] sets the flag only when the probe succeeds: after a
    successful call the runtime is initialised and a further call does
    nothing; after a failed call the runtime is exactly as before, still
    uninitialised, so that the next call probes again.  The table is never
    touched. *)
Theorem initialize_sets_the_flag_on_success_only (s : DockerRuntime.St) :
  (forall s1,
      DockerRuntime.initialize s = (Ok tt, s1) ->
      DockerRuntime._initialized (DockerRuntime.self s1) = true
      /\ table s1 = table s
      /\ DockerRuntime.initialize s1 = (Ok tt, s1))
  /\ (forall e s1,
        DockerRuntime.initialize s = (Raise e, s1) ->
        DockerRuntime._initialized (DockerRuntime.self s) = false
        /\ DockerRuntime.self s1 = DockerRuntime.self s).
Proof.
  destruct s as [w [cfg tbl ini]].
  unfold table, DockerRuntime.initialize, DockerRuntime.on_env,
    DockerRuntime.set_initialized.
  unfold_monad. project. destruct ini.
  - split; [intros s1 [= <-]; auto | discriminate].
  - match goal with
    | |- context [DockerRuntime._run_docker_command ?a ?c ?x] =>
        destruct (DockerRuntime._run_docker_command a c x) as [[out | e] w1]
    end; project.
    + split; [intros s1 [= <-]; auto | discriminate].
    + split; [discriminate | intros e' s1 [= _ <-]; auto].
Qed.

(** The runtime [get_instance] returns is the one the factory keeps, and a
    further call returns the same runtime without doing anything. *)
Theorem get_instance_is_a_singleton (s s1 : ActionExecutor.St)
  (rt : DockerRuntime.t) :
  ActionExecutor.get_instance s = (Ok rt, s1) ->
  ActionExecutor.factory_instance s1 = Some rt
  /\ ActionExecutor.get_instance s1 = (Ok rt, s1).
Proof.
  destruct s as [w inst ex].
  unfold ActionExecutor.get_instance at 1.
  unfold bind at 1. unfold get at 1. project.
  destruct inst as [rt0 |].
  - unfold ret. intros [= <- <-]. split; reflexivity.
  - unfold DockerRuntime.initialize, DockerRuntime.on_env,
      DockerRuntime.set_initialized, DockerRuntime.new.
    unfold_monad. project.
    match goal with
    | |- context [DockerRuntime._run_docker_command ?a ?c ?x] =>
        destruct (DockerRuntime._run_docker_command a c x) as [[out | e] w1]
    end; project; [| discriminate].
    intros [= <- <-]. split; reflexivity.
Qed.

Lemma get_instance_is_a_singleton_witness :
  ActionExecutor.factory_instance
    (snd (ActionExecutor.get_instance
            (ActionExecutor.mkSt (Scenario.world (Scenario.always Scenario.fine))
               None (ActionExecutor.new None))))
  = Some (initialised (DockerRuntime.new None))
  /\ ActionExecutor.get_instance
       (snd (ActionExecutor.get_instance
               (ActionExecutor.mkSt (Scenario.world (Scenario.always Scenario.fine))
                  None (ActionExecutor.new None))))
     = (Ok (initialised (DockerRuntime.new None)),
        snd (ActionExecutor.get_instance
               (ActionExecutor.mkSt (Scenario.world (Scenario.always Scenario.fine))
                  None (ActionExecutor.new None)))).
Proof.
  apply (get_instance_is_a_singleton
           (ActionExecutor.mkSt (Scenario.world (Scenario.always Scenario.fine))
              None (ActionExecutor.new None))).
  reflexivity.
Defined.

Lemma get_instance_probe_fails (s : ActionExecutor.St) :
  ActionExecutor.factory_instance s = None ->
  cancel_at (ActionExecutor.env s) = None ->
  succeeded (next_proc version_cmdline (ActionExecutor.env s)) = false ->
  exists e,
    ActionExecutor.get_instance s
    = (Raise e,
       ActionExecutor.mkSt (after_subprocess version_cmdline (ActionExecutor.env s))
         (Some (DockerRuntime.new None)) (ActionExecutor.self s))
    /\ is_Exception e = true.
Proof.
  destruct s as [w inst ex]. simpl. intros -> Hc Hfail.
  unfold ActionExecutor.get_instance at 1.
  unfold DockerRuntime.initialize, DockerRuntime.on_env,
    DockerRuntime.set_initialized, DockerRuntime.new.
  unfold_monad. project.
  rewrite (run_docker_command_spec _ true w) by (apply cancel_none_not_due; exact Hc).
  unfold succeeded, next_proc, version_cmdline in Hfail.
  destruct (docker_result _ true) as [out | e] eqn:E; [discriminate |].
  project. exists e. split; [reflexivity |].
  now apply docker_result_not_cancelled in E as [He _].
Qed.

(** When the factory has no instance yet and the probe of [initialize]
    fails, [get_instance] raises, but the instance it made stays in the
    factory: the next call returns that runtime, not initialised, without
    probing again. *)
Theorem get_instance_keeps_the_failed_runtime (s : ActionExecutor.St) :
  ActionExecutor.factory_instance s = None ->
  cancel_at (ActionExecutor.env s) = None ->
  succeeded (next_proc version_cmdline (ActionExecutor.env s)) = false ->
  exists e s1,
    ActionExecutor.get_instance s = (Raise e, s1)
    /\ is_Exception e = true
    /\ ActionExecutor.factory_instance s1 = Some (DockerRuntime.new None)
    /\ DockerRuntime._initialized (DockerRuntime.new None) = false
    /\ ActionExecutor.get_instance s1 = (Ok (DockerRuntime.new None), s1).
Proof.
  intros Hf Hc Hfail.
  destruct (get_instance_probe_fails s Hf Hc Hfail) as (e & Hrun & He).
  exists e. eexists. split; [exact Hrun |]. split; [exact He |].
  repeat split.
Qed.

Lemma get_instance_keeps_the_failed_runtime_witness :
  exists e s1,
    ActionExecutor.get_instance
      (ActionExecutor.mkSt (Scenario.world (Scenario.always Scenario.broken))
         None (ActionExecutor.new None))
    = (Raise e, s1)
    /\ is_Exception e = true
    /\ ActionExecutor.factory_instance s1 = Some (DockerRuntime.new None)
    /\ DockerRuntime._initialized (DockerRuntime.new None) = false
    /\ ActionExecutor.get_instance s1 = (Ok (DockerRuntime.new None), s1).
Proof.
  apply (get_instance_keeps_the_failed_runtime
           (ActionExecutor.mkSt (Scenario.world (Scenario.always Scenario.broken))
              None (ActionExecutor.new None)));
    reflexivity.
Defined.

(** [create_new_instance] always probes the engine, whatever the factory
    holds: when the probe succeeds the result is an initialised runtime with
    the given configuration (the default one when none is given) and an
    empty table; when it fails the exception of [initialize] is raised. *)
Theorem create_new_instance_is_fresh (config : option SandboxConfig.t)
  (w : Env) :
  cancel_at w = None ->
  exists r,
    DockerRuntime.create_new_instance config w
    = (r, after_subprocess version_cmdline w)
    /\ (succeeded (next_proc version_cmdline w) = true ->
        r = Ok (DockerRuntime.mk (default DEFAULT_CONFIG config) ∅ true))
    /\ (succeeded (next_proc version_cmdline w) = false ->
        exists e, r = Raise e /\ is_Exception e = true).
Proof.
  intros Hc. unfold DockerRuntime.create_new_instance.
  rewrite initialize_spec by exact Hc. project.
  unfold succeeded, DockerRuntime.new. project.
  destruct (docker_result _ true) as [out | e] eqn:E; project.
  - eexists. split; [reflexivity |]. split; [| discriminate].
    intros _. destruct config; reflexivity.
  - eexists. split; [reflexivity |]. split; [discriminate |].
    intros _. exists e. split; [reflexivity |].
    now apply docker_result_not_cancelled in E as [He _].
Qed.

Lemma create_new_instance_is_fresh_witness :
  cancel_at (Scenario.world (Scenario.always Scenario.fine)) = None
  /\ exists r,
       DockerRuntime.create_new_instance None
         (Scenario.world (Scenario.always Scenario.fine))
       = (r, after_subprocess version_cmdline
               (Scenario.world (Scenario.always Scenario.fine)))
       /\ (succeeded (next_proc version_cmdline
                        (Scenario.world (Scenario.always Scenario.fine))) = true ->
           r = Ok (DockerRuntime.mk (default DEFAULT_CONFIG None) ∅ true))
       /\ (succeeded (next_proc version_cmdline
                        (Scenario.world (Scenario.always Scenario.fine))) = false ->
           exists e, r = Raise e /\ is_Exception e = true).
Proof.
  split; [reflexivity |].
  apply (create_new_instance_is_fresh None
           (Scenario.world (Scenario.always Scenario.fine))).
  reflexivity.
Defined.

(** An executor made by [create_executor] always holds a runtime and has
    the eight built-in handlers, with none for CUSTOM.  Given a runtime it
    uses that one and does nothing else; given none it takes the instance
    of the factory, which is the one the factory then keeps. *)
Theorem create_executor_holds_a_runtime (runtime : option DockerRuntime.t)
  (s s1 : ActionExecutor.St) (ex : ActionExecutor.t) :
  ActionExecutor.create_executor runtime s = (Ok ex, s1) ->
  exists rt,
    ActionExecutor._runtime ex = Some rt
    /\ ActionExecutor._action_handlers ex = ActionExecutor.default_handlers
    /\ ActionExecutor._action_handlers ex CUSTOM = None
    /\ match runtime with
       | Some given => rt = given /\ s1 = s
       | None => ActionExecutor.factory_instance s1 = Some rt
       end.
Proof.
  unfold ActionExecutor.create_executor. destruct runtime as [given |].
  - unfold ret. intros [= <- <-]. exists given. repeat split.
  - unfold bind, ret.
    destruct (ActionExecutor.get_instance s) as [[rt | e] s'] eqn:E;
      [| discriminate].
    intros [= <- <-]. exists rt. repeat split.
    destruct s as [w inst ex0].
    unfold ActionExecutor.get_instance in E.
    unfold bind at 1 in E. unfold get at 1 in E. project.
    destruct inst as [rt0 |].
    + unfold ret in E. injection E as <- <-. reflexivity.
    + revert E.
      unfold DockerRuntime.initialize, DockerRuntime.on_env,
        DockerRuntime.set_initialized, DockerRuntime.new.
      unfold_monad. project.
      match goal with
      | |- context [DockerRuntime._run_docker_command ?a ?c ?x] =>
          destruct (DockerRuntime._run_docker_command a c x) as [[out | e] w1]
      end; project; [| discriminate].
      intros [= <- <-]. reflexivity.
Qed.

Lemma create_executor_holds_a_runtime_witness :
  exists rt,
    ActionExecutor._runtime
      (ActionExecutor.new (Some (initialised (DockerRuntime.new None)))) = Some rt
    /\ ActionExecutor._action_handlers
         (ActionExecutor.new (Some (initialised (DockerRuntime.new None))))
       = ActionExecutor.default_handlers
    /\ ActionExecutor._action_handlers
         (ActionExecutor.new (Some (initialised (DockerRuntime.new None))))
         CUSTOM = None
    /\ ActionExecutor.factory_instance
         (snd (ActionExecutor.create_executor None
                 (ActionExecutor.mkSt
                    (Scenario.world (Scenario.always Scenario.fine)) None
                    (ActionExecutor.new None))))
       = Some rt.
Proof.
  apply (create_executor_holds_a_runtime None
           (ActionExecutor.mkSt (Scenario.world (Scenario.always Scenario.fine))
              None (ActionExecutor.new None))
           (snd (ActionExecutor.create_executor None
                   (ActionExecutor.mkSt
                      (Scenario.world (Scenario.always Scenario.fine)) None
                      (ActionExecutor.new None))))
           (ActionExecutor.new (Some (initialised (DockerRuntime.new None))))).
  reflexivity.
Defined.

(** ** action_executor.py: what [execute_action] answers *)

(** Once the executor holds a runtime, whatever handler is registered, an
    exception that leaves [execute_action] is not an instance of
    [Exception]: it is a [CancelledError] or another exception from outside
    [Exception] that the handler itself raised.  Every exception that
    derives from [Exception] becomes a response. *)
Theorem execute_action_contains_every_Exception
  (request : ActionRequest.t) (action_id : option string)
  (rt : DockerRuntime.t) (s s' : ActionExecutor.St) (e : exn) :
  ActionExecutor._runtime (ActionExecutor.self s) = Some rt ->
  ActionExecutor.execute_action request action_id s = (Raise e, s') ->
  is_Exception e = false
  /\ exists handler,
       ActionExecutor._action_handlers (ActionExecutor.self s)
         (ActionRequest.action_type request) = Some handler
       /\ fst (call_handler handler request
                 (handler_start request action_id rt s)) = Raise e.
Proof.
  intros Hrt. rewrite (execute_action_unfold request action_id rt s Hrt).
  destruct (ActionExecutor._action_handlers (ActionExecutor.self s)
              (ActionRequest.action_type request)) as [handler |] eqn:Hh.
  - rewrite (guarded_call_unfold
               (ActionExecutor._action_handlers (ActionExecutor.self s))
               request handler _ Hh).
    destruct (call_handler handler request _) as [[d | e0] h'] eqn:Hcall; simpl;
      [discriminate |].
    destruct e0; simpl; try discriminate; intros [= <- _];
      (split; [reflexivity |]); exists handler;
      (split; [reflexivity | rewrite Hcall; reflexivity]).
  - rewrite (guarded_call_unsupported
               (ActionExecutor._action_handlers (ActionExecutor.self s))
               request _ Hh).
    discriminate.
Qed.

Lemma execute_action_contains_every_Exception_witness :
  is_Exception (OutsideException "SystemExit" "1") = false
  /\ exists handler,
       ActionExecutor._action_handlers
         (ActionExecutor.self
            (with_handler CUSTOM
               (HCustom (fun _ => raise (OutsideException "SystemExit" "1")))
               (Scenario.executor Scenario.fine Scenario.runtime1)))
         (ActionRequest.action_type (Scenario.request CUSTOM [] 30))
       = Some handler
       /\ fst (call_handler handler (Scenario.request CUSTOM [] 30)
                 (handler_start (Scenario.request CUSTOM [] 30) (Some "a-1")
                    Scenario.runtime1
                    (with_handler CUSTOM
                       (HCustom (fun _ => raise (OutsideException "SystemExit" "1")))
                       (Scenario.executor Scenario.fine Scenario.runtime1))))
          = Raise (OutsideException "SystemExit" "1").
Proof.
  apply (execute_action_contains_every_Exception
           (Scenario.request CUSTOM [] 30) (Some "a-1") Scenario.runtime1
           (with_handler CUSTOM
              (HCustom (fun _ => raise (OutsideException "SystemExit" "1")))
              (Scenario.executor Scenario.fine Scenario.runtime1))
           (snd (ActionExecutor.execute_action (Scenario.request CUSTOM [] 30)
                   (Some "a-1")
                   (with_handler CUSTOM
                      (HCustom (fun _ => raise (OutsideException "SystemExit" "1")))
                      (Scenario.executor Scenario.fine Scenario.runtime1))))
           (OutsideException "SystemExit" "1"));
    reflexivity.
Defined.

Lemma registered_handler_lookup (action_type : ActionType) (handler : Handler)
  (ex : ActionExecutor.t) :
  ActionExecutor._action_handlers
    (ActionExecutor.register_action_handler action_type handler ex) action_type
  = Some handler.
Proof.
  unfold ActionExecutor.register_action_handler. simpl.
  now destruct action_type.
Qed.

(** After [register_action_handler(t, handler)], whether or not a built-in
    handler was there before, a request of type [t] goes to that handler as
    soon as [execute_action] has its runtime, and the handler decides the
    answer: its value gives COMPLETED with that value and the time the clock
    advanced; a [TimeoutError] gives TIMED_OUT with the fixed message; an
    [Exception(msg)] gives FAILED with [msg], and any other exception that
    derives from [Exception] gives FAILED with some text; an exception from
    outside [Exception] ([CancelledError], [SystemExit], ...) leaves
    [execute_action]. *)
Theorem registered_handler_answers_the_action (request : ActionRequest.t)
  (action_id : option string) (rt : DockerRuntime.t) (s s1 : ActionExecutor.St)
  (f : ActionRequest.t -> M Handlers.St pydict) (r : Res pydict)
  (h : Handlers.St) :
  acquisition action_id
    (with_handler (ActionRequest.action_type request) (HCustom f) s)
  = (Ok rt, s1) ->
  f request (handler_entry request action_id rt s s1) = (r, h) ->
  exists text,
    fst (ActionExecutor.execute_action request action_id
           (with_handler (ActionRequest.action_type request) (HCustom f) s))
    = match r with
      | Ok result =>
          Ok (ActionResponse.complete result
                (now (Handlers.env h) - now (ActionExecutor.env s1))
                (Handlers.response h))
      | Raise TimeoutError =>
          Ok (ActionResponse.fail_with TIMED_OUT "动作执行超时"
                (Handlers.response h))
      | Raise e =>
          if is_Exception e
          then Ok (ActionResponse.fail_with FAILED text (Handlers.response h))
          else Raise e
      end
    /\ (forall msg, r = Raise (Exception msg) -> text = msg).
Proof.
  intros Hacq Hf.
  rewrite (execute_action_steps request action_id
             (with_handler (ActionRequest.action_type request) (HCustom f) s)).
  rewrite Hacq.
  destruct (acquisition_frame action_id _ s1 _ Hacq) as (Hhs & _ & _).
  rewrite Hhs.
  rewrite (guarded_call_unfold
             (ActionExecutor._action_handlers
                (ActionExecutor.self
                   (with_handler (ActionRequest.action_type request) (HCustom f) s)))
             request (HCustom f) _
             (registered_handler_lookup (ActionRequest.action_type request)
                (HCustom f) (ActionExecutor.self s))).
  change (handler_entry request action_id rt (with_handler _ _ s) s1)
    with (handler_entry request action_id rt s s1).
  cbn [call_handler]. rewrite Hf. cbn [fst snd].
  change (now (Handlers.env (handler_entry request action_id rt s s1)))
    with (now (ActionExecutor.env s1)).
  destruct r as [result | e].
  - exists EmptyString. split; [reflexivity | discriminate].
  - exists (str_exn e). split; [destruct e; reflexivity |].
    intros msg [= ->]. reflexivity.
Qed.

Lemma registered_handler_answers_the_action_witness :
  exists text,
    fst (ActionExecutor.execute_action (Scenario.request CUSTOM [] 30)
           (Some "a-1")
           (with_handler CUSTOM (HCustom (fun _ => raise (Exception "boom")))
              (bare_executor Scenario.fine)))
    = Ok (ActionResponse.mk "a-1" FAILED None (Some text) 0 ∅)
    /\ (forall msg,
          @Raise pydict (Exception "boom") = Raise (Exception msg) -> text = msg).
Proof.
  exact (registered_handler_answers_the_action
           (Scenario.request CUSTOM [] 30) (Some "a-1")
           (initialised (DockerRuntime.new None))
           (bare_executor Scenario.fine)
           (snd (acquisition (Some "a-1")
                   (with_handler CUSTOM
                      (HCustom (fun _ => raise (Exception "boom")))
                      (bare_executor Scenario.fine))))
           (fun _ => raise (Exception "boom")) (Raise (Exception "boom"))
           (handler_entry (Scenario.request CUSTOM [] 30) (Some "a-1")
              (initialised (DockerRuntime.new None))
              (bare_executor Scenario.fine)
              (snd (acquisition (Some "a-1")
                      (with_handler CUSTOM
                         (HCustom (fun _ => raise (Exception "boom")))
                         (bare_executor Scenario.fine)))))
           eq_refl eq_refl).
Defined.

(** ** Handlers against a container the runtime does not know *)

Lemma supported_language_command (language code : string) :
  supported_language language = true ->
  exists command, Handlers.code_command language code = Some command.
Proof.
  unfold supported_language, Handlers.code_command.
  destruct (String.eqb language "python"); [eauto |].
  destruct (String.eqb language "javascript"); [eauto |].
  destruct (String.eqb language "bash"); [eauto | discriminate].
Qed.

Lemma unsupported_language_command (language code : string) :
  supported_language language = false ->
  Handlers.code_command language code = None.
Proof.
  unfold supported_language, Handlers.code_command.
  destruct (String.eqb language "python"); [discriminate |].
  destruct (String.eqb language "javascript"); [discriminate |].
  destruct (String.eqb language "bash"); [discriminate | reflexivity].
Qed.

Ltac unfold_handlers :=
  unfold Handlers._handle_execute_command, Handlers._handle_run_code,
    Handlers._handle_put_file, Handlers._handle_transfer_file,
    Handlers._handle_get_file, Handlers._handle_delete_file,
    Handlers._handle_list_directory, Handlers._handle_check_status,
    Handlers.container_for.

Lemma unknown_container_handler_raises (request : ActionRequest.t)
  (handler : Handler) (h : Handlers.St) :
  ActionExecutor.default_handlers (ActionRequest.action_type request)
  = Some handler ->
  missing_required request = false ->
  missing request "container_id" = false ->
  (ActionRequest.action_type request = RUN_CODE ->
   supported_language (language_of request) = true) ->
  DockerRuntime._containers (Handlers.runtime h) !! named_container request = None ->
  exists h',
    call_handler handler request h
    = (Raise (Exception ("容器未找到: " +:+ named_container request)), h')
    /\ Handlers.response h' = Handlers.response h
    /\ Handlers.runtime h' = Handlers.runtime h
    /\ spawned (Handlers.env h') = spawned (Handlers.env h).
Proof.
  intros Hdef Hmiss Hcid Hlang Hreg. destruct h as [w rt resp].
  unfold missing_required, missing, named_container, language_of in *.
  simpl in Hreg.
  destruct (ActionRequest.action_type request) eqn:Ht; simpl in Hdef;
    try discriminate; injection Hdef as <-; cbn [call_handler]; unfold_handlers;
    repeat (apply orb_false_iff in Hmiss as [Hmiss ?]);
    repeat match goal with
           | H : falsy _ = false |- _ => rewrite H; clear H
           end;
    cbn [orb];
    try (destruct (supported_language_command _
                     (Handlers.text (ActionRequest.param request "code"))
                     (Hlang eq_refl)) as [command ->]);
    unfold Handlers.call_runtime, DockerRuntime.execute_command,
      DockerRuntime.copy_to_container, DockerRuntime.copy_from_container,
      DockerRuntime.get_container_status, DockerRuntime.record_op,
      DockerRuntime.on_env, DockerRuntime.not_found;
    unfold_monad; project; rewrite Hreg; project;
    eexists; (split; [reflexivity |]); repeat split.
Qed.

(** A built-in action that names a container the runtime does not know is
    answered FAILED with the not-found message of the runtime; no
    subprocess is started and the table of the runtime is as it was. *)
Theorem action_on_unknown_container_fails (request : ActionRequest.t)
  (action_id : option string) (rt : DockerRuntime.t) (s : ActionExecutor.St) :
  ActionExecutor._runtime (ActionExecutor.self s) = Some rt ->
  ActionExecutor._action_handlers (ActionExecutor.self s)
    (ActionRequest.action_type request)
  = ActionExecutor.default_handlers (ActionRequest.action_type request) ->
  ActionRequest.action_type request <> CUSTOM ->
  missing_required request = false ->
  missing request "container_id" = false ->
  (ActionRequest.action_type request = RUN_CODE ->
   supported_language (language_of request) = true) ->
  DockerRuntime._containers rt !! named_container request = None ->
  exists response s',
    ActionExecutor.execute_action request action_id s = (Ok response, s')
    /\ ActionResponse.status response = FAILED
    /\ ActionResponse.error response
       = Some ("容器未找到: " +:+ named_container request)
    /\ ActionResponse.result response = None
    /\ spawned (ActionExecutor.env s') = spawned (ActionExecutor.env s)
    /\ ActionExecutor._runtime (ActionExecutor.self s') = Some rt.
Proof.
  intros Hrt Hdef Hcustom Hmiss Hcid Hlang Hreg.
  rewrite (execute_action_unfold request action_id rt s Hrt).
  destruct (ActionExecutor.default_handlers (ActionRequest.action_type request))
    as [handler |] eqn:Hh.
  2:{ destruct (ActionRequest.action_type request); try discriminate.
      now elim Hcustom. }
  rewrite (guarded_call_unfold
             (ActionExecutor._action_handlers (ActionExecutor.self s))
             request handler _ Hdef).
  destruct (unknown_container_handler_raises request handler
              (handler_start request action_id rt s) Hh Hmiss Hcid Hlang Hreg)
    as (h' & Hcall & Hresp & Hrt' & Hsp).
  rewrite Hcall. simpl. rewrite Hresp.
  do 2 eexists. split; [reflexivity |]. simpl.
  do 3 (split; [reflexivity |]). split.
  - rewrite Hsp. unfold handler_start. simpl. apply assign_id_spawned.
  - rewrite Hrt'. reflexivity.
Qed.

Lemma action_on_unknown_container_fails_witness :
  exists response s',
    ActionExecutor.execute_action
      (Scenario.request LIST_DIRECTORY
         [("directory_path", "/workspace"); ("container_id", "c9")] 30)
      (Some "a-1") (Scenario.executor Scenario.fine Scenario.runtime1)
    = (Ok response, s')
    /\ ActionResponse.status response = FAILED
    /\ ActionResponse.error response = Some "容器未找到: c9"
    /\ ActionResponse.result response = None
    /\ spawned (ActionExecutor.env s')
       = spawned (ActionExecutor.env
                    (Scenario.executor Scenario.fine Scenario.runtime1))
    /\ ActionExecutor._runtime (ActionExecutor.self s') = Some Scenario.runtime1.
Proof.
  apply (action_on_unknown_container_fails
           (Scenario.request LIST_DIRECTORY
              [("directory_path", "/workspace"); ("container_id", "c9")] 30)
           (Some "a-1") Scenario.runtime1
           (Scenario.executor Scenario.fine Scenario.runtime1));
    try reflexivity; discriminate.
Defined.

(** RUN_CODE with a language other than python, javascript and bash fails
    in the handler, before the runtime is called.  Once [execute_action] has
    its runtime the request is answered FAILED with the language in the
    message, and no subprocess is started after the acquisition, also when
    the request names no container; for an executor that holds a runtime
    that means no subprocess at all.  In every case, no operation of the
    runtime is entered. *)
Theorem run_code_in_unsupported_language_fails (request : ActionRequest.t)
  (action_id : option string) (s : ActionExecutor.St) :
  ActionExecutor._action_handlers (ActionExecutor.self s) RUN_CODE
  = Some HRunCode ->
  ActionRequest.action_type request = RUN_CODE ->
  missing request "code" = false ->
  supported_language (language_of request) = false ->
  ops (ActionExecutor.env
         (snd (ActionExecutor.execute_action request action_id s)))
  = ops (ActionExecutor.env s)
  /\ (forall rt,
        ActionExecutor._runtime (ActionExecutor.self s) = Some rt ->
        acquisition action_id s = (Ok rt, at_acquisition action_id s)
        /\ spawned (ActionExecutor.env (at_acquisition action_id s))
           = spawned (ActionExecutor.env s))
  /\ (forall rt s1,
        acquisition action_id s = (Ok rt, s1) ->
        exists response s',
          ActionExecutor.execute_action request action_id s = (Ok response, s')
          /\ ActionResponse.status response = FAILED
          /\ ActionResponse.error response
             = Some ("不支持的语言: " +:+ language_of request)
          /\ ActionResponse.result response = None
          /\ spawned (ActionExecutor.env s') = spawned (ActionExecutor.env s1)
          /\ ActionExecutor._runtime (ActionExecutor.self s') = Some rt).
Proof.
  intros Hh Ht Hcode Hlang. rewrite <- Ht in Hh.
  rewrite (execute_action_steps request action_id s).
  assert (Hcall : forall h, call_handler HRunCode request h
                            = (Raise (Exception ("不支持的语言: "
                                                 +:+ language_of request)), h)).
  { intros h. cbn [call_handler]. unfold Handlers._handle_run_code.
    unfold missing in Hcode. rewrite Hcode.
    fold (language_of request).
    rewrite (unsupported_language_command _ _ Hlang). reflexivity. }
  destruct (acquisition action_id s) as [[rt | e] s1] eqn:Hacq.
  - destruct (acquisition_frame action_id s s1 _ Hacq) as (Hhs & Hops & _).
    rewrite Hhs.
    rewrite (guarded_call_unfold
               (ActionExecutor._action_handlers (ActionExecutor.self s))
               request HRunCode _ Hh), Hcall. simpl.
    split; [exact Hops |]. split.
    { intros rt0 Hheld. rewrite (acquisition_held action_id s rt0 Hheld) in Hacq.
      injection Hacq as <- <-. split; [reflexivity |]. apply assign_id_spawned. }
    intros rt0 s0 [= <- <-]. do 2 eexists. split; [reflexivity |].
    repeat split.
  - destruct (acquisition_frame action_id s s1 _ Hacq) as (_ & Hops & _).
    simpl. split; [exact Hops |]. split; [| discriminate].
    intros rt0 Hheld. rewrite (acquisition_held action_id s rt0 Hheld) in Hacq.
    discriminate.
Qed.

Lemma run_code_in_unsupported_language_fails_witness :
  ops (ActionExecutor.env
         (snd (ActionExecutor.execute_action
                 (Scenario.request RUN_CODE
                    [("code", "puts 1"); ("language", "ruby")] 30)
                 (Some "a-1") (Scenario.executor Scenario.fine Scenario.runtime0))))
  = ops (ActionExecutor.env (Scenario.executor Scenario.fine Scenario.runtime0))
  /\ (forall rt,
        ActionExecutor._runtime
          (ActionExecutor.self (Scenario.executor Scenario.fine Scenario.runtime0))
        = Some rt ->
        acquisition (Some "a-1") (Scenario.executor Scenario.fine Scenario.runtime0)
        = (Ok rt,
           at_acquisition (Some "a-1")
             (Scenario.executor Scenario.fine Scenario.runtime0))
        /\ spawned (ActionExecutor.env
                      (at_acquisition (Some "a-1")
                         (Scenario.executor Scenario.fine Scenario.runtime0)))
           = spawned (ActionExecutor.env
                        (Scenario.executor Scenario.fine Scenario.runtime0)))
  /\ (forall rt s1,
        acquisition (Some "a-1") (Scenario.executor Scenario.fine Scenario.runtime0)
        = (Ok rt, s1) ->
        exists response s',
          ActionExecutor.execute_action
            (Scenario.request RUN_CODE
               [("code", "puts 1"); ("language", "ruby")] 30)
            (Some "a-1") (Scenario.executor Scenario.fine Scenario.runtime0)
          = (Ok response, s')
          /\ ActionResponse.status response = FAILED
          /\ ActionResponse.error response
             = Some ("不支持的语言: "
                     +:+ language_of
                           (Scenario.request RUN_CODE
                              [("code", "puts 1"); ("language", "ruby")] 30))
          /\ ActionResponse.result response = None
          /\ spawned (ActionExecutor.env s') = spawned (ActionExecutor.env s1)
          /\ ActionExecutor._runtime (ActionExecutor.self s') = Some rt).
Proof.
  apply (run_code_in_unsupported_language_fails
           (Scenario.request RUN_CODE [("code", "puts 1"); ("language", "ruby")] 30)
           (Some "a-1") (Scenario.executor Scenario.fine Scenario.runtime0));
    reflexivity.
Defined.

(** ** DELETE_FILE, LIST_DIRECTORY and CHECK_STATUS on a registered container *)




Lemma check_status_handler_reports (request : ActionRequest.t)
  (h : Handlers.St) (info : DockerRuntime.ContainerInfo) :
  missing request "container_id" = false ->
  DockerRuntime._containers (Handlers.runtime h) !! named_container request
  = Some info ->
  cancel_at (Handlers.env h) = None ->
  exists report h',
    call_handler HCheckStatus request h
    = (Ok [("success", VBool true); ("container_status", VDict report)], h')
    /\ Handlers.response h' = Handlers.response h
    /\ Handlers.runtime h' = Handlers.runtime h
    /\ (inspect_unreadable (Handlers.env h)
          (next_proc (inspect_cmdline (named_container request)) (Handlers.env h)) ->
        dict_get report "status" VNone = VStr "unknown").
Proof.
  intros Hcid Hreg Hc. destruct h as [w rt resp].
  unfold missing, named_container in *. simpl in Hreg, Hc.
  cbn [call_handler]. unfold Handlers._handle_check_status. rewrite Hcid.
  unfold bind. rewrite call_runtime_unfold. project.
  rewrite (get_container_status_spec _ (DockerRuntime.mkSt w rt) info Hreg Hc).
  cbv zeta. project. unfold ret.
  do 2 eexists. split; [reflexivity |]. project.
  split; [reflexivity |]. split; [reflexivity |].
  unfold inspect_unreadable, next_proc, status_report, with_op. project.
  destruct (docker_result _ true) as [out | e]; [| intros _; reflexivity].
  destruct (json_inspect w out) as [[[st cpu] mem] |];
    [discriminate | intros _; reflexivity].
Qed.

(** CHECK_STATUS on a registered container is always answered COMPLETED
    with "success" true, also when [docker inspect] fails or cannot be
    read: the failure shows only inside the report, as status "unknown". *)
Theorem check_status_completes_whatever_inspect_does
  (request : ActionRequest.t) (action_id : option string)
  (rt : DockerRuntime.t) (s : ActionExecutor.St)
  (info : DockerRuntime.ContainerInfo) :
  ActionExecutor._runtime (ActionExecutor.self s) = Some rt ->
  ActionExecutor._action_handlers (ActionExecutor.self s) CHECK_STATUS
  = Some HCheckStatus ->
  ActionRequest.action_type request = CHECK_STATUS ->
  missing request "container_id" = false ->
  DockerRuntime._containers rt !! named_container request = Some info ->
  cancel_at (ActionExecutor.env s) = None ->
  exists response s' d report,
    ActionExecutor.execute_action request action_id s = (Ok response, s')
    /\ ActionResponse.status response = COMPLETED
    /\ ActionResponse.error response = None
    /\ ActionResponse.result response = Some d
    /\ dict_get d "success" VNone = VBool true
    /\ dict_get d "container_status" VNone = VDict report
    /\ (inspect_unreadable (ActionExecutor.env s)
          (next_proc (inspect_cmdline (named_container request))
             (ActionExecutor.env s)) ->
        dict_get report "status" VNone = VStr "unknown").
Proof.
  intros Hrt Hh Ht Hcid Hreg Hc. rewrite <- Ht in Hh.
  rewrite (execute_action_unfold request action_id rt s Hrt).
  rewrite (guarded_call_unfold
             (ActionExecutor._action_handlers (ActionExecutor.self s))
             request HCheckStatus _ Hh).
  destruct (check_status_handler_reports request
              (handler_start request action_id rt s) info Hcid Hreg)
    as (report & h' & Hcall & Hresp & _ & Hunknown).
  { unfold handler_start. simpl. now rewrite assign_id_cancel_at. }
  rewrite Hcall. simpl. rewrite Hresp.
  exists (ActionResponse.complete
            [("success", VBool true); ("container_status", VDict report)]
            (now (Handlers.env h')
             - now (Handlers.env (handler_start request action_id rt s)))
            (initial_response
               (fst (assign_id action_id (ActionExecutor.env s))) request)).
  eexists. exists [("success", VBool true); ("container_status", VDict report)].
  exists report. split; [reflexivity |]. simpl.
  do 5 (split; [reflexivity |]).
  intros Hun. apply Hunknown.
  unfold handler_start, inspect_unreadable, next_proc in *. simpl.
  destruct action_id; exact Hun.
Qed.

Lemma check_status_completes_whatever_inspect_does_witness :
  exists response s' d report,
    ActionExecutor.execute_action
      (Scenario.request CHECK_STATUS [("container_id", "c1")] 30)
      (Some "a-1") (Scenario.executor Scenario.broken Scenario.runtime1)
    = (Ok response, s')
    /\ ActionResponse.status response = COMPLETED
    /\ ActionResponse.error response = None
    /\ ActionResponse.result response = Some d
    /\ dict_get d "success" VNone = VBool true
    /\ dict_get d "container_status" VNone = VDict report
    /\ (inspect_unreadable
          (ActionExecutor.env (Scenario.executor Scenario.broken Scenario.runtime1))
          (next_proc (inspect_cmdline "c1")
             (ActionExecutor.env
                (Scenario.executor Scenario.broken Scenario.runtime1))) ->
        dict_get report "status" VNone = VStr "unknown").
Proof.
  apply (check_status_completes_whatever_inspect_does
           (Scenario.request CHECK_STATUS [("container_id", "c1")] 30)
           (Some "a-1") Scenario.runtime1
           (Scenario.executor Scenario.broken Scenario.runtime1) Scenario.box);
    reflexivity.
Defined.

(** ** Acquiring the runtime *)

(** An executor without a runtime asks the factory before the [try]
    statement: when the factory has no instance and the probe of the engine
    fails, the exception leaves [execute_action] instead of becoming a
    FAILED response.  The executor is still without a runtime, and the
    factory is left with the instance that was never initialised. *)
Theorem execute_action_runtime_failure_escapes (request : ActionRequest.t)
  (action_id : option string) (s : ActionExecutor.St) :
  ActionExecutor._runtime (ActionExecutor.self s) = None ->
  ActionExecutor.factory_instance s = None ->
  cancel_at (ActionExecutor.env s) = None ->
  succeeded (next_proc version_cmdline (ActionExecutor.env s)) = false ->
  exists e s',
    ActionExecutor.execute_action request action_id s = (Raise e, s')
    /\ is_Exception e = true
    /\ ActionExecutor._runtime (ActionExecutor.self s') = None
    /\ ActionExecutor.factory_instance s' = Some (DockerRuntime.new None).
Proof.
  intros Hrt Hf Hc Hfail. destruct s as [w inst [r hs]]. simpl in *. subst r inst.
  set (s0 := ActionExecutor.mkSt (snd (assign_id action_id w)) None
               (ActionExecutor.mk None hs)).
  destruct (get_instance_probe_fails s0 eq_refl) as (e & Hrun & He).
  { subst s0. simpl. now rewrite assign_id_cancel_at. }
  { subst s0. unfold next_proc in *. simpl.
    destruct (assign_id_spawned action_id w) as (-> & -> & _). exact Hfail. }
  exists e. eexists. split; [| split; [exact He |]].
  - unfold ActionExecutor.execute_action, ActionExecutor.acquire_runtime,
      ActionExecutor.on_env, uuid4_str, uuid4_hex.
    unfold bind at 1.
    assert (Hid : (match action_id with
                   | Some a => ret a
                   | None =>
                       zoom ActionExecutor.env
                         (fun w0 s1 =>
                            ActionExecutor.mkSt w0
                              (ActionExecutor.factory_instance s1)
                              (ActionExecutor.self s1))
                         (bind (fun w0 => (Ok (uuid_src w0 (uuid_drawn w0)),
                                           set_uuid_drawn (S (uuid_drawn w0)) w0))
                            (fun h => ret (dashed h)))
                   end) (ActionExecutor.mkSt w None (ActionExecutor.mk None hs))
                  = (Ok (fst (assign_id action_id w)), s0))
      by (destruct action_id; reflexivity).
    rewrite Hid. unfold bind at 1. unfold bind at 1. unfold get at 1.
    subst s0. project. unfold bind at 1. rewrite Hrun. reflexivity.
  - split; reflexivity.
Qed.

Lemma execute_action_runtime_failure_escapes_witness :
  exists e s',
    ActionExecutor.execute_action ServerScenario.echo (Some "a-1")
      (ActionExecutor.mkSt (Scenario.world (Scenario.always Scenario.broken))
         None (ActionExecutor.new None))
    = (Raise e, s')
    /\ is_Exception e = true
    /\ ActionExecutor._runtime (ActionExecutor.self s') = None
    /\ ActionExecutor.factory_instance s' = Some (DockerRuntime.new None).
Proof.
  apply (execute_action_runtime_failure_escapes ServerScenario.echo (Some "a-1")
           (ActionExecutor.mkSt (Scenario.world (Scenario.always Scenario.broken))
              None (ActionExecutor.new None)));
    reflexivity.
Defined.

(** ** With no cancellation pending, nothing is cancelled *)

Section Undisturbed.

Context {S : Type} (pe : S -> Env).

Lemma und_ret {A} (a : A) : undisturbed pe (ret a).
Proof. intros s Hc. split; [exact Hc | discriminate]. Qed.

Lemma und_get : undisturbed pe get.
Proof. intros s Hc. split; [exact Hc | discriminate]. Qed.

Lemma und_raise {A} (e : exn) :
  is_Exception e = true -> undisturbed pe (raise (A := A) e).
Proof. intros H s Hc. split; [exact Hc |]. simpl. now intros e0 [= <-]. Qed.

Lemma und_modify (f : S -> S) :
  (forall s, cancel_at (pe (f s)) = cancel_at (pe s)) ->
  undisturbed pe (modify f).
Proof. intros H s Hc. simpl. rewrite H. split; [exact Hc | discriminate]. Qed.

Lemma und_bind {A B} (m : M S A) (k : A -> M S B) :
  undisturbed pe m -> (forall a, undisturbed pe (k a)) ->
  undisturbed pe (bind m k).
Proof.
  intros Hm Hk s Hc. unfold bind. destruct (Hm s Hc) as [H1 H2].
  destruct (m s) as [[a | e] s1]; simpl in *; [now apply Hk |].
  split; [exact H1 |]. intros e0 [= <-]. now apply H2.
Qed.

Lemma und_try_except {A} (body : M S A) (clauses : exn -> option (M S A)) :
  undisturbed pe body ->
  (forall e suite, clauses e = Some suite -> undisturbed pe suite) ->
  undisturbed pe (try_except body clauses).
Proof.
  intros Hbody Hsuites s Hc. unfold try_except.
  destruct (Hbody s Hc) as [H1 H2].
  destruct (body s) as [[a | e] s1]; simpl in *.
  - split; [exact H1 | discriminate].
  - destruct (clauses e) as [suite |] eqn:Hcl.
    + now apply (Hsuites e suite Hcl).
    + split; [exact H1 | exact H2].
Qed.

Lemma und_zoom {T A} (pt : T -> Env) (proj : S -> T) (inj : T -> S -> S)
  (m : M T A) :
  (forall s, pt (proj s) = pe s) ->
  (forall t s, pe (inj t s) = pt t) ->
  undisturbed pt m -> undisturbed pe (zoom proj inj m).
Proof.
  intros Hproj Hinj Hm s Hc. unfold zoom. rewrite <- Hproj in Hc.
  destruct (Hm (proj s) Hc) as [H1 H2].
  destruct (m (proj s)) as [r t]. simpl in *. rewrite Hinj. auto.
Qed.

End Undisturbed.

Lemma und_communicate (cmdline : string) : undisturbed id (communicate cmdline).
Proof.
  intros w Hc. unfold communicate, id in *. rewrite Hc.
  rewrite bool_decide_eq_false_2 by discriminate.
  split; [exact Hc | discriminate].
Qed.

Lemma und_wait_for {A} (fut : M Env A) (timeout : Z) :
  undisturbed id fut -> undisturbed id (wait_for fut timeout).
Proof.
  intros Hfut w Hc. unfold wait_for, id in *.
  destruct (timeout <=? 0);
    [split; [exact Hc | now intros e [= <-]] |].
  destruct (Hfut w Hc) as [H1 H2].
  destruct (fut w) as [[a | e] w']; simpl in *.
  - destruct (_ <=? now w'); simpl;
      (split; [exact H1 |]); [now intros e [= <-] | discriminate].
  - specialize (H2 e eq_refl).
    destruct e; try discriminate H2;
      destruct (_ <=? now w'); simpl; (split; [exact H1 |]);
      intros e0 [= <-]; reflexivity.
Qed.

Lemma und_on_env {A} (m : M Env A) :
  undisturbed id m -> undisturbed DockerRuntime.env (DockerRuntime.on_env m).
Proof.
  intros H. unfold DockerRuntime.on_env.
  apply (und_zoom DockerRuntime.env id); [reflexivity | reflexivity | exact H].
Qed.

Lemma und_call_runtime {A} (m : M DockerRuntime.St A) :
  undisturbed DockerRuntime.env m ->
  undisturbed Handlers.env (Handlers.call_runtime m).
Proof.
  intros H. unfold Handlers.call_runtime.
  apply (und_zoom Handlers.env DockerRuntime.env);
    [reflexivity | reflexivity | exact H].
Qed.

(** One structural step, chosen by the shape of the computation; [known]
    closes the calls of methods already dealt with. *)
Ltac und_step known :=
  lazymatch goal with
  | |- undisturbed _ (bind _ _) => apply und_bind; [| intros ?]
  | |- undisturbed _ (DockerRuntime.on_env _) => apply und_on_env
  | |- undisturbed _ (Handlers.call_runtime _) => apply und_call_runtime
  | |- undisturbed _ (communicate _) => apply und_communicate
  | |- undisturbed _ (wait_for _ _) => apply und_wait_for
  | |- undisturbed _ (match ?x with _ => _ end) => destruct x
  | |- undisturbed _ (let _ := _ in _) => lazy zeta
  | |- undisturbed _ (ret _) => apply und_ret
  | |- undisturbed _ get => apply und_get
  | |- undisturbed _ (raise _) => apply und_raise; reflexivity
  | |- undisturbed _ (modify _) => apply und_modify; intros ?; reflexivity
  | |- undisturbed _ uuid4_hex => intros ? ?; split; [assumption | discriminate]
  | |- undisturbed _ (DockerRuntime.lift_res _) =>
      intros ? ?; split; [assumption | simpl; now intros ? [= <-]]
  | |- _ => known
  end.

Ltac und_with known := repeat (und_step known).

Ltac und := und_with ltac:(idtac; fail).

Ltac und_clauses :=
  let e := fresh "e" in
  let suite := fresh "suite" in
  intros e suite; destruct e; simpl; intros [= <-]; und.

Lemma und_run_docker_command (args : list string) (check : bool) :
  undisturbed id (DockerRuntime._run_docker_command args check).
Proof.
  unfold DockerRuntime._run_docker_command, DockerRuntime.decode. und.
Qed.

Lemma und_record_op (op : RuntimeOp) :
  undisturbed DockerRuntime.env (DockerRuntime.record_op op).
Proof. unfold DockerRuntime.record_op. und. Qed.

Ltac und_runtime :=
  und_with ltac:(idtac; lazymatch goal with
    | |- undisturbed _ (DockerRuntime._run_docker_command _ _) =>
        apply und_run_docker_command
    | |- undisturbed _ (DockerRuntime.record_op _) => apply und_record_op
    | |- undisturbed _ (try_except _ _) =>
        apply und_try_except; [| und_clauses]
    end).

Lemma und_create_container (options : option SandboxRuntimeOptions.t) :
  undisturbed DockerRuntime.env (DockerRuntime.create_container options).
Proof.
  unfold DockerRuntime.create_container, DockerRuntime.initialize,
    DockerRuntime._build_container_config, DockerRuntime.set_initialized,
    DockerRuntime.set_containers.
  und_runtime.
Qed.

Lemma und_execute_command (cid command : string) (timeout : option Z) :
  undisturbed DockerRuntime.env
    (DockerRuntime.execute_command cid command timeout).
Proof.
  unfold DockerRuntime.execute_command, DockerRuntime.not_found. und_runtime.
Qed.

Lemma und_copy_to_container (cid host_path container_path : string) :
  undisturbed DockerRuntime.env
    (DockerRuntime.copy_to_container cid host_path container_path).
Proof.
  unfold DockerRuntime.copy_to_container, DockerRuntime.not_found. und_runtime.
Qed.

Lemma und_copy_from_container (cid container_path host_path : string) :
  undisturbed DockerRuntime.env
    (DockerRuntime.copy_from_container cid container_path host_path).
Proof.
  unfold DockerRuntime.copy_from_container, DockerRuntime.not_found. und_runtime.
Qed.

Lemma und_get_container_status (cid : string) :
  undisturbed DockerRuntime.env (DockerRuntime.get_container_status cid).
Proof.
  unfold DockerRuntime.get_container_status, DockerRuntime.not_found. und_runtime.
Qed.

Lemma und_call_handler (handler : Handler) (request : ActionRequest.t) :
  is_builtin handler = true ->
  undisturbed Handlers.env (call_handler handler request).
Proof.
  destruct handler; simpl; try discriminate; intros _;
    unfold_handlers; unfold Handlers.set_response_metadata;
    und_with ltac:(idtac; lazymatch goal with
      | |- undisturbed _ (DockerRuntime.create_container _) =>
          apply und_create_container
      | |- undisturbed _ (DockerRuntime.execute_command _ _ _) =>
          apply und_execute_command
      | |- undisturbed _ (DockerRuntime.copy_to_container _ _ _) =>
          apply und_copy_to_container
      | |- undisturbed _ (DockerRuntime.copy_from_container _ _ _) =>
          apply und_copy_from_container
      | |- undisturbed _ (DockerRuntime.get_container_status _) =>
          apply und_get_container_status
      end).
Qed.

(** ** The built-in handlers write nothing but metadata into the response *)

Lemma same_outcome_refl (r : ActionResponse.t) : same_outcome r r.
Proof. repeat split. Qed.

Lemma same_outcome_trans (r1 r2 r3 : ActionResponse.t) :
  same_outcome r1 r2 -> same_outcome r2 r3 -> same_outcome r1 r3.
Proof.
  unfold same_outcome. intros (?&?&?&?&?) (?&?&?&?&?).
  repeat split; congruence.
Qed.

Lemma ko_ret {A} (a : A) : keeps_outcome (ret a).
Proof. intros h. apply same_outcome_refl. Qed.

Lemma ko_raise {A} (e : exn) : keeps_outcome (raise (A := A) e).
Proof. intros h. apply same_outcome_refl. Qed.

Lemma ko_bind {A B} (m : M Handlers.St A) (k : A -> M Handlers.St B) :
  keeps_outcome m -> (forall a, keeps_outcome (k a)) ->
  keeps_outcome (bind m k).
Proof.
  intros Hm Hk h. unfold bind. specialize (Hm h).
  destruct (m h) as [[a | e] h1]; simpl in *; [| exact Hm].
  eapply same_outcome_trans; [apply Hk | exact Hm].
Qed.

Lemma ko_call_runtime {A} (m : M DockerRuntime.St A) :
  keeps_outcome (Handlers.call_runtime m).
Proof. intros h. rewrite call_runtime_unfold. apply same_outcome_refl. Qed.

Lemma ko_set_response_metadata (key : string) (value : pyval) :
  keeps_outcome (Handlers.set_response_metadata key value).
Proof. intros h. repeat split. Qed.

Ltac ko_step :=
  lazymatch goal with
  | |- keeps_outcome (bind _ _) => apply ko_bind; [| intros ?]
  | |- keeps_outcome (Handlers.call_runtime _) => apply ko_call_runtime
  | |- keeps_outcome (Handlers.set_response_metadata _ _) =>
      apply ko_set_response_metadata
  | |- keeps_outcome (match ?x with _ => _ end) => destruct x
  | |- keeps_outcome (let _ := _ in _) => lazy zeta
  | |- keeps_outcome (ret _) => apply ko_ret
  | |- keeps_outcome (raise _) => apply ko_raise
  end.

Lemma ko_call_handler (handler : Handler) (request : ActionRequest.t) :
  is_builtin handler = true -> keeps_outcome (call_handler handler request).
Proof.
  destruct handler; simpl; try discriminate; intros _;
    unfold_handlers; repeat ko_step.
Qed.

(** ** Every built-in action is answered *)

Lemma builtin_action_outcome (request : ActionRequest.t)
  (action_id : option string) (rt : DockerRuntime.t) (s : ActionExecutor.St)
  (handler : Handler) :
  ActionExecutor._runtime (ActionExecutor.self s) = Some rt ->
  ActionExecutor._action_handlers (ActionExecutor.self s)
    (ActionRequest.action_type request) = Some handler ->
  is_builtin handler = true ->
  cancel_at (ActionExecutor.env s) = None ->
  exists response s',
    ActionExecutor.execute_action request action_id s = (Ok response, s')
    /\ ActionResponse.action_id response
       = fst (assign_id action_id (ActionExecutor.env s))
    /\ cancel_at (ActionExecutor.env s') = None
    /\ ((ActionResponse.status response = COMPLETED
         /\ ActionResponse.result response <> None
         /\ ActionResponse.error response = None)
        \/ (ActionResponse.status response = FAILED
            /\ ActionResponse.result response = None
            /\ ActionResponse.error response <> None
            /\ ActionResponse.execution_time response = 0)).
Proof.
  intros Hrt Hh Hb Hc.
  rewrite (execute_action_unfold request action_id rt s Hrt).
  rewrite (guarded_call_unfold
             (ActionExecutor._action_handlers (ActionExecutor.self s))
             request handler _ Hh).
  assert (Hc0 : cancel_at (Handlers.env (handler_start request action_id rt s))
                = None)
    by (unfold handler_start; simpl; now rewrite assign_id_cancel_at).
  destruct (und_call_handler handler request Hb _ Hc0) as [Hc1 Hnc].
  pose proof (nto_call_handler handler request Hb
                (handler_start request action_id rt s)) as Hnt.
  destruct (ko_call_handler handler request Hb
              (handler_start request action_id rt s))
    as (Hid & Hst & Hres & Herr & Htime).
  destruct (call_handler handler request _) as [[d | e] h']; simpl in *.
  - do 2 eexists. split; [reflexivity |]. simpl.
    split; [exact Hid |]. split; [exact Hc1 |]. left.
    split; [reflexivity |]. split; [discriminate | exact Herr].
  - specialize (Hnc e eq_refl).
    destruct e; try discriminate Hnc; try (now elim Hnt); simpl;
      do 2 eexists; (split; [reflexivity |]); simpl;
      (split; [exact Hid |]); (split; [exact Hc1 |]); right;
      (split; [reflexivity |]); (split; [exact Hres |]);
      (split; [discriminate | exact Htime]).
Qed.

(** When the executor holds a runtime, the handler is one of the eight
    built-in ones and no cancellation is pending, [execute_action] returns
    a response, with the id of the action.  The response is either
    COMPLETED with a result and no error, or FAILED with an error, no
    result and execution time 0; it is never RUNNING or TIMED_OUT. *)
Theorem builtin_action_is_always_answered (request : ActionRequest.t)
  (action_id : option string) (rt : DockerRuntime.t) (s : ActionExecutor.St)
  (handler : Handler) :
  ActionExecutor._runtime (ActionExecutor.self s) = Some rt ->
  ActionExecutor._action_handlers (ActionExecutor.self s)
    (ActionRequest.action_type request) = Some handler ->
  is_builtin handler = true ->
  cancel_at (ActionExecutor.env s) = None ->
  exists response s',
    ActionExecutor.execute_action request action_id s = (Ok response, s')
    /\ ActionResponse.action_id response
       = fst (assign_id action_id (ActionExecutor.env s))
    /\ ((ActionResponse.status response = COMPLETED
         /\ ActionResponse.result response <> None
         /\ ActionResponse.error response = None)
        \/ (ActionResponse.status response = FAILED
            /\ ActionResponse.result response = None
            /\ ActionResponse.error response <> None
            /\ ActionResponse.execution_time response = 0)).
Proof.
  intros Hrt Hh Hb Hc.
  destruct (builtin_action_outcome request action_id rt s handler Hrt Hh Hb Hc)
    as (response & s' & Hrun & Hid & _ & Hshape).
  exists response, s'. auto.
Qed.

Lemma builtin_action_is_always_answered_witness :
  exists response s',
    ActionExecutor.execute_action ServerScenario.echo None
      (Scenario.executor Scenario.broken Scenario.runtime1)
    = (Ok response, s')
    /\ ActionResponse.action_id response
       = fst (assign_id None
                (ActionExecutor.env
                   (Scenario.executor Scenario.broken Scenario.runtime1)))
    /\ ((ActionResponse.status response = COMPLETED
         /\ ActionResponse.result response <> None
         /\ ActionResponse.error response = None)
        \/ (ActionResponse.status response = FAILED
            /\ ActionResponse.result response = None
            /\ ActionResponse.error response <> None
            /\ ActionResponse.execution_time response = 0)).
Proof.
  apply (builtin_action_is_always_answered ServerScenario.echo None
           Scenario.runtime1
           (Scenario.executor Scenario.broken Scenario.runtime1)
           HExecuteCommand);
    reflexivity.
Defined.

(** ** action_executor.py: the life of an action in the server *)

Lemma listed_iff (action_id : string) (s : ActionServer.St) :
  listed action_id s <-> ActionServer._running_actions s !! action_id <> None.
Proof.
  unfold listed, ActionServer.get_running_actions. unfold_monad. simpl.
  rewrite list_elem_of_fmap. split.
  - intros [[k task] [-> Hin]]. apply elem_of_map_to_list in Hin.
    simpl. rewrite Hin. discriminate.
  - intros H. destruct (ActionServer._running_actions s !! action_id)
      as [task |] eqn:E; [| contradiction].
    exists (action_id, task). split; [reflexivity |].
    now apply elem_of_map_to_list.
Qed.

Lemma submit_action_spec (request : ActionRequest.t) (s : ActionServer.St) :
  ActionServer.submit_action request s
  = (Ok (next_action_id s),
     ActionServer.mkSt
       (ActionExecutor.mkSt
          (snd (assign_id None (ActionExecutor.env (ActionServer.ex s))))
          (ActionExecutor.factory_instance (ActionServer.ex s))
          (ActionExecutor.self (ActionServer.ex s)))
       (<[next_action_id s :=
            ActionServer.Pending request (next_action_id s)
              ActionServer.NotStarted]> (ActionServer._running_actions s))).
Proof.
  destruct s as [[w inst ex] tbl]. reflexivity.
Qed.

Lemma run_to_completion_pending (action_id aid : string)
  (request : ActionRequest.t) (at_ : ActionServer.Suspension)
  (s : ActionServer.St) :
  ActionServer._running_actions s !! action_id
  = Some (ActionServer.Pending request aid at_) ->
  ActionServer.run_to_completion action_id s
  = ActionServer.mkSt
      (snd (ActionExecutor.execute_action request (Some aid)
              (ActionServer.with_cancel None (ActionServer.ex s))))
      (<[action_id :=
           ActionServer.Done
             (ActionServer.outcome_of
                (ActionExecutor.execute_action request (Some aid)
                   (ActionServer.with_cancel None (ActionServer.ex s))))]>
         (ActionServer._running_actions s)).
Proof.
  intros H. unfold ActionServer.run_to_completion, ActionServer.run_task.
  rewrite H. reflexivity.
Qed.

Lemma get_action_result_returned (action_id : string)
  (response : ActionResponse.t) (s : ActionServer.St) :
  ActionServer._running_actions s !! action_id
  = Some (ActionServer.Done (ActionServer.Returned response)) ->
  ActionServer.get_action_result action_id s
  = (Ok (Some response),
     ActionServer.mkSt (ActionServer.ex s)
       (delete action_id (ActionServer._running_actions s)))
  /\ ActionServer._running_actions
       (ActionServer.mkSt (ActionServer.ex s)
          (delete action_id (ActionServer._running_actions s))) !! action_id
     = None
  /\ ActionServer.get_action_result action_id
       (ActionServer.mkSt (ActionServer.ex s)
          (delete action_id (ActionServer._running_actions s)))
     = (Ok None,
        ActionServer.mkSt (ActionServer.ex s)
          (delete action_id (ActionServer._running_actions s))).
Proof.
  unfold ActionServer.get_action_result, ActionServer.set_running,
    ActionServer.task_result.
  unfold_monad. destruct s as [e tbl]. simpl.
  intros ->. simpl. rewrite lookup_delete_eq. auto.
Qed.

(** The round trip of an action through the server, for a built-in handler
    and an executor that holds a runtime.  [submit_action] returns a new id
    and starts nothing; until the task has run, [get_action_result] returns
    [None].  Once the event loop has run the task, the id is still listed,
    and the first [get_action_result] returns the response, which carries
    the id; after that the id is no longer listed and further reads return
    [None]. *)
Theorem submitted_action_round_trip (request : ActionRequest.t)
  (s : ActionServer.St) (rt : DockerRuntime.t) (handler : Handler) :
  ActionExecutor._runtime (ActionExecutor.self (ActionServer.ex s)) = Some rt ->
  ActionExecutor._action_handlers (ActionExecutor.self (ActionServer.ex s))
    (ActionRequest.action_type request) = Some handler ->
  is_builtin handler = true ->
  exists action_id s1 response s2,
    ActionServer.submit_action request s = (Ok action_id, s1)
    /\ spawned (ActionExecutor.env (ActionServer.ex s1))
       = spawned (ActionExecutor.env (ActionServer.ex s))
    /\ ActionServer.get_action_result action_id s1 = (Ok None, s1)
    /\ listed action_id s1
    /\ listed action_id (ActionServer.run_to_completion action_id s1)
    /\ ActionServer.get_action_result action_id
         (ActionServer.run_to_completion action_id s1)
       = (Ok (Some response), s2)
    /\ ActionResponse.action_id response = action_id
    /\ ~ listed action_id s2
    /\ ActionServer.get_action_result action_id s2 = (Ok None, s2).
Proof.
  intros Hrt Hh Hb.
  set (aid := next_action_id s).
  set (s1 := snd (ActionServer.submit_action request s)).
  assert (Hsub : ActionServer.submit_action request s = (Ok aid, s1))
    by (subst s1; rewrite submit_action_spec; reflexivity).
  assert (Hs1 : s1 = _) by (subst s1; rewrite submit_action_spec; reflexivity).
  cbn [snd] in Hs1.
  assert (Hpending : ActionServer._running_actions s1 !! aid
                     = Some (ActionServer.Pending request aid
                               ActionServer.NotStarted))
    by (rewrite Hs1; simpl; apply lookup_insert_eq).
  destruct (builtin_action_outcome request (Some aid) rt
              (ActionServer.with_cancel None (ActionServer.ex s1)) handler)
    as (response & e' & Hrun & Hid & _ & _).
  { rewrite Hs1. exact Hrt. }
  { rewrite Hs1. exact Hh. }
  { exact Hb. }
  { reflexivity. }
  pose proof (run_to_completion_pending aid aid request _ s1 Hpending) as Hdone.
  rewrite Hrun in Hdone. unfold ActionServer.outcome_of in Hdone.
  cbn [fst snd] in Hdone.
  destruct (get_action_result_returned aid response
              (ActionServer.run_to_completion aid s1))
    as (Hread & Hgone & Hagain).
  { rewrite Hdone. simpl. apply lookup_insert_eq. }
  exists aid, s1, response. eexists.
  split; [exact Hsub |]. split.
  { rewrite Hs1. simpl. reflexivity. }
  split.
  { unfold ActionServer.get_action_result. unfold_monad.
    rewrite Hpending. reflexivity. }
  split; [apply listed_iff; rewrite Hpending; discriminate |].
  split.
  { apply listed_iff. rewrite Hdone. simpl. rewrite lookup_insert_eq.
    discriminate. }
  split; [exact Hread |]. split; [exact Hid |].
  split; [rewrite listed_iff; intros H; apply H; exact Hgone | exact Hagain].
Qed.

Lemma submitted_action_round_trip_witness :
  exists action_id s1 response s2,
    ActionServer.submit_action ServerScenario.echo
      (fresh_server Scenario.fine Scenario.runtime1)
    = (Ok action_id, s1)
    /\ spawned (ActionExecutor.env (ActionServer.ex s1))
       = spawned (ActionExecutor.env
                    (ActionServer.ex (fresh_server Scenario.fine Scenario.runtime1)))
    /\ ActionServer.get_action_result action_id s1 = (Ok None, s1)
    /\ listed action_id s1
    /\ listed action_id (ActionServer.run_to_completion action_id s1)
    /\ ActionServer.get_action_result action_id
         (ActionServer.run_to_completion action_id s1)
       = (Ok (Some response), s2)
    /\ ActionResponse.action_id response = action_id
    /\ ~ listed action_id s2
    /\ ActionServer.get_action_result action_id s2 = (Ok None, s2).
Proof.
  apply (submitted_action_round_trip ServerScenario.echo
           (fresh_server Scenario.fine Scenario.runtime1)
           Scenario.runtime1 HExecuteCommand);
    reflexivity.
Defined.

(** What comes after a cancellation.  A task that was submitted and had not
    started is cancelled with [True]; a second [cancel_action] returns
    [False] and changes nothing.  The next [get_action_result] does not
    return: it raises [CancelledError] to the caller and removes the entry,
    and from then on the id is unknown. *)
Theorem cancelled_action_afterwards (action_id aid : string)
  (request : ActionRequest.t) (s : ActionServer.St) :
  ActionServer._running_actions s !! action_id
  = Some (ActionServer.Pending request aid ActionServer.NotStarted) ->
  exists s1 s2,
    ActionServer.cancel_action action_id s = (Ok true, s1)
    /\ ActionServer.ex s1 = ActionServer.ex s
    /\ ActionServer.cancel_action action_id s1 = (Ok false, s1)
    /\ ActionServer.get_action_result action_id s1 = (Raise CancelledError, s2)
    /\ ~ listed action_id s2
    /\ ActionServer.get_action_result action_id s2 = (Ok None, s2).
Proof.
  intros Hpending. destruct s as [e tbl]. simpl in Hpending.
  set (s1 := ActionServer.mkSt e
               (<[action_id := ActionServer.Done
                                 (ActionServer.Raised CancelledError)]> tbl)).
  assert (Hdone : ActionServer._running_actions s1 !! action_id
                  = Some (ActionServer.Done (ActionServer.Raised CancelledError)))
    by apply lookup_insert_eq.
  exists s1. eexists. split.
  { unfold ActionServer.cancel_action, ActionServer.cancel_and_await,
      ActionServer.run_task, ActionServer.task_result.
    unfold_monad. simpl. rewrite Hpending. reflexivity. }
  split; [reflexivity |]. split.
  { apply cancel_action_noop. right. eexists. exact Hdone. }
  split; [apply (get_action_result_reraises action_id CancelledError s1 Hdone) |].
  split.
  - rewrite listed_iff. simpl. rewrite lookup_delete_eq. intros H. now apply H.
  - unfold ActionServer.get_action_result. unfold_monad. simpl.
    rewrite lookup_delete_eq. reflexivity.
Qed.

Lemma cancelled_action_afterwards_witness :
  exists s1 s2,
    ActionServer.cancel_action ServerScenario.the_id
      (snd ServerScenario.submitted) = (Ok true, s1)
    /\ ActionServer.ex s1 = ActionServer.ex (snd ServerScenario.submitted)
    /\ ActionServer.cancel_action ServerScenario.the_id s1 = (Ok false, s1)
    /\ ActionServer.get_action_result ServerScenario.the_id s1
       = (Raise CancelledError, s2)
    /\ ~ listed ServerScenario.the_id s2
    /\ ActionServer.get_action_result ServerScenario.the_id s2 = (Ok None, s2).
Proof.
  apply (cancelled_action_afterwards ServerScenario.the_id ServerScenario.the_id
           ServerScenario.echo (snd ServerScenario.submitted)).
  reflexivity.
Defined.



(** ** Examples *)

Lemma builtin_handlers_never_time_out_witness :
  match fst (ActionExecutor.execute_action
               (Scenario.request EXECUTE_COMMAND
                  [("command", "sleep 5"); ("container_id", "c1")] 1)
               (Some "a-1") (bare_executor Scenario.sleepy)) with
  | Ok response =>
      ActionResponse.status response = COMPLETED
      \/ ActionResponse.status response = FAILED
  | Raise _ => True
  end.
Proof.
  destruct (ActionExecutor.execute_action
              (Scenario.request EXECUTE_COMMAND
                 [("command", "sleep 5"); ("container_id", "c1")] 1)
              (Some "a-1") (bare_executor Scenario.sleepy))
    as [[response | e] s'] eqn:E; [| exact I].
  exact (builtin_handlers_never_time_out
           (Scenario.request EXECUTE_COMMAND
              [("command", "sleep 5"); ("container_id", "c1")] 1)
           (Some "a-1") (bare_executor Scenario.sleepy)
           HExecuteCommand eq_refl eq_refl response s' E).
Defined.

Lemma supplied_container_is_used_witness :
  Handlers.runtime
    (snd (call_handler HExecuteCommand ServerScenario.echo
            (handler_start ServerScenario.echo (Some "a-1") Scenario.runtime1
               (Scenario.executor Scenario.fine Scenario.runtime1))))
  = Scenario.runtime1
  /\ Handlers.response
       (snd (call_handler HExecuteCommand ServerScenario.echo
               (handler_start ServerScenario.echo (Some "a-1") Scenario.runtime1
                  (Scenario.executor Scenario.fine Scenario.runtime1))))
     = initial_response "a-1" ServerScenario.echo
  /\ (In OpCreate
        (ops (Handlers.env
                (snd (call_handler HExecuteCommand ServerScenario.echo
                        (handler_start ServerScenario.echo (Some "a-1")
                           Scenario.runtime1
                           (Scenario.executor Scenario.fine Scenario.runtime1))))))
      -> In OpCreate
           (ops (Handlers.env
                   (handler_start ServerScenario.echo (Some "a-1")
                      Scenario.runtime1
                      (Scenario.executor Scenario.fine Scenario.runtime1))))).
Proof.
  apply (supplied_container_is_used ServerScenario.echo HExecuteCommand
           (handler_start ServerScenario.echo (Some "a-1") Scenario.runtime1
              (Scenario.executor Scenario.fine Scenario.runtime1)));
    reflexivity.
Defined.
